(** * NextStep: interview session lifecycle and feedback derivation

    A shallow embedding of the server actions of the mock-interview
    application (createInterviewSession, generateInterviewQuestions,
    startInterviewWithQuestions, generateFeedbackFromTranscript,
    handleInterviewComplete) together with the properties of the session
    lifecycle that the design document states about them.

    Conventions of the embedding.
    - A JavaScript string is a [string]: code units are restricted to the
      range 0..255, and [String.length] is the JavaScript [length].
    - An optional string argument ([undefined], [null] or the empty string,
      which the source never tells apart: every use goes through [||],
      [&&] or [?.]) is a [string], the empty one standing for all three.
    - A JavaScript number is [NaN] or a rational; the binary rounding and
      the overflow of doubles are not represented.
    - The persistent store is total: an operation raises only where the
      client library rejects it for a missing record. Record identifiers
      are numbers that the store allocates, and a field holds the
      JavaScript value written to it: the validation of the schema, which
      is not part of the sources, is not represented.
    - Collaborators outside the repository (identity provider, text
      generation, JSON.parse, the clock) are fields of a [World].
    - The race of handleInterviewComplete is decided by the number of
      awaited calls of the derivation that settle before the timer fires.
      The source does not cancel the derivation that loses the race; the
      embedding follows the action, not the derivation left behind (see
      [race_with_timeout]). *)

From Stdlib Require Import String Ascii List ZArith QArith Qround Lia Bool.
From Stdlib Require Import DecimalString.
From stdpp Require Import gmap strings.

Import ListNotations.
Set Warnings "-register-all".
Local Open Scope list_scope.
Local Open Scope string_scope.

(** ** Strings as the source manipulates them *)

Module JsString.

Definition dquote : string := String (ascii_of_nat 34) EmptyString.
Definition newline : string := String (ascii_of_nat 10) EmptyString.

(** White space of [String.prototype.trim] and of the class [\s], within
    the code units represented. *)
Definition is_space (c : ascii) : bool :=
  let n := nat_of_ascii c in
  (((9 <=? n) && (n <=? 13)) || (n =? 32) || (n =? 160))%nat.

Definition is_digit (c : ascii) : bool :=
  let n := nat_of_ascii c in ((48 <=? n) && (n <=? 57))%nat.

(** The class [\w]: letters, digits and the underscore. *)
Definition is_word (c : ascii) : bool :=
  let n := nat_of_ascii c in
  is_digit c
  || (((65 <=? n) && (n <=? 90)) || ((97 <=? n) && (n <=? 122)) || (n =? 95))%nat.

Definition is_empty (s : string) : bool :=
  match s with EmptyString => true | _ => false end.

Fixpoint trimStart (s : string) : string :=
  match s with
  | String c s' => if is_space c then trimStart s' else s
  | EmptyString => EmptyString
  end.

Fixpoint trimEnd (s : string) : string :=
  match s with
  | String c s' =>
      let t := trimEnd s' in
      if is_space c && is_empty t then EmptyString else String c t
  | EmptyString => EmptyString
  end.

Definition trim (s : string) : string := trimEnd (trimStart s).

Fixpoint starts_with (p s : string) : bool :=
  match p, s with
  | EmptyString, _ => true
  | String a p', String b s' => Ascii.eqb a b && starts_with p' s'
  | String _ _, EmptyString => false
  end.

Fixpoint drop (n : nat) (s : string) : string :=
  match n, s with
  | S k, String _ s' => drop k s'
  | _, _ => s
  end.

(** Number of code units that [/```(?:json)?\n?/] consumes at the head of
    [s], or [None] when the pattern does not match there. *)
Definition fence_length (s : string) : option nat :=
  if starts_with "```" s then
    let r1 := drop 3 s in
    let j := if starts_with "json" r1 then 4 else 0 in
    let r2 := drop j r1 in
    let n := if starts_with newline r2 then 1 else 0 in
    Some (3 + j + n)
  else None.

(** [text.replace(/```(?:json)?\n?/g, empty)], scanning left to right;
    [skip] counts the code units of the current match still to drop. *)
Fixpoint strip_fences_from (skip : nat) (s : string) : string :=
  match s with
  | EmptyString => EmptyString
  | String c s' =>
      match skip with
      | S k => strip_fences_from k s'
      | O =>
          match fence_length s with
          | Some n => strip_fences_from (Nat.pred n) s'
          | None => String c (strip_fences_from 0 s')
          end
      end
  end.

Definition strip_fences (s : string) : string := strip_fences_from 0 s.

(** [s.indexOf(c)] and [s.lastIndexOf(c)]; [None] is the source's -1. *)
Fixpoint indexOf (c : ascii) (s : string) : option nat :=
  match s with
  | EmptyString => None
  | String a s' =>
      if Ascii.eqb a c then Some 0
      else match indexOf c s' with Some i => Some (S i) | None => None end
  end.

Fixpoint lastIndexOf (c : ascii) (s : string) : option nat :=
  match s with
  | EmptyString => None
  | String a s' =>
      match lastIndexOf c s' with
      | Some i => Some (S i)
      | None => if Ascii.eqb a c then Some 0 else None
      end
  end.

(** [s.substring(a, b)]: the arguments are swapped when [a > b] and the
    result is cut at the end of [s]. *)
Definition js_substring (a b : nat) (s : string) : string :=
  if (a <=? b)%nat then String.substring a (b - a) s
  else String.substring b (a - b) s.

Fixpoint join (sep : string) (l : list string) : string :=
  match l with
  | [] => EmptyString
  | [x] => x
  | x :: rest => x ++ sep ++ join sep rest
  end.

Fixpoint contains_char (c : ascii) (s : string) : bool :=
  match s with
  | EmptyString => false
  | String a s' => Ascii.eqb a c || contains_char c s'
  end.

Fixpoint contains_digit (s : string) : bool :=
  match s with
  | EmptyString => false
  | String a s' => is_digit a || contains_digit s'
  end.

(** *** The two patterns of the repair ladder *)

(** Splits off exactly [k] leading digits. *)
Fixpoint take_digits (k : nat) (s : string) : option (string * string) :=
  match k with
  | O => Some (EmptyString, s)
  | S k' =>
      match s with
      | String c s' =>
          if is_digit c then
            match take_digits k' s' with
            | Some (d, r) => Some (String c d, r)
            | None => None
            end
          else None
      | EmptyString => None
      end
  end.

Fixpoint skip_spaces (s : string) : string :=
  match s with
  | String c s' => if is_space c then skip_spaces s' else s
  | EmptyString => EmptyString
  end.

(** The tail [\s*\/\s*100] of the first pattern. *)
Definition slash_100 (s : string) : bool :=
  match skip_spaces s with
  | String c r => Ascii.eqb c "/" && starts_with "100" (skip_spaces r)
  | EmptyString => false
  end.

(** A greedy [\d{1,3}] followed by [rest]: three digits are tried first,
    then two, then one, as the backtracking matcher does. *)
Definition digits_then (rest : string -> bool) (s : string) : option string :=
  let try k :=
    match take_digits k s with
    | Some (d, r) => if rest r then Some d else None
    | None => None
    end in
  match try 3 with
  | Some d => Some d
  | None => match try 2 with
            | Some d => Some d
            | None => try 1
            end
  end.

(** [s.match(/(\d{1,3})\s*\/\s*100/)]: the capture of the leftmost
    match. *)
Fixpoint match_score_of_100 (s : string) : option string :=
  match digits_then slash_100 s with
  | Some d => Some d
  | None =>
      match s with
      | String _ s' => match_score_of_100 s'
      | EmptyString => None
      end
  end.

(** [\b] after a digit: the end of the text or a character outside [\w]. *)
Definition boundary_after_word (s : string) : bool :=
  match s with
  | String c _ => negb (is_word c)
  | EmptyString => true
  end.

(** [s.match(/(\b\d{1,3}\b)/)]; [prev_word] tells whether the character
    before the current position belongs to [\w]. *)
Fixpoint match_bare_number_from (prev_word : bool) (s : string) : option string :=
  match (if prev_word then None else digits_then boundary_after_word s) with
  | Some d => Some d
  | None =>
      match s with
      | String c s' => match_bare_number_from (is_word c) s'
      | EmptyString => None
      end
  end.

Definition match_bare_number (s : string) : option string :=
  match_bare_number_from false s.

(** [Number(d)] for a run of decimal digits. *)
Fixpoint digits_value (acc : Z) (d : string) : Z :=
  match d with
  | String c d' => digits_value (10 * acc + Z.of_nat (nat_of_ascii c - 48)) d'
  | EmptyString => acc
  end.

Definition number_of_digits (d : string) : Z := digits_value 0 d.

(** Decimal rendering of a number inside a template literal. *)
Definition decimal_of_Z (z : Z) : string :=
  match z with
  | Z0 => "0"
  | Zpos p => NilEmpty.string_of_uint (Pos.to_uint p)
  | Zneg p => "-" ++ NilEmpty.string_of_uint (Pos.to_uint p)
  end.

End JsString.

(** ** JavaScript values *)

Module Js.

Inductive JsNum : Type :=
| NaN
| Num (q : Q).

(** The values that JSON.parse and the object literals of the source
    produce. An array carries, besides its elements, the named properties
    assigned to it. An object is the list of its own properties in
    insertion order. *)
Inductive JsValue : Type :=
| JUndefined
| JNull
| JBool (b : bool)
| JNum (n : JsNum)
| JStr (s : string)
| JArr (elems : list JsValue) (props : list (string * JsValue))
| JObj (props : list (string * JsValue)).

Definition JInt (z : Z) : JsValue := JNum (Num (inject_Z z)).
Definition JArray (elems : list JsValue) : JsValue := JArr elems [].

(** ToBoolean. *)
Definition truthy (v : JsValue) : bool :=
  match v with
  | JUndefined | JNull => false
  | JBool b => b
  | JNum NaN => false
  | JNum (Num q) => negb (Qnum q =? 0)%Z
  | JStr s => negb (JsString.is_empty s)
  | JArr _ _ | JObj _ => true
  end.

Definition js_or (a b : JsValue) : JsValue := if truthy a then a else b.

(** [a ?? b]. *)
Definition nullish_or (a b : JsValue) : JsValue :=
  match a with
  | JUndefined | JNull => b
  | _ => a
  end.

Definition isArray (v : JsValue) : bool :=
  match v with JArr _ _ => true | _ => false end.

Fixpoint lookup_prop (k : string) (ps : list (string * JsValue)) : JsValue :=
  match ps with
  | [] => JUndefined
  | (k', v) :: rest => if String.eqb k' k then v else lookup_prop k rest
  end.

Fixpoint assign_prop (k : string) (v : JsValue) (ps : list (string * JsValue))
  : list (string * JsValue) :=
  match ps with
  | [] => [(k, v)]
  | (k', v') :: rest =>
      if String.eqb k' k then (k, v) :: rest
      else (k', v') :: assign_prop k v rest
  end.

(** [v.k] for a [v] that is neither [null] nor [undefined], and for the
    property names the source reads (none of them is built in on a
    primitive or on an array). *)
Definition get_prop (v : JsValue) (k : string) : JsValue :=
  match v with
  | JObj ps => lookup_prop k ps
  | JArr _ ps => lookup_prop k ps
  | _ => JUndefined
  end.

(** [v?.k]. *)
Definition optional_get (v : JsValue) (k : string) : JsValue :=
  match v with
  | JUndefined | JNull => JUndefined
  | _ => get_prop v k
  end.

(** Strict equality with a string literal. *)
Definition is_string (v : JsValue) (s : string) : bool :=
  match v with
  | JStr s' => String.eqb s' s
  | _ => false
  end.

(** [Math.round] on a number: the nearest integer, halves upwards. *)
Definition round_num (n : JsNum) : JsNum :=
  match n with
  | NaN => NaN
  | Num q => Num (inject_Z (Qfloor (q + (1 # 2))))
  end.

End Js.

Import Js.

(** ** Errors, collaborators and the store *)

Inductive Error : Type :=
| Unauthorized
| UserNotFound
| InterviewSessionNotFound
| SessionNotFound
| FeedbackTimeout
| TypeError
| SyntaxError
| RecordNotFound
| ModelFailure (message : string).

(** What [model.generateContent(prompt)] settles to. *)
Inductive ModelReply : Type :=
| ModelThrows (message : string)
| ModelText (text : string).

Record World : Type := {
  (** [auth()]: the identity of the caller, if any. *)
  auth_userId : option string;
  (** The text-generation collaborator. *)
  generateContent : string -> ModelReply;
  (** [JSON.parse]; [None] when it throws. *)
  JSON_parse : string -> option JsValue;
  (** ToNumber on strings, arrays and objects. *)
  ToNumber_object : JsValue -> JsNum;
  (** ToString, for values other than strings inside template literals. *)
  ToString_value : JsValue -> string;
  (** The clock, read by [Date.now()] and [new Date()]. *)
  Date_now : Z;
  (** The race of handleInterviewComplete: [Some n] when the 30 second
      timer fires after [n] awaited collaborator calls of the feedback
      derivation have settled, [None] when the derivation settles first. *)
  feedback_deadline : option nat
}.

Definition ToNumber (w : World) (v : JsValue) : JsNum :=
  match v with
  | JUndefined => NaN
  | JNull => Num 0
  | JBool b => Num (if b then 1 else 0)
  | JNum n => n
  | JStr _ | JArr _ _ | JObj _ => ToNumber_object w v
  end.

(** [Math.round(v)], for a [v] whose conversion to a number does not
    throw; where the source rounds a parsed value, [coercion_throws] is
    consulted first. *)
Definition Math_round (w : World) (v : JsValue) : JsValue :=
  JNum (round_num (ToNumber w v)).

(** The text of [v] inside a template literal, for a [v] whose conversion
    to a string does not throw. *)
Definition template (w : World) (v : JsValue) : string :=
  match v with
  | JStr s => s
  | _ => ToString_value w v
  end.

(** An own property named [k]. *)
Definition has_own (k : string) (ps : list (string * JsValue)) : bool :=
  existsb (fun p => String.eqb (fst p) k) ps.

(** ToNumber and ToString throw a TypeError on [v]. The values of
    JSON.parse hold no function, so the conversion to a primitive finds
    nothing to call on an object that has an own property toString (the
    inherited valueOf returns the object itself), and throws; on any other
    object the inherited toString answers. An array is converted by
    joining its elements, each of them converted in turn, unless it has an
    own property join, which is then not callable. [ToNumber_object] and
    [ToString_value] give the result where the conversion does not
    throw. *)
Fixpoint coercion_throws (v : JsValue) : bool :=
  match v with
  | JObj ps => has_own "toString" ps
  | JArr elems props =>
      has_own "toString" props
      || (negb (has_own "join" props)
          && (fix any (l : list JsValue) : bool :=
                match l with
                | [] => false
                | x :: rest => coercion_throws x || any rest
                end) elems)
  | _ => false
  end.

Inductive Status : Type :=
| SCHEDULED
| IN_PROGRESS
| COMPLETED
| FAILED
| CANCELLED.

Record User : Type := {
  user_id : N;
  user_industry : string;
  user_skills : list string
}.

Record Session : Type := {
  userId : N;
  sessionType : string;
  industry : string;
  role : string;
  difficulty : string;
  duration : Z;
  status : Status;
  questions : JsValue;
  startedAt : option Z;
  endedAt : option Z;
  overallScore : JsValue;
  technicalScore : JsValue;
  communicationScore : JsValue;
  confidenceScore : JsValue;
  strengths : JsValue;
  weaknesses : JsValue;
  detailedFeedback : JsValue
}.

Record CallAnalytics : Type := {
  ca_userId : N;
  ca_transcript : string;
  ca_startedAt : option Z;
  ca_endedAt : option Z;
  ca_metadata : JsValue
}.

(** The [data] of an update: the fields present are overwritten. *)
Record SessionData : Type := {
  d_status : option Status;
  d_startedAt : option Z;
  d_endedAt : option Z;
  d_overallScore : option JsValue;
  d_technicalScore : option JsValue;
  d_communicationScore : option JsValue;
  d_confidenceScore : option JsValue;
  d_strengths : option JsValue;
  d_weaknesses : option JsValue;
  d_detailedFeedback : option JsValue
}.

Definition apply_data (d : SessionData) (s : Session) : Session :=
  {| userId := userId s;
     sessionType := sessionType s;
     industry := industry s;
     role := role s;
     difficulty := difficulty s;
     duration := duration s;
     status := default (status s) (d_status d);
     questions := questions s;
     startedAt := match d_startedAt d with Some t => Some t | None => startedAt s end;
     endedAt := match d_endedAt d with Some t => Some t | None => endedAt s end;
     overallScore := default (overallScore s) (d_overallScore d);
     technicalScore := default (technicalScore s) (d_technicalScore d);
     communicationScore := default (communicationScore s) (d_communicationScore d);
     confidenceScore := default (confidenceScore s) (d_confidenceScore d);
     strengths := default (strengths s) (d_strengths d);
     weaknesses := default (weaknesses s) (d_weaknesses d);
     detailedFeedback := default (detailedFeedback s) (d_detailedFeedback d) |}.

Record Store : Type := {
  (** User records by the identity the identity provider issues. *)
  users : gmap string User;
  sessions : gmap N Session;
  (** Call analytics by session id. *)
  analytics : gmap N CallAnalytics
}.

Definition with_sessions (st : Store) (m : gmap N Session) : Store :=
  {| users := users st; sessions := m; analytics := analytics st |}.

Definition with_analytics (st : Store) (m : gmap N CallAnalytics) : Store :=
  {| users := users st; sessions := sessions st; analytics := m |}.

(** ** Asynchronous computations

    A server action is a computation over the store that returns, throws,
    or is still waiting for a collaborator when a timer fires. The third
    outcome only arises under the race of handleInterviewComplete. *)

Inductive Outcome (A : Type) : Type :=
| Returned (a : A)
| Thrown (e : Error)
| Suspended.

Arguments Returned {A} a.
Arguments Thrown {A} e.
Arguments Suspended {A}.

Record Machine : Type := {
  store : Store;
  (** Collaborator calls that still settle before the timer fires; [None]
      when no timer is running. *)
  timer : option nat
}.

Definition Async (A : Type) : Type := Machine -> Outcome A * Machine.

Definition ret {A} (a : A) : Async A := fun m => (Returned a, m).

Definition throw {A} (e : Error) : Async A := fun m => (Thrown e, m).

Definition bind {A B} (c : Async A) (k : A -> Async B) : Async B :=
  fun m =>
    match c m with
    | (Returned a, m') => k a m'
    | (Thrown e, m') => (Thrown e, m')
    | (Suspended, m') => (Suspended, m')
    end.

Notation "x <- c ;; k" := (bind c (fun x => k))
  (at level 100, c at next level, right associativity).
Notation "c ;;; k" := (bind c (fun _ => k))
  (at level 100, right associativity).

(** [try { body } catch (e) { handler e }]. *)
Definition try_catch {A} (body : Async A) (handler : Error -> Async A) : Async A :=
  fun m =>
    match body m with
    | (Thrown e, m') => handler e m'
    | r => r
    end.

(** [await] of a collaborator call [op]. *)
Definition await {A} (op : Store -> Outcome A * Store) : Async A :=
  fun m =>
    let settle t :=
      let (r, st) := op (store m) in (r, {| store := st; timer := t |}) in
    match timer m with
    | None => settle None
    | Some (S n) => settle (Some n)
    | Some O => (Suspended, m)
    end.

(** [Promise.race([p, timeout])] as its caller goes through it: [p] runs
    against the deadline, and when the timer fires first the race rejects.
    From there on this computation follows the caller alone. The source
    cancels nothing: the promise that lost the race runs on, and its later
    awaited calls write to the store beside the caller and after it has
    returned. What the store holds once the derivation has run on is
    therefore not what this computation leaves. Statements that include a
    timer that fires say of session and store only what every later write
    of the derivation preserves (the status COMPLETED, a score and a
    feedback text that are not null, the fields set at creation, the other
    records); that the session returned is the session stored, or that a
    particular score is stored, is stated only for a derivation that
    settles before the timer fires. *)
Definition race_with_timeout {A} (deadline : option nat) (p : Async A) : Async A :=
  fun m =>
    let (r, m') := p {| store := store m; timer := deadline |} in
    let back := {| store := store m'; timer := timer m |} in
    match r with
    | Suspended => (Thrown FeedbackTimeout, back)
    | _ => (r, back)
    end.

(** A request served from store [st], with no timer running. *)
Definition run {A} (c : Async A) (st : Store) : Outcome A * Store :=
  let (r, m) := c {| store := st; timer := None |} in (r, store m).

(** ** The persistent store *)

Module Db.

Definition user_findUnique (clerkUserId : string) : Async (option User) :=
  await (fun st => (Returned (users st !! clerkUserId), st)).

(** [db.interviewSession.create]: the store allocates the identifier. *)
Definition session_create (s : Session) : Async (N * Session) :=
  await (fun st =>
    let id := fresh (dom (sessions st)) in
    (Returned (id, s), with_sessions st (<[id := s]> (sessions st)))).

Definition session_findUnique (id : N) : Async (option Session) :=
  await (fun st => (Returned (sessions st !! id), st)).

(** [findFirst({ where: { id, userId } })]. *)
Definition session_findFirst (id : N) (owner : N) : Async (option Session) :=
  await (fun st =>
    (Returned
       (match sessions st !! id with
        | Some s => if (userId s =? owner)%N then Some s else None
        | None => None
        end), st)).

(** [update({ where: { id }, data })] rejects when no record has that id. *)
Definition session_update (id : N) (d : SessionData) : Async Session :=
  await (fun st =>
    match sessions st !! id with
    | Some s =>
        let s' := apply_data d s in
        (Returned s', with_sessions st (<[id := s']> (sessions st)))
    | None => (Thrown RecordNotFound, st)
    end).

Definition analytics_findUnique (sid : N) : Async (option CallAnalytics) :=
  await (fun st => (Returned (analytics st !! sid), st)).

(** [upsert({ where: { sessionId }, update, create })]. *)
Definition analytics_upsert (sid : N)
    (update : CallAnalytics -> CallAnalytics) (create : CallAnalytics)
  : Async CallAnalytics :=
  await (fun st =>
    let a := match analytics st !! sid with
             | Some a => update a
             | None => create
             end in
    (Returned a, with_analytics st (<[sid := a]> (analytics st)))).

(** [updateMany({ where: { sessionId }, data })]. *)
Definition analytics_updateMany (sid : N)
    (update : CallAnalytics -> CallAnalytics) : Async unit :=
  await (fun st =>
    (Returned tt,
     match analytics st !! sid with
     | Some a => with_analytics st (<[sid := update a]> (analytics st))
     | None => st
     end)).

End Db.

(** ** Collaborators as awaited calls *)

Definition auth (w : World) : Async (option string) :=
  await (fun st =>
    (Returned (match auth_userId w with
               | Some u => if JsString.is_empty u then None else Some u
               | None => None
               end), st)).

Definition model_generateContent (w : World) (prompt : string) : Async string :=
  await (fun st =>
    (match generateContent w prompt with
     | ModelThrows msg => Thrown (ModelFailure msg)
     | ModelText t => Returned t
     end, st)).

(** A synchronous step that throws a TypeError when it has no value. *)
Definition or_TypeError {A} (o : option A) : Async A :=
  match o with
  | Some a => ret a
  | None => throw TypeError
  end.

(** [a || b] on optional strings. *)
Definition str_or (a b : string) : string :=
  if JsString.is_empty a then b else a.

(** ** Question generation and session creation *)

(** The argument of createInterviewSession; a number field is 0 when the
    caller leaves it out. *)
Record SessionInput : Type := {
  in_role : string;
  in_difficulty : string;
  in_techStack : string;
  in_sessionType : string;
  in_questionCount : Z;
  in_industry : string;
  in_duration : Z
}.

Definition fallback_questions (role_name : string) : list string :=
  [ "Tell me about yourself and your background.";
    "What interests you most about working as a " ++ role_name ++ "?";
    "What are your greatest strengths?";
    "Describe a challenging project you worked on.";
    "How do you handle working under pressure?";
    "Where do you see yourself in 5 years?";
    "Why should we hire you for this position?";
    "Do you have any questions for us?" ].

Definition questions_value (l : list string) : JsValue := JArray (map JStr l).

Definition questions_prompt (sd : SessionInput) (u : User) : string :=
  let nl := JsString.newline ++ "    " in
  let q := JsString.dquote in
  "Prepare questions for a job interview."
  ++ nl ++ "The job role is " ++ in_role sd ++ "."
  ++ nl ++ "The job experience level is " ++ str_or (in_difficulty sd) "Mid" ++ "."
  ++ nl ++ "The tech stack used in the job is: "
  ++ str_or (in_techStack sd) (JsString.join ", " (user_skills u)) ++ "."
  ++ nl ++ "The focus between behavioural and technical questions should lean towards: "
  ++ str_or (in_sessionType sd) "Mixed" ++ "."
  ++ nl ++ "The amount of questions required is: "
  ++ JsString.decimal_of_Z (if (in_questionCount sd =? 0)%Z then 4%Z else in_questionCount sd)
  ++ "."
  ++ nl ++ "Please return only the questions, without any additional text."
  ++ nl ++ "The questions are going to be read by a voice assistant so do not use "
  ++ q ++ "/" ++ q ++ " or " ++ q ++ "*" ++ q
  ++ " or any other special characters which might break the voice assistant."
  ++ nl ++ "Return the questions formatted like this:"
  ++ nl ++ "[" ++ q ++ "Question 1" ++ q ++ ", " ++ q ++ "Question 2" ++ q ++ ", "
  ++ q ++ "Question 3" ++ q ++ "]"
  ++ nl ++ "Thank you! <3".

Definition generateInterviewQuestions (w : World) (sd : SessionInput) : Async JsValue :=
  uid <- auth w ;;
  match uid with
  | None => throw Unauthorized
  | Some clerk =>
      user <- Db.user_findUnique clerk ;;
      match user with
      | None => throw UserNotFound
      | Some u =>
          try_catch
            (text <- model_generateContent w (questions_prompt sd u) ;;
             let cleanedText := JsString.trim (JsString.strip_fences text) in
             match JSON_parse w cleanedText with
             | Some v => ret v
             | None => throw SyntaxError
             end)
            (fun _ => ret (questions_value (fallback_questions (in_role sd))))
      end
  end.

(** The record created: the fields that the source does not set hold the
    defaults of the store, null and the empty list. *)
Definition new_session (u : User) (sd : SessionInput) (questionsJson : JsValue) : Session :=
  {| userId := user_id u;
     sessionType := str_or (in_sessionType sd) "mock";
     industry := str_or (in_industry sd) (user_industry u);
     role := in_role sd;
     difficulty := str_or (in_difficulty sd) "intermediate";
     duration := if (in_duration sd =? 0)%Z then 30%Z else in_duration sd;
     status := SCHEDULED;
     questions := questionsJson;
     startedAt := None;
     endedAt := None;
     overallScore := JNull;
     technicalScore := JNull;
     communicationScore := JNull;
     confidenceScore := JNull;
     strengths := JArray [];
     weaknesses := JArray [];
     detailedFeedback := JNull |}.

(** The value returned to the client: the stored session, its identifier
    and the correlation id. *)
Record Created : Type := {
  created_id : N;
  created_session : Session;
  prepwiseInterviewId : string
}.

Definition createInterviewSession (w : World) (sd : SessionInput) : Async Created :=
  uid <- auth w ;;
  match uid with
  | None => throw Unauthorized
  | Some clerk =>
      user <- Db.user_findUnique clerk ;;
      match user with
      | None => throw UserNotFound
      | Some u =>
          try_catch
            (result <-
               try_catch
                 (questionsArray <- generateInterviewQuestions w sd ;;
                  ret (if isArray questionsArray then questionsArray else JArray [],
                       "prepwise-" ++ JsString.decimal_of_Z (Date_now w)))
                 (fun _ =>
                    ret (questions_value (fallback_questions (in_role sd)),
                         "prepwise-fallback-" ++ JsString.decimal_of_Z (Date_now w))) ;;
             let questionsJson :=
               if isArray (fst result) then fst result else JArray [] in
             created <- Db.session_create (new_session u sd questionsJson) ;;
             ret {| created_id := fst created;
                    created_session := snd created;
                    prepwiseInterviewId := snd result |})
            (fun error => throw error)
      end
  end.

(** ** Starting an interview *)

Record AssistantConfig : Type := {
  ac_name : string;
  ac_firstMessage : string;
  (** provider, model, language *)
  ac_transcriber : string * string * string;
  ac_voice_provider : string;
  ac_voice_voiceId : string;
  ac_voice_stability : Q;
  ac_voice_similarityBoost : Q;
  ac_voice_speed : Q;
  ac_voice_style : Q;
  ac_voice_useSpeakerBoost : bool;
  ac_model_provider : string;
  ac_model_model : string;
  (** the content of the single system message *)
  ac_model_system : string
}.

(** [typeof q === "string" ? q : (q.question || q.text || empty)]; reading
    a property of [null] or [undefined] throws. *)
Definition question_text (q : JsValue) : option JsValue :=
  match q with
  | JStr _ => Some q
  | JUndefined | JNull => None
  | _ => Some (js_or (js_or (get_prop q "question") (get_prop q "text")) (JStr EmptyString))
  end.

Fixpoint map_questions (l : list JsValue) : option (list JsValue) :=
  match l with
  | [] => Some []
  | q :: rest =>
      match question_text q with
      | None => None
      | Some t =>
          match map_questions rest with
          | None => None
          | Some ts => Some (t :: ts)
          end
      end
  end.

(** The template literal that prints each question throws a TypeError on
    a question that cannot be converted to a string. *)
Definition printable_questions (qs : list JsValue) : option unit :=
  if existsb coercion_throws qs then None else Some tt.

(** The configuration, for questions that can be printed. *)
Definition build_assistantConfig (w : World) (s : Session) (qs : list JsValue)
  : AssistantConfig :=
  let nl := JsString.newline in
  let formattedQuestions :=
    JsString.join nl (map (fun q => "- " ++ template w q) qs) in
  {| ac_name := "AI Interviewer";
     ac_firstMessage :=
       "Hello! Thank you for taking the time to speak with me today. "
       ++ "I'm excited to learn more about you and your experience for the "
       ++ role s ++ " position.";
     ac_transcriber := ("deepgram", "nova-2", "en");
     ac_voice_provider := "11labs";
     ac_voice_voiceId := "sarah";
     ac_voice_stability := 4 # 10;
     ac_voice_similarityBoost := 8 # 10;
     ac_voice_speed := 9 # 10;
     ac_voice_style := 5 # 10;
     ac_voice_useSpeakerBoost := true;
     ac_model_provider := "openai";
     ac_model_model := "gpt-4";
     ac_model_system :=
       "You are a professional job interviewer conducting a real-time voice interview with a candidate."
       ++ nl ++ "Interview Context:"
       ++ nl ++ "- Position: " ++ role s
       ++ nl ++ "- Level: " ++ str_or (difficulty s) "unspecified"
       ++ nl
       ++ nl ++ "Interview Guidelines:"
       ++ nl ++ "Focus on the structured question flow:"
       ++ nl ++ formattedQuestions
       ++ nl ++ "Be professional, yet warm. Keep answers brief, ask follow-ups when needed." |}.

Record Started : Type := {
  started_session : Session;
  assistantConfig : AssistantConfig;
  started_questions : list JsValue
}.

Definition startInterviewWithQuestions (w : World) (sessionId : N) : Async Started :=
  uid <- auth w ;;
  match uid with
  | None => throw Unauthorized
  | Some clerk =>
      user <- Db.user_findUnique clerk ;;
      match user with
      | None => throw UserNotFound
      | Some u =>
          found <- Db.session_findFirst sessionId (user_id u) ;;
          match found with
          | None => throw InterviewSessionNotFound
          | Some session =>
              try_catch
                (qs <- match questions session with
                       | JArr elems _ => or_TypeError (map_questions elems)
                       | _ => ret []
                       end ;;
                 or_TypeError (printable_questions qs) ;;;
                 let config := build_assistantConfig w session qs in
                 updatedSession <-
                   Db.session_update sessionId
                     {| d_status := Some IN_PROGRESS;
                        d_startedAt := Some (Date_now w);
                        d_endedAt := None; d_overallScore := None;
                        d_technicalScore := None; d_communicationScore := None;
                        d_confidenceScore := None; d_strengths := None;
                        d_weaknesses := None; d_detailedFeedback := None |} ;;
                 ret {| started_session := updatedSession;
                        assistantConfig := config;
                        started_questions := qs |})
                (fun error =>
                   try_catch
                     (Db.session_update sessionId
                        {| d_status := Some FAILED;
                           d_startedAt := None;
                           d_endedAt := None; d_overallScore := None;
                           d_technicalScore := None; d_communicationScore := None;
                           d_confidenceScore := None; d_strengths := None;
                           d_weaknesses := None; d_detailedFeedback := None |} ;;;
                      ret tt)
                     (fun _ => ret tt) ;;;
                   throw error)
          end
      end
  end.

(** ** Feedback derivation *)

(** An entry of the message log: a falsy entry, a plain string, or an
    object with the optional fields the source probes. *)
Inductive Message : Type :=
| MsgFalsy
| MsgText (s : string)
| MsgObject (content text transcript role type : string).

(** The filter of the message log. *)
Definition keep_message (m : Message) : bool :=
  match m with
  | MsgFalsy => false
  | MsgText s => negb (JsString.is_empty s)
  | MsgObject content text transcript _ _ =>
      negb (JsString.is_empty (str_or content (str_or text transcript)))
  end.

Definition render_message (m : Message) : string :=
  match m with
  | MsgFalsy => EmptyString
  | MsgText s => "User: " ++ s
  | MsgObject content text transcript role type =>
      str_or role (if String.eqb type "transcript" then "User" else str_or role "System")
      ++ ": " ++ str_or content (str_or text transcript)
  end.

(** The message log is preferred over the raw transcript. *)
Definition formatTranscript (transcript : string) (messages : list Message) : string :=
  match messages with
  | _ :: _ => JsString.join JsString.newline (map render_message (filter keep_message messages))
  | [] => transcript
  end.

(** [!formattedTranscript || formattedTranscript.trim().length < 10]. *)
Definition no_transcript (formattedTranscript : string) : bool :=
  JsString.is_empty formattedTranscript
  || (String.length (JsString.trim formattedTranscript) <? 10)%nat.

Definition category_entry (name : string) (score : JsValue) (comment : string) : JsValue :=
  JObj [("name", JStr name); ("score", score); ("comment", JStr comment)].

Definition five_categories (score : JsValue) (comment : string) : JsValue :=
  JArray [ category_entry "Communication Skills" score comment;
           category_entry "Technical Knowledge" score comment;
           category_entry "Problem Solving" score comment;
           category_entry "Cultural Fit" score comment;
           category_entry "Confidence and Clarity" score comment ].

Definition feedback_document (totalScore categoryScores : JsValue)
    (areasForImprovement : list string) (finalAssessment : string) : JsValue :=
  JObj [ ("totalScore", totalScore);
         ("categoryScores", categoryScores);
         ("strengths", JArray []);
         ("areasForImprovement", JArray (map JStr areasForImprovement));
         ("finalAssessment", JStr finalAssessment) ].

Definition fallbackFeedback : JsValue :=
  feedback_document (JInt 50) (five_categories (JInt 50) "No transcript provided")
    ["Transcript not available"]
    ("No transcript was provided for analysis. Please provide the interview "
     ++ "transcript to assess the candidate's performance.").

Definition model_error_fallback : JsValue :=
  feedback_document (JInt 60)
    (five_categories (JInt 60) "Could not generate detailed feedback due to model error")
    ["Feedback generation failed"]
    "Feedback generation encountered an error. Please retry.".

Definition array_elems (v : JsValue) : list JsValue :=
  match v with
  | JArr elems _ => elems
  | _ => []
  end.

(** [cats.find(c => c.name === name)]: [None] when the callback throws on
    a [null] entry, [Some JUndefined] when no entry has that name. *)
Fixpoint find_category (name : string) (cats : list JsValue) : option JsValue :=
  match cats with
  | [] => Some JUndefined
  | c :: rest =>
      match c with
      | JUndefined | JNull => None
      | _ => if is_string (get_prop c "name") name then Some c
             else find_category name rest
      end
  end.

(** [doc.categoryScores.find(c => c.name === name)?.score]. *)
Definition category_score (doc : JsValue) (name : string) : option JsValue :=
  match find_category name (array_elems (get_prop doc "categoryScores")) with
  | Some c => Some (optional_get c "score")
  | None => None
  end.

(** The update that flattens one of the two fixed documents. *)
Definition fixed_document_data (w : World) (doc : JsValue) (missing : Z)
  : option SessionData :=
  match category_score doc "Technical Knowledge",
        category_score doc "Communication Skills",
        category_score doc "Confidence and Clarity" with
  | Some t, Some c, Some f =>
      Some {| d_status := Some COMPLETED;
              d_startedAt := None;
              d_endedAt := Some (Date_now w);
              d_overallScore := Some (get_prop doc "totalScore");
              d_technicalScore := Some (nullish_or t (JInt missing));
              d_communicationScore := Some (nullish_or c (JInt missing));
              d_confidenceScore := Some (nullish_or f (JInt missing));
              d_strengths := Some (get_prop doc "strengths");
              d_weaknesses := Some (get_prop doc "areasForImprovement");
              d_detailedFeedback := Some (get_prop doc "finalAssessment") |}
  | _, _, _ => None
  end.

Definition feedback_prompt (formattedTranscript : string) : string :=
  let nl := JsString.newline in
  let q := JsString.dquote in
  let entry name :=
    "    {" ++ q ++ "name" ++ q ++ ":" ++ q ++ name ++ q ++ "," ++ q ++ "score" ++ q
    ++ ":number," ++ q ++ "comment" ++ q ++ ":" ++ q ++ "..." ++ q ++ "}" in
  "You are an AI interviewer analyzing a mock interview. Evaluate the candidate's performance based on the transcript below."
  ++ nl ++ "TRANSCRIPT:"
  ++ nl ++ formattedTranscript
  ++ nl
  ++ nl ++ "INSTRUCTIONS:"
  ++ nl ++ "- Provide scores 0-100 for each category listed below."
  ++ nl ++ "- Return ONLY valid JSON (no extra text) in the exact format:"
  ++ nl ++ "{"
  ++ nl ++ "  " ++ q ++ "totalScore" ++ q ++ ": number,"
  ++ nl ++ "  " ++ q ++ "categoryScores" ++ q ++ ": ["
  ++ nl ++ entry "Communication Skills" ++ ","
  ++ nl ++ entry "Technical Knowledge" ++ ","
  ++ nl ++ entry "Problem Solving" ++ ","
  ++ nl ++ entry "Cultural Fit" ++ ","
  ++ nl ++ entry "Confidence and Clarity"
  ++ nl ++ "  ],"
  ++ nl ++ "  " ++ q ++ "strengths" ++ q ++ ": [" ++ q ++ "..." ++ q ++ "],"
  ++ nl ++ "  " ++ q ++ "areasForImprovement" ++ q ++ ": [" ++ q ++ "..." ++ q ++ "],"
  ++ nl ++ "  " ++ q ++ "finalAssessment" ++ q ++ ": " ++ q ++ "..." ++ q
  ++ nl ++ "}"
  ++ nl ++ "Be concise and return valid JSON only.".

(** Fence stripping and the defensive search for the outermost braces. *)
Definition clean_response (modelResponseText : string) : string :=
  let cleanedText :=
    JsString.trim (JsString.strip_fences (JsString.trim modelResponseText)) in
  match JsString.indexOf "{" cleanedText, JsString.lastIndexOf "}" cleanedText with
  | Some jsonStart, Some jsonEnd =>
      if (jsonStart <? jsonEnd)%nat
      then JsString.js_substring jsonStart (jsonEnd + 1) cleanedText
      else cleanedText
  | _, _ => cleanedText
  end.

(** The numeric total recovered from a text that is not JSON. *)
Definition totalGuess (cleanedText : string) : option Z :=
  match JsString.match_score_of_100 cleanedText with
  | Some d => Some (JsString.number_of_digits d)
  | None =>
      match JsString.match_bare_number cleanedText with
      | Some d => Some (JsString.number_of_digits d)
      | None => None
      end
  end.

(** The document synthesised in the catch of JSON.parse. *)
Definition parse_fallback (cleanedText : string) : JsValue :=
  feedback_document
    (match totalGuess cleanedText with
     | Some n => JInt (Z.max 0 (Z.min 100 n))
     | None => JInt 75
     end)
    (five_categories (JInt 75) "Auto-generated fallback")
    ["Could not parse model JSON; using fallback values"]
    (JsString.js_substring 0 1000 cleanedText).

Definition parse_feedback (w : World) (cleanedText : string) : JsValue :=
  match JSON_parse w cleanedText with
  | Some v => v
  | None => parse_fallback cleanedText
  end.

(** [o.k = x] in strict mode: a TypeError on a primitive. *)
Definition set_prop (o : JsValue) (k : string) (x : JsValue) : option JsValue :=
  match o with
  | JObj ps => Some (JObj (assign_prop k x ps))
  | JArr elems ps => Some (JArr elems (assign_prop k x ps))
  | _ => None
  end.

(** [if (!cond(o.k)) o.k = x], with the TypeError of reading a property of
    [null] or [undefined]. *)
Definition ensure_prop (ok : JsValue -> bool) (k : string) (x : JsValue -> JsValue)
    (o : JsValue) : option JsValue :=
  match o with
  | JUndefined | JNull => None
  | _ => if ok (get_prop o k) then Some o else set_prop o k (x o)
  end.

Definition nonempty_array (v : JsValue) : bool :=
  match v with
  | JArr (_ :: _) _ => true
  | _ => false
  end.

(** The block under the comment Ensure structure. *)
Definition ensure_structure (feedback : JsValue) : option JsValue :=
  f1 ← ensure_prop truthy "totalScore" (fun _ => JInt 75) feedback;
  f2 ← ensure_prop nonempty_array "categoryScores"
         (fun f => five_categories (get_prop f "totalScore") "Auto") f1;
  f3 ← ensure_prop isArray "strengths" (fun _ => JArray []) f2;
  ensure_prop isArray "areasForImprovement" (fun _ => JArray []) f3.

(** [Math.round(x) || missing]. *)
Definition rounded_or (w : World) (x : JsValue) (missing : Z) : JsValue :=
  js_or (Math_round w x) (JInt missing).

(** The object updateData; [None] when building it throws a TypeError: a
    null entry met by find, or a value that Math.round cannot convert to a
    number. *)
Definition updateData (w : World) (feedback : JsValue) (cleanedText : string)
  : option SessionData :=
  match category_score feedback "Technical Knowledge",
        category_score feedback "Communication Skills",
        category_score feedback "Confidence and Clarity" with
  | Some t, Some c, Some f =>
      if coercion_throws (get_prop feedback "totalScore")
         || coercion_throws t || coercion_throws c || coercion_throws f
      then None
      else
      Some {| d_status := Some COMPLETED;
              d_startedAt := None;
              d_endedAt := Some (Date_now w);
              d_overallScore := Some (rounded_or w (get_prop feedback "totalScore") 75);
              d_technicalScore := Some (rounded_or w t 50);
              d_communicationScore := Some (rounded_or w c 50);
              d_confidenceScore := Some (rounded_or w f 50);
              d_strengths := Some (get_prop feedback "strengths");
              d_weaknesses := Some (get_prop feedback "areasForImprovement");
              d_detailedFeedback :=
                Some (js_or (get_prop feedback "finalAssessment")
                        (js_or (JStr (JsString.js_substring 0 200 cleanedText))
                               (JStr "Feedback generated"))) |}
  | _, _, _ => None
  end.

Definition metadata_with (k v : string) : JsValue := JObj [(k, JStr v)].

Definition set_transcript (t : string) (now : Z) (a : CallAnalytics) : CallAnalytics :=
  {| ca_userId := ca_userId a; ca_transcript := t; ca_startedAt := ca_startedAt a;
     ca_endedAt := Some now; ca_metadata := ca_metadata a |}.

Definition set_metadata (md : JsValue) (a : CallAnalytics) : CallAnalytics :=
  {| ca_userId := ca_userId a; ca_transcript := ca_transcript a;
     ca_startedAt := ca_startedAt a; ca_endedAt := ca_endedAt a; ca_metadata := md |}.

(** A call that must not fail the caller: [try { c } catch { log }]. *)
Definition best_effort {A} (c : Async A) : Async unit :=
  try_catch (c ;;; ret tt) (fun _ => ret tt).

(** The [try] block of generateFeedbackFromTranscript. *)
Definition generateFeedback_try (w : World)
    (sessionId : N) (transcript : string) (messages : list Message) : Async JsValue :=
  found <- Db.session_findUnique sessionId ;;
  match found with
  | None => ret JNull
  | Some session =>
      let formattedTranscript := formatTranscript transcript messages in
      let stored := str_or formattedTranscript "No transcript" in
      best_effort
        (Db.analytics_upsert sessionId
           (set_transcript stored (Date_now w))
           {| ca_userId := userId session; ca_transcript := stored;
              ca_startedAt := None; ca_endedAt := Some (Date_now w);
              ca_metadata := JNull |}) ;;;
      if no_transcript formattedTranscript then
        d <- or_TypeError (fixed_document_data w fallbackFeedback 50) ;;
        Db.session_update sessionId d ;;;
        ret fallbackFeedback
      else
        reply <-
          try_catch
            (text <- model_generateContent w (feedback_prompt formattedTranscript) ;;
             ret (inr text))
            (fun modelErr =>
               best_effort
                 (Db.analytics_updateMany sessionId
                    (set_metadata
                       (metadata_with "modelError"
                          match modelErr with
                          | ModelFailure msg => "Error: " ++ msg
                          | _ => "Error"
                          end))) ;;;
               d <- or_TypeError (fixed_document_data w model_error_fallback 60) ;;
               Db.session_update sessionId d ;;;
               ret (inl model_error_fallback)) ;;
        match reply with
        | inl fallback => ret fallback
        | inr modelResponseText =>
            let cleanedText := clean_response modelResponseText in
            feedback <- or_TypeError (ensure_structure (parse_feedback w cleanedText)) ;;
            d <- or_TypeError (updateData w feedback cleanedText) ;;
            Db.session_update sessionId d ;;;
            let raw := JsString.js_substring 0 5000 modelResponseText in
            best_effort
              (Db.analytics_upsert sessionId
                 (set_metadata (metadata_with "rawModelOutput" raw))
                 {| ca_userId := userId session; ca_transcript := formattedTranscript;
                    ca_startedAt := None; ca_endedAt := Some (Date_now w);
                    ca_metadata := metadata_with "rawModelOutput" raw |}) ;;;
            ret feedback
        end
  end.

(** The data written by the [catch] block of
    generateFeedbackFromTranscript. *)
Definition fatal_data (w : World) : SessionData :=
  {| d_status := Some COMPLETED;
     d_startedAt := None;
     d_endedAt := Some (Date_now w);
     d_overallScore := Some (JInt 50);
     d_technicalScore := None; d_communicationScore := None;
     d_confidenceScore := None;
     d_strengths := Some (JArray []);
     d_weaknesses := Some (JArray [JStr "Feedback generation failed"]);
     d_detailedFeedback :=
       Some (JStr "Interview completed. Feedback generation encountered an issue.") |}.

Definition generateFeedbackFromTranscript (w : World)
    (sessionId : N) (transcript : string) (messages : list Message) : Async JsValue :=
  try_catch
    (generateFeedback_try w sessionId transcript messages)
    (fun error =>
       best_effort (Db.session_update sessionId (fatal_data w)) ;;;
       ret JNull).

(** ** Completion *)

Record Completed : Type := {
  completed_session : option Session;
  feedback : JsValue
}.

(** The upsert of the call analytics at the head of
    handleInterviewComplete. *)
Definition complete_analytics (w : World) (sessionId : N) (session : Session)
    (transcript : string) (messages : list Message) : Async CallAnalytics :=
  let stored := str_or transcript "No transcript available" in
  let metadata := JObj [("messages", JInt (Z.of_nat (length messages)))] in
  Db.analytics_upsert sessionId
    (fun a => set_metadata metadata (set_transcript stored (Date_now w) a))
    {| ca_userId := userId session; ca_transcript := stored;
       ca_startedAt := startedAt session; ca_endedAt := Some (Date_now w);
       ca_metadata := metadata |}.

(** The data written when the race with the timer rejects. *)
Definition degraded_data (w : World) : SessionData :=
  {| d_status := Some COMPLETED;
     d_startedAt := None;
     d_endedAt := Some (Date_now w);
     d_overallScore := Some (JInt 50);
     d_technicalScore := None; d_communicationScore := None;
     d_confidenceScore := None; d_strengths := None;
     d_weaknesses := None;
     d_detailedFeedback :=
       Some (JStr ("Interview completed successfully. "
                   ++ "Feedback generation encountered an issue.")) |}.

(** The data of the last resort of handleInterviewComplete. *)
Definition failed_data (w : World) : SessionData :=
  {| d_status := Some FAILED;
     d_startedAt := None;
     d_endedAt := Some (Date_now w);
     d_overallScore := None;
     d_technicalScore := None; d_communicationScore := None;
     d_confidenceScore := None; d_strengths := None;
     d_weaknesses := None;
     d_detailedFeedback :=
       Some (JStr "Interview encountered an error during completion.") |}.

Definition handleInterviewComplete (w : World)
    (sessionId : N) (transcript : string) (messages : list Message) : Async Completed :=
  try_catch
    (found <- Db.session_findUnique sessionId ;;
     match found with
     | None => throw SessionNotFound
     | Some session =>
         best_effort (complete_analytics w sessionId session transcript messages) ;;;
         fb <-
           try_catch
             (race_with_timeout (feedback_deadline w)
                (generateFeedbackFromTranscript w sessionId transcript messages))
             (fun feedbackErr =>
                best_effort (Db.session_update sessionId (degraded_data w)) ;;;
                ret JNull) ;;
         updatedSession <- Db.session_findUnique sessionId ;;
         ret {| completed_session := updatedSession; feedback := fb |}
     end)
    (fun err =>
       best_effort (Db.session_update sessionId (failed_data w)) ;;;
       throw err).

(** ** Reading a session back *)

Definition getInterviewSession (w : World) (sessionId : N)
  : Async (Session * option CallAnalytics) :=
  uid <- auth w ;;
  match uid with
  | None => throw Unauthorized
  | Some clerk =>
      user <- Db.user_findUnique clerk ;;
      match user with
      | None => throw UserNotFound
      | Some u =>
          found <- Db.session_findFirst sessionId (user_id u) ;;
          match found with
          | None => throw InterviewSessionNotFound
          | Some session =>
              a <- Db.analytics_findUnique sessionId ;;
              ret (session, a)
          end
      end
  end.

(** ** Specifications of asynchronous computations

    [wp c Qr Qt Qs m]: run from machine [m], the computation [c] ends in a
    store that satisfies [Qr a] when it returns [a], [Qt e] when it throws
    [e], and [Qs] when the timer fires while it waits. *)

Definition wp {A} (c : Async A)
    (Qr : A -> Store -> Prop) (Qt : Error -> Store -> Prop) (Qs : Store -> Prop)
    (m : Machine) : Prop :=
  match c m with
  | (Returned a, m') => Qr a (store m')
  | (Thrown e, m') => Qt e (store m')
  | (Suspended, m') => Qs (store m')
  end.

Definition has_session (id : N) (st : Store) : Prop :=
  is_Some (sessions st !! id).

Definition session_satisfies (id : N) (P : Session -> Prop) (st : Store) : Prop :=
  exists s, sessions st !! id = Some s /\ P s.

Definition session_status (id : N) (x : Status) (st : Store) : Prop :=
  session_satisfies id (fun s => status s = x) st.

(** A terminal state with its score and its feedback text set. *)
Definition settled (s : Session) : Prop :=
  status s = COMPLETED /\ overallScore s <> JNull /\ detailedFeedback s <> JNull.

(** Whatever the session was, the update [d] leaves it satisfying [P]. *)
Definition writes (d : SessionData) (P : Session -> Prop) : Prop :=
  forall s, P (apply_data d s).

(** The store in which the race of handleInterviewComplete starts: the
    caller's store once the call analytics have been recorded. *)
Definition store_at_race (w : World) (id : N) (s : Session)
    (transcript : string) (messages : list Message) (st : Store) : Store :=
  snd (run (best_effort (complete_analytics w id s transcript messages)) st).

(** The machine on which the feedback derivation runs under the race. *)
Definition racing (w : World) (st : Store) : Machine :=
  {| store := st; timer := feedback_deadline w |}.

(** An entry of categoryScores that is an object, as the collaborator is
    asked to produce them. *)
Definition category_object (c : JsValue) : Prop := exists ps, c = JObj ps.

(** A number equal to zero. *)
Definition is_zero (v : JsValue) : Prop := exists q, v = JNum (Num q) /\ (q == 0)%Q.

(** [Math.round] on a rational. *)
Definition round_half_up (q : Q) : Z := Qfloor (q + (1 # 2)).

(** The transcript is at least as long as the threshold of ten. *)
Definition real_transcript (transcript : string) (messages : list Message) : Prop :=
  (10 <= String.length (JsString.trim (formatTranscript transcript messages)))%nat.

(** The value of totalScore after the first check. *)
Definition total_after (ps : list (string * JsValue)) : JsValue :=
  if truthy (lookup_prop "totalScore" ps) then lookup_prop "totalScore" ps else JInt 75.

(** The value of categoryScores after the second check. *)
Definition categories_after (ps : list (string * JsValue)) : JsValue :=
  if nonempty_array (lookup_prop "categoryScores" ps)
  then lookup_prop "categoryScores" ps
  else five_categories (total_after ps) "Auto".

(** The total of the synthesised document once the structure checks have
    run: a recovered total of 0 does not pass the first check. *)
Definition total_kept (cleanedText : string) : Z :=
  match totalGuess cleanedText with
  | Some n => if (Z.max 0 (Z.min 100 n) =? 0)%Z then 75%Z else Z.max 0 (Z.min 100 n)
  | None => 75%Z
  end.

(** The question list that createInterviewSession stores, read off the
    answer of the collaborator. *)
Definition stored_questions (w : World) (sd : SessionInput) (u : User) : JsValue :=
  match generateContent w (questions_prompt sd u) with
  | ModelThrows _ => questions_value (fallback_questions (in_role sd))
  | ModelText text =>
      match JSON_parse w (JsString.trim (JsString.strip_fences text)) with
      | None => questions_value (fallback_questions (in_role sd))
      | Some v => if isArray v then v else JArray []
      end
  end.

(** The caller is authenticated and has a user record. *)
Definition signed_in (w : World) (st : Store) (u : User) : Prop :=
  exists clerk,
    auth_userId w = Some clerk
    /\ JsString.is_empty clerk = false
    /\ users st !! clerk = Some u.

(** A stored question list that is non-empty and whose strings contain
    neither a slash nor an asterisk. *)
Definition speakable (v : JsValue) : Prop :=
  exists l,
    v = questions_value l
    /\ l <> []
    /\ Forall (fun q => JsString.contains_char "/" q = false
                        /\ JsString.contains_char "*" q = false) l.

(** What the session receives from a document that is an object whose
    category entries are objects. *)
Definition flattened (w : World) (ps : list (string * JsValue)) (text : string)
    (t c f : JsValue) : SessionData :=
  {| d_status := Some COMPLETED;
     d_startedAt := None;
     d_endedAt := Some (Date_now w);
     d_overallScore := Some (rounded_or w (lookup_prop "totalScore" ps) 75);
     d_technicalScore := Some (rounded_or w (optional_get t "score") 50);
     d_communicationScore := Some (rounded_or w (optional_get c "score") 50);
     d_confidenceScore := Some (rounded_or w (optional_get f "score") 50);
     d_strengths := Some (lookup_prop "strengths" ps);
     d_weaknesses := Some (lookup_prop "areasForImprovement" ps);
     d_detailedFeedback :=
       Some (js_or (lookup_prop "finalAssessment" ps)
               (js_or (JStr (JsString.js_substring 0 200 text))
                      (JStr "Feedback generated"))) |}.

(** The total and the category scores of a document can be converted to
    numbers: none of them is an object with an own property toString, or an
    array that holds one. *)
Definition convertible_scores (ps : list (string * JsValue)) : Prop :=
  coercion_throws (lookup_prop "totalScore" ps) = false
  /\ Forall (fun c => coercion_throws (get_prop c "score") = false)
       (array_elems (lookup_prop "categoryScores" ps)).

(** ** Further specifications *)

(** The check at the head of the four actions that read the identity of
    the caller rejects with [e]. *)
Inductive rejected (w : World) (st : Store) : Error -> Prop :=
| no_identity :
    auth_userId w = None -> rejected w st Unauthorized
| empty_identity :
    auth_userId w = Some EmptyString -> rejected w st Unauthorized
| no_user_record clerk :
    auth_userId w = Some clerk ->
    JsString.is_empty clerk = false ->
    users st !! clerk = None ->
    rejected w st UserNotFound.

(** [s'] has the fields set at creation as [s] has them. *)
Definition same_interview (s s' : Session) : Prop :=
  userId s' = userId s
  /\ sessionType s' = sessionType s
  /\ industry s' = industry s
  /\ role s' = role s
  /\ difficulty s' = difficulty s
  /\ duration s' = duration s
  /\ questions s' = questions s.

(** [s'] has the fields that hold the outcome of an interview as [s] has
    them. *)
Definition same_results (s s' : Session) : Prop :=
  endedAt s' = endedAt s
  /\ overallScore s' = overallScore s
  /\ technicalScore s' = technicalScore s
  /\ communicationScore s' = communicationScore s
  /\ confidenceScore s' = confidenceScore s
  /\ strengths s' = strengths s
  /\ weaknesses s' = weaknesses s
  /\ detailedFeedback s' = detailedFeedback s.

(** Every session but [id] is as it was, and so are the user records. *)
Definition others_untouched (id : N) (st st' : Store) : Prop :=
  users st' = users st
  /\ forall id', id' <> id -> sessions st' !! id' = sessions st !! id'.

(** The question texts that startInterviewWithQuestions reads off a stored
    question list; [None] when an entry is [null]. *)
Definition session_questions (s : Session) : option (list JsValue) :=
  match questions s with
  | JArr elems _ => map_questions elems
  | _ => Some []
  end.

(** The data that startInterviewWithQuestions writes when it returns, and
    the data that it writes when it throws. *)
Definition started_data (w : World) : SessionData :=
  {| d_status := Some IN_PROGRESS;
     d_startedAt := Some (Date_now w);
     d_endedAt := None; d_overallScore := None;
     d_technicalScore := None; d_communicationScore := None;
     d_confidenceScore := None; d_strengths := None;
     d_weaknesses := None; d_detailedFeedback := None |}.

Definition start_failed_data : SessionData :=
  {| d_status := Some FAILED;
     d_startedAt := None;
     d_endedAt := None; d_overallScore := None;
     d_technicalScore := None; d_communicationScore := None;
     d_confidenceScore := None; d_strengths := None;
     d_weaknesses := None; d_detailedFeedback := None |}.

(** The text [q] occurs in the text [s]. *)
Definition occurs_in (q s : string) : Prop :=
  exists pre post, s = pre ++ q ++ post.

(** The call analytics of session [id] hold a transcript that is not
    empty and the current time as end time. *)
Definition recorded (w : World) (id : N) (st : Store) : Prop :=
  exists a,
    analytics st !! id = Some a
    /\ JsString.is_empty (ca_transcript a) = false
    /\ ca_endedAt a = Some (Date_now w).

(** An assertion on stores that survives the two kinds of write that the
    completion of session [id] performs: a write of the call analytics of
    [id], and an update of session [id] that leaves its start time
    alone. *)
Definition stable (id : N) (I : Store -> Prop) : Prop :=
  (forall st a, I st -> I (with_analytics st (<[id := a]> (analytics st))))
  /\ (forall st s d,
        I st -> sessions st !! id = Some s -> d_startedAt d = None ->
        I (with_sessions st (<[id := apply_data d s]> (sessions st)))).

(** Session [id] is there and has the creation fields and the start time
    of [s]. *)
Definition same_session (id : N) (s : Session) (st : Store) : Prop :=
  exists s', sessions st !! id = Some s'
             /\ same_interview s s' /\ startedAt s' = startedAt s.

(** The assertion carried through a completion. *)
Definition kept (w : World) (id : N) (I : Store -> Prop) (st : Store) : Prop :=
  I st /\ recorded w id st.

(** A value that is neither an object nor an array. *)
Definition primitive (v : JsValue) : bool :=
  match v with
  | JObj _ | JArr _ _ => false
  | _ => true
  end.

(** [null] or [undefined]. *)
Definition nullish (v : JsValue) : bool :=
  match v with
  | JUndefined | JNull => true
  | _ => false
  end.

(** A feedback document on which the block Ensure structure has nothing
    left to do. *)
Definition well_formed_feedback (fb : JsValue) : Prop :=
  truthy (get_prop fb "totalScore") = true
  /\ nonempty_array (get_prop fb "categoryScores") = true
  /\ isArray (get_prop fb "strengths") = true
  /\ isArray (get_prop fb "areasForImprovement") = true.

(** The text [s] holds three backticks in a row. *)
Fixpoint has_fence (s : string) : bool :=
  match s with
  | EmptyString => false
  | String _ s' => JsString.starts_with "```" s || has_fence s'
  end.

(** ** The client: the list of sessions and the setup screen *)

(** A session as the client holds it: the stored record with its
    identifier. *)
Record ClientSession : Type := {
  cs_id : N;
  cs_record : Session
}.

Inductive View : Type :=
| ViewDashboard
| ViewSetup
| ViewInterview
| ViewSetupComplete.

(** The state of InterviewClient. *)
Record ClientState : Type := {
  view : View;
  client_sessions : list ClientSession;
  currentSession : option ClientSession;
  callData : option Started
}.

Definition handleSessionComplete (updatedSession : ClientSession) (c : ClientState)
  : ClientState :=
  {| view := ViewDashboard;
     client_sessions :=
       map (fun session =>
              if (cs_id session =? cs_id updatedSession)%N
              then updatedSession else session)
           (client_sessions c);
     currentSession := None;
     callData := None |}.

(** The preview of the setup screen, for a question list that is an
    array: the value of [q.question] that each of the first three lines
    prints after its number; [None] when reading the property throws. *)
Definition preview_text (q : JsValue) : option JsValue :=
  match q with
  | JUndefined | JNull => None
  | _ => Some (get_prop q "question")
  end.

Fixpoint preview_texts (l : list JsValue) : option (list JsValue) :=
  match l with
  | [] => Some []
  | q :: rest =>
      match preview_text q with
      | None => None
      | Some t =>
          match preview_texts rest with
          | None => None
          | Some ts => Some (t :: ts)
          end
      end
  end.

Definition questions_preview (elems : list JsValue) : option (list JsValue) :=
  preview_texts (firstn 3 elems).

(** ** The client: collecting the transcript of a call *)

(** [msg?.text || msg?.content || msg?.message?.text || msg?.data || empty]. *)
Definition maybeText (msg : JsValue) : JsValue :=
  js_or
    (js_or
       (js_or
          (js_or (optional_get msg "text") (optional_get msg "content"))
          (optional_get (optional_get msg "message") "text"))
       (optional_get msg "data"))
    (JStr EmptyString).

(** The state that the message handler of InterviewSession updates. *)
Record Collected : Type := {
  collected_messages : list JsValue;
  collected_transcript : string
}.

(** The handler of the event message. *)
Definition on_message (w : World) (c : Collected) (msg : JsValue) : Collected :=
  {| collected_messages := (collected_messages c ++ [msg])%list;
     collected_transcript :=
       let prev := collected_transcript c in
       if truthy (maybeText msg)
       then (if JsString.is_empty prev
             then template w (maybeText msg)
             else prev ++ JsString.newline ++ template w (maybeText msg))
       else prev |}.

(** The text of a message, when it has one that is a string. *)
Definition message_text (msg : JsValue) : string :=
  match maybeText msg with
  | JStr s => s
  | _ => EmptyString
  end.

Definition nonempty (s : string) : bool := negb (JsString.is_empty s).

(** ** The client: the clock of a call *)

Fixpoint repeat_char (n : nat) (c : ascii) : string :=
  match n with
  | O => EmptyString
  | S k => String c (repeat_char k c)
  end.

(** [s.padStart(n, c)] for a pad of one character. *)
Definition padStart (n : nat) (c : ascii) (s : string) : string :=
  repeat_char (n - String.length s) c ++ s.

(** formatTime on a whole number of seconds: [Math.floor(s/60)] and
    [s % 60], each printed in decimal and padded to two characters. *)
Definition formatTime (s : Z) : string :=
  padStart 2 "0" (JsString.decimal_of_Z (s / 60))
  ++ ":" ++ padStart 2 "0" (JsString.decimal_of_Z (Z.rem s 60)).

(** The two-character field printed for [n] has two characters and reads
    as [n]. *)
Definition two_digits_ok (n : nat) : bool :=
  let t := padStart 2 "0" (JsString.decimal_of_Z (Z.of_nat n)) in
  (String.length t =? 2)%nat && (JsString.number_of_digits t =? Z.of_nat n)%Z.

(** ** The client: the figures of the dashboard *)

Definition num_add (a b : JsNum) : JsNum :=
  match a, b with
  | Num x, Num y => Num (x + y)
  | _, _ => NaN
  end.

Definition num_sub (a b : JsNum) : JsNum :=
  match a, b with
  | Num x, Num y => Num (x - y)
  | _, _ => NaN
  end.

Definition num_mul (a b : JsNum) : JsNum :=
  match a, b with
  | Num x, Num y => Num (x * y)
  | _, _ => NaN
  end.

(** [a / b]; [None] stands for an infinite quotient, which [JsNum] does
    not represent. *)
Definition num_div (a b : JsNum) : option JsNum :=
  match a, b with
  | Num x, Num y =>
      if Qeq_bool y 0
      then (if Qeq_bool x 0 then Some NaN else None)
      else Some (Num (x / y))
  | _, _ => Some NaN
  end.

(** [a > b]. *)
Definition num_gt (a b : JsNum) : bool :=
  match a, b with
  | Num x, Num y => negb (Qle_bool x y)
  | _, _ => false
  end.

(** The values that ToPrimitive turns into a string. *)
Definition string_like (v : JsValue) : bool :=
  match v with
  | JStr _ | JArr _ _ | JObj _ => true
  | _ => false
  end.

(** [a + b]: concatenation when an operand is string-like, addition of
    numbers otherwise. *)
Definition js_plus (w : World) (a b : JsValue) : JsValue :=
  if string_like a || string_like b
  then JStr (template w a ++ template w b)
  else JNum (num_add (ToNumber w a) (ToNumber w b)).

Definition is_completed (s : Session) : bool :=
  match status s with
  | COMPLETED => true
  | _ => false
  end.

(** [l.reduce((sum, s) => sum + (s.overallScore || 0), 0)]. *)
Definition score_total (w : World) (l : list Session) : JsValue :=
  fold_left (fun sum s => js_plus w sum (js_or (overallScore s) (JInt 0))) l (JInt 0).

(** [l.length > 0 ? total / l.length : 0]. *)
Definition score_average (w : World) (l : list Session) : option JsNum :=
  if (0 <? length l)%nat
  then num_div (ToNumber w (score_total w l)) (Num (inject_Z (Z.of_nat (length l))))
  else Some (Num 0).

Record Stats : Type := {
  totalSessions : nat;
  averageScore : JsNum;
  completedSessions : nat;
  improvementRate : JsNum
}.

(** The figures of the dashboard. Numbers are exact rationals here where
    the source computes in binary floating point: sums and differences of
    whole-number scores are the same in both, but the source rounds a
    quotient to a double before [Math.round] sees it. What is stated of
    these figures are counts, bounds and the cases in which a figure is 0,
    none of which depends on the exact value of a quotient. *)
Definition calculateStats (w : World) (all : list Session) : option Stats :=
  let completed := List.filter is_completed all in
  average ← score_average w completed;
  recentAvg ← score_average w (firstn 3 completed);
  previousAvg ← score_average w (firstn 3 (skipn 3 completed));
  rate ←
    (if num_gt previousAvg (Num 0)
     then quotient ← num_div (num_sub recentAvg previousAvg) previousAvg;
          Some (num_mul quotient (Num 100))
     else Some (Num 0));
  Some {| totalSessions := length all;
          averageScore := round_num average;
          completedSessions := length completed;
          improvementRate := round_num rate |}.

(** The average of one category as the dashboard prints it, with
    [field] for technicalScore, communicationScore or confidenceScore:
    [Math.round(rated.reduce((sum, s) => sum + s.field, 0) / rated.length || 0)]
    over the sessions [rated] in which the field is truthy. *)
Definition category_average (w : World) (field : Session -> JsValue)
    (all : list Session) : option JsValue :=
  let rated := List.filter (fun s => truthy (field s)) all in
  let total := fold_left (fun sum s => js_plus w sum (field s)) rated (JInt 0) in
  quotient ← num_div (ToNumber w total) (Num (inject_Z (Z.of_nat (length rated))));
  Some (Math_round w (js_or (JNum quotient) (JInt 0))).

(** A score as the store holds it: null, or a whole number from 0 to
    100. *)
Definition score_value (v : JsValue) : Prop :=
  v = JNull \/ exists z, v = JInt z /\ (0 <= z <= 100)%Z.

Definition scored (s : Session) : Prop := score_value (overallScore s).

(** ** A small world for examples *)

Module Example.

Definition alice : User :=
  {| user_id := 7; user_industry := "software"; user_skills := ["Rocq"; "OCaml"] |}.

Definition scheduled : Session :=
  new_session alice
    {| in_role := "Backend Engineer"; in_difficulty := EmptyString;
       in_techStack := EmptyString; in_sessionType := EmptyString;
       in_questionCount := 0; in_industry := EmptyString; in_duration := 0 |}
    (questions_value (fallback_questions "Backend Engineer")).

Definition with_status (st : Status) (s : Session) : Session :=
  apply_data
    {| d_status := Some st; d_startedAt := None; d_endedAt := None;
       d_overallScore := None; d_technicalScore := None;
       d_communicationScore := None; d_confidenceScore := None;
       d_strengths := None; d_weaknesses := None; d_detailedFeedback := None |} s.

Definition store_with (s : Session) : Store :=
  {| users := {[ "clerk_alice" := alice ]};
     sessions := {[ 1%N := s ]};
     analytics := ∅ |}.

(** A world whose text generation always answers [reply] and whose JSON
    parser knows one text, [known], standing for [doc]. *)
Definition world (caller : option string) (reply : ModelReply)
    (known : string) (doc : JsValue) (deadline : option nat) : World :=
  {| auth_userId := caller;
     generateContent := fun _ => reply;
     JSON_parse := fun t => if String.eqb t known then Some doc else None;
     ToNumber_object := fun _ => NaN;
     ToString_value := fun _ => "[object Object]";
     Date_now := 1700000000000;
     feedback_deadline := deadline |}.

Definition long_transcript : string :=
  "Interviewer: tell me about yourself. Candidate: I build compilers.".

Definition in_progress : Session := with_status IN_PROGRESS scheduled.

Definition bob : User :=
  {| user_id := 8; user_industry := "finance"; user_skills := [] |}.

(** Two users; the only session belongs to alice. *)
Definition shared_store (s : Session) : Store :=
  {| users := {[ "clerk_alice" := alice; "clerk_bob" := bob ]};
     sessions := {[ 1%N := s ]};
     analytics := ∅ |}.

Definition designer : SessionInput :=
  {| in_role := "UI/UX Designer"; in_difficulty := EmptyString;
     in_techStack := EmptyString; in_sessionType := EmptyString;
     in_questionCount := 0; in_industry := EmptyString; in_duration := 0 |}.

Definition engineer : SessionInput :=
  {| in_role := "Backend Engineer"; in_difficulty := "Senior";
     in_techStack := "Rust"; in_sessionType := "Technical";
     in_questionCount := 5; in_industry := EmptyString; in_duration := 45 |}.

(** A world whose parser rejects every text. *)
Definition plain_world (caller : option string) (reply : ModelReply)
    (deadline : option nat) : World :=
  {| auth_userId := caller;
     generateContent := fun _ => reply;
     JSON_parse := fun _ => None;
     ToNumber_object := fun _ => NaN;
     ToString_value := fun _ => "[object Object]";
     Date_now := 1700000000000;
     feedback_deadline := deadline |}.

(** The JSON text of a feedback document, with the texts of its total and
    of its Technical Knowledge score left open, and the value it denotes. *)
Definition entry_json (name score : string) : string :=
  let q := JsString.dquote in
  "{" ++ q ++ "name" ++ q ++ ":" ++ q ++ name ++ q ++ ","
  ++ q ++ "score" ++ q ++ ":" ++ score ++ ","
  ++ q ++ "comment" ++ q ++ ":" ++ q ++ "ok" ++ q ++ "}".

Definition document_json (total technical : string) : string :=
  let q := JsString.dquote in
  "{" ++ q ++ "totalScore" ++ q ++ ":" ++ total ++ ","
  ++ q ++ "categoryScores" ++ q ++ ":["
  ++ entry_json "Communication Skills" "90" ++ ","
  ++ entry_json "Technical Knowledge" technical ++ ","
  ++ entry_json "Problem Solving" "70" ++ ","
  ++ entry_json "Cultural Fit" "88" ++ ","
  ++ entry_json "Confidence and Clarity" "92" ++ "],"
  ++ q ++ "strengths" ++ q ++ ":[" ++ q ++ "clear" ++ q ++ "],"
  ++ q ++ "areasForImprovement" ++ q ++ ":[],"
  ++ q ++ "finalAssessment" ++ q ++ ":" ++ q ++ "Solid interview." ++ q ++ "}".

Definition document (total technical : JsValue) : JsValue :=
  JObj [ ("totalScore", total);
         ("categoryScores",
          JArray [ category_entry "Communication Skills" (JInt 90) "ok";
                   category_entry "Technical Knowledge" technical "ok";
                   category_entry "Problem Solving" (JInt 70) "ok";
                   category_entry "Cultural Fit" (JInt 88) "ok";
                   category_entry "Confidence and Clarity" (JInt 92) "ok" ]);
         ("strengths", JArray [JStr "clear"]);
         ("areasForImprovement", JArray []);
         ("finalAssessment", JStr "Solid interview.") ].

(** A world whose collaborator answers with the JSON text of a document
    and whose parser reads that text. *)
Definition scoring_world (total_text technical_text : string)
    (total technical : JsValue) : World :=
  world (Some "clerk_alice")
    (ModelText (document_json total_text technical_text))
    (document_json total_text technical_text)
    (document total technical) None.

End Example.


(** ** Further examples *)

Module Cases.

(** A feedback document whose only category is named in lower case, and
    its JSON text. *)
Definition lowercase_json : string :=
  let q := JsString.dquote in
  "{" ++ q ++ "totalScore" ++ q ++ ":80,"
  ++ q ++ "categoryScores" ++ q ++ ":["
  ++ Example.entry_json "technical knowledge" "90" ++ "]}".

Definition lowercase_document : JsValue :=
  JObj [ ("totalScore", JInt 80);
         ("categoryScores",
          JArray [category_entry "technical knowledge" (JInt 90) "ok"]) ].

(** A session whose question list holds a null entry. *)
Definition broken_questions : Session :=
  new_session Example.alice Example.engineer
    (JArray [JStr "Why this role?"; JNull]).

(** A session completed with a given score. *)
Definition completed_with (score : Z) : Session :=
  apply_data
    {| d_status := Some COMPLETED; d_startedAt := None; d_endedAt := None;
       d_overallScore := Some (JInt score); d_technicalScore := None;
       d_communicationScore := None; d_confidenceScore := None;
       d_strengths := None; d_weaknesses := None; d_detailedFeedback := None |}
    Example.scheduled.

End Cases.


(** * Properties *)

(** ** Objects and strings *)

Lemma lookup_assign_eq k v ps : lookup_prop k (assign_prop k v ps) = v.
Proof.
  induction ps as [|[k' v'] ps IH]; cbn.
  - now rewrite String.eqb_refl.
  - destruct (String.eqb k' k) eqn:E; cbn.
    + now rewrite String.eqb_refl.
    + now rewrite E.
Qed.

Lemma lookup_assign_ne k k' v ps :
  k <> k' -> lookup_prop k (assign_prop k' v ps) = lookup_prop k ps.
Proof.
  intros Hne. induction ps as [|[k0 v0] ps IH]; cbn.
  - destruct (String.eqb k' k) eqn:E; [|reflexivity].
    apply String.eqb_eq in E. congruence.
  - destruct (String.eqb k0 k') eqn:E; cbn.
    + apply String.eqb_eq in E. subst k0.
      destruct (String.eqb k' k) eqn:E'; [|reflexivity].
      apply String.eqb_eq in E'. congruence.
    + destruct (String.eqb k0 k); [reflexivity | exact IH].
Qed.

Lemma contains_char_app c a b :
  JsString.contains_char c (a ++ b)
  = JsString.contains_char c a || JsString.contains_char c b.
Proof.
  induction a as [|x a IH]; simpl; [reflexivity|].
  now rewrite IH, orb_assoc.
Qed.

(** ** Rules for [wp] *)

Section Rules.

Context {A B : Type}.
Variables (Qt : Error -> Store -> Prop) (Qs : Store -> Prop).

Lemma wp_ret (a : A) (Qr : A -> Store -> Prop) m :
  Qr a (store m) -> wp (ret a) Qr Qt Qs m.
Proof. intros H. exact H. Qed.

Lemma wp_throw (e : Error) (Qr : A -> Store -> Prop) m :
  Qt e (store m) -> wp (throw e) Qr Qt Qs m.
Proof. intros H. exact H. Qed.

Lemma wp_bind (c : Async A) (k : A -> Async B) (Qr : B -> Store -> Prop) m :
  wp c (fun a st => forall t, wp (k a) Qr Qt Qs {| store := st; timer := t |}) Qt Qs m ->
  wp (bind c k) Qr Qt Qs m.
Proof.
  unfold wp, bind. destruct (c m) as [[a|e|] [st t]]; cbn; intros H; auto.
  apply H.
Qed.

Lemma wp_try_catch (body : Async A) (handler : Error -> Async A)
    (Qr : A -> Store -> Prop) m :
  wp body Qr
     (fun e st => forall t, wp (handler e) Qr Qt Qs {| store := st; timer := t |})
     Qs m ->
  wp (try_catch body handler) Qr Qt Qs m.
Proof.
  unfold wp, try_catch. destruct (body m) as [[a|e|] [st t]]; cbn; intros H; auto.
  apply H.
Qed.

Lemma wp_await (op : Store -> Outcome A * Store) (Qr : A -> Store -> Prop) m :
  Qs (store m) ->
  match op (store m) with
  | (Returned a, st') => Qr a st'
  | (Thrown e, st') => Qt e st'
  | (Suspended, st') => Qs st'
  end ->
  wp (await op) Qr Qt Qs m.
Proof.
  unfold wp, await. intros Hs Hop.
  destruct (timer m) as [[|n]|]; [exact Hs | |];
    destruct (op (store m)) as [[a|e|] st']; exact Hop.
Qed.

Lemma wp_or_TypeError (o : option A) (Qr : A -> Store -> Prop) m :
  match o with
  | Some a => Qr a (store m)
  | None => Qt TypeError (store m)
  end ->
  wp (or_TypeError o) Qr Qt Qs m.
Proof. destruct o; intros H; exact H. Qed.

End Rules.

(** A call wrapped in a catch-all never throws. *)
Lemma wp_best_effort {A} (c : Async A) (R : Store -> Prop) Qt Qs m :
  wp c (fun _ => R) (fun _ => R) Qs m ->
  wp (best_effort c) (fun _ => R) Qt Qs m.
Proof.
  intros H. unfold best_effort. apply wp_try_catch, wp_bind.
  unfold wp in *. destruct (c m) as [[a|e|] [st t]]; cbn in *; auto.
Qed.

Lemma wp_weaken {A} (c : Async A) (Qr Qr' : A -> Store -> Prop)
    (Qt Qt' : Error -> Store -> Prop) (Qs Qs' : Store -> Prop) m :
  wp c Qr Qt Qs m ->
  (forall a st, Qr a st -> Qr' a st) ->
  (forall e st, Qt e st -> Qt' e st) ->
  (forall st, Qs st -> Qs' st) ->
  wp c Qr' Qt' Qs' m.
Proof.
  unfold wp. destruct (c m) as [[a|e|] m']; auto.
Qed.

(** Sequencing through an intermediate assertion. *)
Lemma wp_seq {A B} (c : Async A) (k : A -> Async B) (R : A -> Store -> Prop)
    (Qr : B -> Store -> Prop) Qt Qs m :
  wp c R Qt Qs m ->
  (forall a st t, R a st -> wp (k a) Qr Qt Qs {| store := st; timer := t |}) ->
  wp (bind c k) Qr Qt Qs m.
Proof.
  intros Hc Hk. apply wp_bind.
  eapply wp_weaken; [exact Hc | | auto | auto].
  intros a st HR t. now apply Hk.
Qed.

(** ** The feedback derivation under an arbitrary timer *)

Lemma session_satisfies_has id P st : session_satisfies id P st -> has_session id st.
Proof. intros (s & Hs & _). unfold has_session. rewrite Hs. eauto. Qed.

Lemma session_satisfies_impl id (P Q : Session -> Prop) st :
  (forall s, P s -> Q s) -> session_satisfies id P st -> session_satisfies id Q st.
Proof. intros HPQ (s & Hs & HP). exists s. auto. Qed.

Lemma truthy_JInt z : truthy (JInt z) = negb (z =? 0)%Z.
Proof. reflexivity. Qed.

Lemma truthy_not_null v : truthy v = true -> v <> JNull.
Proof. intros H ->. discriminate H. Qed.

Lemma js_or_truthy a b : truthy b = true -> truthy (js_or a b) = true.
Proof. intros Hb. unfold js_or. now destruct (truthy a) eqn:E. Qed.

Lemma rounded_or_truthy w x d : d <> 0%Z -> truthy (rounded_or w x d) = true.
Proof.
  intros Hd. apply js_or_truthy. rewrite truthy_JInt.
  now apply negb_true_iff, Z.eqb_neq.
Qed.

Section Derivation.

Variables (w : World) (id : N) (transcript : string) (messages : list Message).

(** An update of an existing session returns and leaves what it writes. *)
Lemma wp_session_update (d : SessionData) (P : Session -> Prop) Qt m :
  has_session id (store m) ->
  writes d P ->
  wp (Db.session_update id d)
     (fun _ => session_satisfies id P) Qt (has_session id) m.
Proof.
  intros Hs Hd. apply wp_await; [exact Hs|].
  destruct Hs as [s Hs]. rewrite Hs.
  exists (apply_data d s). cbn. rewrite lookup_insert_eq.
  split; [reflexivity | apply Hd].
Qed.

Lemma wp_analytics_upsert upd cre (R : Store -> Prop) Qt Qs m :
  Qs (store m) ->
  (forall an, R (with_analytics (store m) an)) ->
  wp (Db.analytics_upsert id upd cre) (fun _ => R) Qt Qs m.
Proof. intros Hs HR. apply wp_await; [exact Hs|]. apply HR. Qed.

Lemma wp_analytics_updateMany upd (R : Store -> Prop) Qt Qs m :
  Qs (store m) ->
  R (store m) ->
  (forall an, R (with_analytics (store m) an)) ->
  wp (Db.analytics_updateMany id upd) (fun _ => R) Qt Qs m.
Proof.
  intros Hs H0 HR. apply wp_await; [exact Hs|].
  destruct (analytics (store m) !! id); [apply HR | exact H0].
Qed.

Lemma fallbackFeedback_writes d :
  fixed_document_data w fallbackFeedback 50 = Some d -> writes d settled.
Proof. intros [= <-] s. repeat split; discriminate. Qed.

Lemma model_error_fallback_writes d :
  fixed_document_data w model_error_fallback 60 = Some d -> writes d settled.
Proof. intros [= <-] s. repeat split; discriminate. Qed.

Lemma updateData_writes fb text d :
  updateData w fb text = Some d -> writes d settled.
Proof.
  unfold updateData.
  destruct (category_score fb "Technical Knowledge"); [|discriminate].
  destruct (category_score fb "Communication Skills"); [|discriminate].
  destruct (category_score fb "Confidence and Clarity"); [|discriminate].
  destruct (_ || _); [discriminate|].
  intros [= <-] s. split; [reflexivity|]. cbn. split.
  - apply truthy_not_null, rounded_or_truthy. discriminate.
  - apply truthy_not_null. do 2 apply js_or_truthy. reflexivity.
Qed.

Lemma fatal_data_writes : writes (fatal_data w) settled.
Proof. intros s. repeat split; discriminate. Qed.

Lemma degraded_data_writes : writes (degraded_data w) settled.
Proof. intros s. repeat split; discriminate. Qed.

(** Flattening a document and returning it. *)
Lemma wp_persist {A} (data : option SessionData) (r : A) (P : Session -> Prop)
    (Qr : A -> Store -> Prop) m :
  has_session id (store m) ->
  (forall d, data = Some d -> writes d P) ->
  (forall st, session_satisfies id P st -> Qr r st) ->
  wp (d <- or_TypeError data ;; Db.session_update id d ;;; ret r)
     Qr (fun _ => has_session id) (has_session id) m.
Proof.
  intros Hs Hd HQ. apply wp_bind, wp_or_TypeError.
  destruct data as [d|]; [|exact Hs].
  intros t.
  eapply wp_seq; [apply wp_session_update; [exact Hs | now apply Hd] |].
  intros a st t' H. apply wp_ret, HQ. exact H.
Qed.

(** The try block on an existing session: when it returns the session is
    settled; when it throws or the timer fires the session is still
    there. *)
Lemma derive_try_wp m :
  has_session id (store m) ->
  wp (generateFeedback_try w id transcript messages)
     (fun _ => session_satisfies id settled)
     (fun _ => has_session id)
     (has_session id) m.
Proof.
  intros Hs. unfold generateFeedback_try.
  apply wp_bind. apply wp_await; [exact Hs|].
  destruct (sessions (store m) !! id) as [s|] eqn:E;
    [| destruct Hs as [? Hs]; congruence].
  intros t. apply wp_bind, wp_best_effort, wp_analytics_upsert; [exact Hs|].
  intros an t1.
  destruct (no_transcript _).
  { eapply wp_persist; [exact Hs | apply fallbackFeedback_writes | auto]. }
  apply wp_bind, wp_try_catch, wp_bind, wp_await; [exact Hs|].
  cbn [store].
  destruct (generateContent w _) as [msg|text].
  - (* the collaborator throws *)
    intros t2.
    eapply wp_seq with (R := fun _ => has_session id).
    + apply wp_best_effort, wp_analytics_updateMany; [exact Hs | exact Hs |].
      intros an'. exact Hs.
    + intros a0 st t3 H.
      eapply wp_persist; [exact H | apply model_error_fallback_writes |].
      intros st' H' t4. apply wp_ret. exact H'.
  - (* the collaborator answers *)
    intros t2. apply wp_ret. intros t3. cbn [store].
    apply wp_bind, wp_or_TypeError.
    destruct (ensure_structure _) as [fb|]; [|exact Hs].
    intros t4. apply wp_bind, wp_or_TypeError.
    destruct (updateData w fb _) as [d|] eqn:Ed; [|exact Hs].
    intros t5.
    eapply wp_seq;
      [apply wp_session_update; [exact Hs | exact (updateData_writes _ _ _ Ed)] |].
    intros a0 st t6 H.
    apply wp_bind, wp_best_effort, wp_analytics_upsert.
    + now apply session_satisfies_has in H.
    + intros an' t7. apply wp_ret. exact H.
Qed.

(** The derivation never rejects: it returns with the session settled, or
    it is still waiting when the timer fires. *)
Lemma derive_wp m :
  has_session id (store m) ->
  wp (generateFeedbackFromTranscript w id transcript messages)
     (fun _ => session_satisfies id settled)
     (fun _ _ => False)
     (has_session id) m.
Proof.
  intros Hs. unfold generateFeedbackFromTranscript.
  apply wp_try_catch.
  eapply wp_weaken; [apply derive_try_wp; exact Hs | auto | | auto].
  intros e st H t. cbv beta.
  eapply wp_seq with (R := fun _ => session_satisfies id settled).
  - apply wp_best_effort.
    eapply wp_weaken;
      [apply wp_session_update with (P := settled) (Qt := fun _ _ => False);
       [exact H | apply fatal_data_writes] | auto | intros ? ? [] | auto].
  - intros a st0 t0 H0. apply wp_ret. exact H0.
Qed.

End Derivation.

(** ** The document after the structure checks *)

Lemma find_category_objects name cats :
  Forall category_object cats -> is_Some (find_category name cats).
Proof.
  induction 1 as [|c cats [ps ->] _ IH]; cbn; [eauto|].
  destruct (is_string _ _); eauto.
Qed.

Lemma ensure_prop_object ok k x ps :
  exists ps',
    ensure_prop ok k x (JObj ps) = Some (JObj ps')
    /\ lookup_prop k ps'
       = (if ok (lookup_prop k ps) then lookup_prop k ps else x (JObj ps))
    /\ forall k', k' <> k -> lookup_prop k' ps' = lookup_prop k' ps.
Proof.
  unfold ensure_prop; cbn. destruct (ok (lookup_prop k ps)) eqn:E.
  - exists ps. repeat split.
  - exists (assign_prop k (x (JObj ps)) ps). rewrite lookup_assign_eq.
    repeat split. intros k' Hk'. now apply lookup_assign_ne.
Qed.

(** On an object the structure checks succeed; they settle totalScore and
    categoryScores and leave finalAssessment alone. *)
Lemma ensure_structure_object ps :
  exists ps',
    ensure_structure (JObj ps) = Some (JObj ps')
    /\ lookup_prop "totalScore" ps' = total_after ps
    /\ lookup_prop "categoryScores" ps' = categories_after ps
    /\ lookup_prop "finalAssessment" ps' = lookup_prop "finalAssessment" ps.
Proof.
  unfold ensure_structure.
  destruct (ensure_prop_object truthy "totalScore" (fun _ => JInt 75) ps)
    as (p1 & -> & H1 & F1).
  cbn [mbind option_bind].
  destruct (ensure_prop_object nonempty_array "categoryScores"
              (fun f => five_categories (get_prop f "totalScore") "Auto") p1)
    as (p2 & -> & H2 & F2).
  cbn [mbind option_bind].
  destruct (ensure_prop_object isArray "strengths" (fun _ => JArray []) p2)
    as (p3 & -> & _ & F3).
  cbn [mbind option_bind].
  destruct (ensure_prop_object isArray "areasForImprovement" (fun _ => JArray []) p3)
    as (p4 & -> & _ & F4).
  exists p4. split; [reflexivity|].
  rewrite !F4 by (intro HH; discriminate HH).
  rewrite !F3 by (intro HH; discriminate HH).
  rewrite H2.
  rewrite (F2 "totalScore"), (F2 "finalAssessment"), (F1 "categoryScores"),
    (F1 "finalAssessment"), H1 by (intro HH; discriminate HH).
  cbn [get_prop]. rewrite H1.
  unfold categories_after, total_after. repeat split; try easy.
Qed.

(** ** The feedback derivation run to its end *)

Ltac async_eval :=
  cbv beta iota zeta delta
    [run bind try_catch best_effort ret throw await or_TypeError
     Db.session_findUnique Db.session_update Db.analytics_upsert
     Db.analytics_updateMany Db.user_findUnique Db.session_findFirst
     Db.session_create Db.analytics_findUnique
     model_generateContent auth race_with_timeout];
  cbn [store timer fst snd sessions analytics users with_sessions with_analytics].

Ltac async_eval_in H :=
  cbv beta iota zeta delta
    [run bind try_catch best_effort ret throw await or_TypeError
     Db.session_findUnique Db.session_update Db.analytics_upsert
     Db.analytics_updateMany Db.user_findUnique Db.session_findFirst
     Db.session_create Db.analytics_findUnique
     model_generateContent auth race_with_timeout] in H;
  cbn [store timer fst snd sessions analytics users with_sessions with_analytics] in H.

Lemma trim_empty s : JsString.is_empty s = true -> JsString.trim s = EmptyString.
Proof. destruct s; [reflexivity | discriminate]. Qed.

Lemma real_transcript_proceeds transcript messages :
  real_transcript transcript messages ->
  no_transcript (formatTranscript transcript messages) = false.
Proof.
  unfold real_transcript, no_transcript. intros H.
  destruct (JsString.is_empty _) eqn:E.
  - rewrite (trim_empty _ E) in H. cbn in H. lia.
  - cbn [orb]. apply Nat.ltb_ge. exact H.
Qed.

Lemma short_transcript_stops transcript messages :
  (String.length (JsString.trim (formatTranscript transcript messages)) < 10)%nat ->
  no_transcript (formatTranscript transcript messages) = true.
Proof.
  unfold no_transcript. intros H. apply orb_true_iff. right.
  now apply Nat.ltb_lt.
Qed.

Section Run.

Variables (w : World) (st : Store) (id : N) (s : Session).
Variables (transcript : string) (messages : list Message).
Hypothesis Hs : sessions st !! id = Some s.

Lemma run_no_transcript d :
  no_transcript (formatTranscript transcript messages) = true ->
  fixed_document_data w fallbackFeedback 50 = Some d ->
  exists st',
    run (generateFeedbackFromTranscript w id transcript messages) st
    = (Returned fallbackFeedback, st')
    /\ sessions st' !! id = Some (apply_data d s).
Proof.
  intros Hshort Hd.
  unfold generateFeedbackFromTranscript, generateFeedback_try.
  async_eval. rewrite Hs. async_eval. rewrite Hshort, Hd.
  async_eval. rewrite Hs. async_eval.
  eexists. split; [reflexivity|]. cbn. apply lookup_insert_eq.
Qed.

Lemma run_model_error msg d :
  no_transcript (formatTranscript transcript messages) = false ->
  generateContent w (feedback_prompt (formatTranscript transcript messages)) = ModelThrows msg ->
  fixed_document_data w model_error_fallback 60 = Some d ->
  exists st',
    run (generateFeedbackFromTranscript w id transcript messages) st
    = (Returned model_error_fallback, st')
    /\ sessions st' !! id = Some (apply_data d s).
Proof.
  intros Hlong Hmodel Hd.
  unfold generateFeedbackFromTranscript, generateFeedback_try.
  async_eval. rewrite Hs. async_eval. rewrite Hlong, Hmodel.
  async_eval. rewrite Hd, lookup_insert_eq.
  async_eval. rewrite Hs. async_eval.
  eexists. split; [reflexivity|]. cbn. apply lookup_insert_eq.
Qed.

Lemma run_model_text text fb d :
  no_transcript (formatTranscript transcript messages) = false ->
  generateContent w (feedback_prompt (formatTranscript transcript messages)) = ModelText text ->
  ensure_structure (parse_feedback w (clean_response text)) = Some fb ->
  updateData w fb (clean_response text) = Some d ->
  exists st',
    run (generateFeedbackFromTranscript w id transcript messages) st
    = (Returned fb, st')
    /\ sessions st' !! id = Some (apply_data d s).
Proof.
  intros Hlong Hmodel Hfb Hd.
  unfold generateFeedbackFromTranscript, generateFeedback_try.
  async_eval. rewrite Hs. async_eval. rewrite Hlong, Hmodel.
  async_eval. rewrite Hfb. async_eval. rewrite Hd. async_eval.
  rewrite Hs. async_eval.
  eexists. split; [reflexivity|]. cbn. apply lookup_insert_eq.
Qed.

(** A TypeError while the document is checked or flattened ends in the
    catch block: the session is completed with the neutral score and the
    derivation returns null. *)
Lemma run_fatal text :
  no_transcript (formatTranscript transcript messages) = false ->
  generateContent w (feedback_prompt (formatTranscript transcript messages)) = ModelText text ->
  match ensure_structure (parse_feedback w (clean_response text)) with
  | Some fb => updateData w fb (clean_response text) = None
  | None => True
  end ->
  exists st',
    run (generateFeedbackFromTranscript w id transcript messages) st
    = (Returned JNull, st')
    /\ sessions st' !! id = Some (apply_data (fatal_data w) s).
Proof.
  intros Hlong Hmodel Hfb.
  unfold generateFeedbackFromTranscript, generateFeedback_try.
  async_eval. rewrite Hs. async_eval. rewrite Hlong, Hmodel.
  async_eval.
  destruct (ensure_structure _) as [fb|]; async_eval;
    [rewrite Hfb; async_eval|];
    rewrite Hs; async_eval;
    (eexists; split; [reflexivity|]; cbn; apply lookup_insert_eq).
Qed.

End Run.

(** ** Flattening a parsed document *)

Lemma categories_after_objects ps :
  Forall category_object (array_elems (lookup_prop "categoryScores" ps)) ->
  Forall category_object (array_elems (categories_after ps)).
Proof.
  intros H. unfold categories_after.
  destruct (nonempty_array _); [exact H|].
  unfold five_categories, category_entry; cbn.
  repeat constructor; eexists; reflexivity.
Qed.

Lemma find_category_found name cats t :
  find_category name cats = Some t -> t = JUndefined \/ In t cats.
Proof.
  induction cats as [|c cats IH]; cbn; [intros [= <-]; now left|].
  destruct c; try discriminate;
    (destruct (is_string _ _);
     [intros [= <-]; right; now left
     | intros H; destruct (IH H) as [-> | Hin]; [now left | right; now right]]).
Qed.

Lemma found_score_converts name cats t :
  Forall category_object cats ->
  Forall (fun c => coercion_throws (get_prop c "score") = false) cats ->
  find_category name cats = Some t ->
  coercion_throws (optional_get t "score") = false.
Proof.
  intros Hobj Hconv Hfind.
  destruct (find_category_found _ _ _ Hfind) as [-> | Hin]; [reflexivity|].
  rewrite List.Forall_forall in Hobj, Hconv.
  destruct (Hobj t Hin) as [ps ->]. exact (Hconv _ Hin).
Qed.

Lemma convertible_scores_after ps :
  convertible_scores ps ->
  coercion_throws (total_after ps) = false
  /\ Forall (fun c => coercion_throws (get_prop c "score") = false)
       (array_elems (categories_after ps)).
Proof.
  intros [Htotal Hcats].
  assert (Ht : coercion_throws (total_after ps) = false)
    by (unfold total_after; destruct (truthy _); [exact Htotal | reflexivity]).
  split; [exact Ht|]. unfold categories_after.
  destruct (nonempty_array _); [exact Hcats|].
  unfold five_categories, category_entry. cbn.
  repeat (constructor; [exact Ht|]). constructor.
Qed.

Lemma updateData_object w ps text :
  Forall category_object (array_elems (lookup_prop "categoryScores" ps)) ->
  convertible_scores ps ->
  exists t c f,
    find_category "Technical Knowledge"
      (array_elems (lookup_prop "categoryScores" ps)) = Some t
    /\ find_category "Communication Skills"
         (array_elems (lookup_prop "categoryScores" ps)) = Some c
    /\ find_category "Confidence and Clarity"
         (array_elems (lookup_prop "categoryScores" ps)) = Some f
    /\ updateData w (JObj ps) text = Some (flattened w ps text t c f).
Proof.
  intros H [Htotal Hconv].
  destruct (find_category_objects "Technical Knowledge" _ H) as [t Ht].
  destruct (find_category_objects "Communication Skills" _ H) as [c Hc].
  destruct (find_category_objects "Confidence and Clarity" _ H) as [f Hf].
  exists t, c, f. repeat (split; [assumption|]).
  unfold updateData, category_score. cbn [get_prop].
  rewrite Ht, Hc, Hf, Htotal.
  rewrite (found_score_converts _ _ _ H Hconv Ht),
    (found_score_converts _ _ _ H Hconv Hc),
    (found_score_converts _ _ _ H Hconv Hf).
  reflexivity.
Qed.

(** The main path on a document that is an object and whose scores can be
    converted to numbers. *)
Lemma run_object (w : World) (st : Store) (id : N) (s : Session)
    (transcript : string) (messages : list Message) (text : string)
    (ps : list (string * JsValue)) :
  sessions st !! id = Some s ->
  real_transcript transcript messages ->
  generateContent w (feedback_prompt (formatTranscript transcript messages))
  = ModelText text ->
  parse_feedback w (clean_response text) = JObj ps ->
  Forall category_object (array_elems (lookup_prop "categoryScores" ps)) ->
  convertible_scores ps ->
  exists st' ps' t c f,
    run (generateFeedbackFromTranscript w id transcript messages) st
    = (Returned (JObj ps'), st')
    /\ lookup_prop "totalScore" ps' = total_after ps
    /\ lookup_prop "categoryScores" ps' = categories_after ps
    /\ lookup_prop "finalAssessment" ps' = lookup_prop "finalAssessment" ps
    /\ find_category "Technical Knowledge" (array_elems (categories_after ps)) = Some t
    /\ find_category "Communication Skills" (array_elems (categories_after ps)) = Some c
    /\ find_category "Confidence and Clarity" (array_elems (categories_after ps)) = Some f
    /\ sessions st' !! id
       = Some (apply_data (flattened w ps' (clean_response text) t c f) s).
Proof.
  intros Hs Hlong Hmodel Hparse Hcats Hconv.
  destruct (ensure_structure_object ps) as (ps' & Hfb & Htot & Hcat & Hfin).
  apply categories_after_objects in Hcats. rewrite <- Hcat in Hcats.
  assert (Hconv' : convertible_scores ps').
  { destruct (convertible_scores_after ps Hconv) as [H1 H2].
    unfold convertible_scores. now rewrite Htot, Hcat. }
  destruct (updateData_object w ps' (clean_response text) Hcats Hconv')
    as (t & c & f & Ht & Hc & Hf & Hd).
  rewrite <- Hparse in Hfb.
  destruct (run_model_text w st id s transcript messages Hs text _ _
              (real_transcript_proceeds _ _ Hlong) Hmodel Hfb Hd)
    as (st' & Hrun & Hst').
  rewrite Hcat in Ht, Hc, Hf.
  exists st', ps', t, c, f. repeat (split; [assumption|]). exact Hst'.
Qed.

(** ** Rounding *)

Lemma rounded_or_number w q d :
  rounded_or w (JNum (Num q)) d
  = if (round_half_up q =? 0)%Z then JInt d else JInt (round_half_up q).
Proof.
  unfold rounded_or, js_or, Math_round. cbn [ToNumber round_num].
  change (Qfloor (q + (1 # 2))) with (round_half_up q).
  cbn [truthy inject_Z Qnum].
  now destruct (round_half_up q =? 0)%Z.
Qed.

Lemma round_half_up_eq q r : (q == r)%Q -> round_half_up q = round_half_up r.
Proof. intros H. unfold round_half_up. now rewrite H. Qed.

Lemma round_half_up_int z : round_half_up (inject_Z z) = z.
Proof.
  unfold round_half_up, Qfloor, Qplus, inject_Z; cbn.
  rewrite Z.mul_1_r.
  replace (z * 2 + 1)%Z with (1 + z * 2)%Z by lia.
  rewrite Z.div_add by lia. reflexivity.
Qed.

Lemma is_zero_falsy v : is_zero v -> truthy v = false.
Proof.
  intros (q & -> & Hq). cbn. unfold Qeq in Hq; cbn in Hq.
  apply negb_false_iff, Z.eqb_eq. lia.
Qed.

Lemma rounded_or_zero w v d : is_zero v -> rounded_or w v d = JInt d.
Proof.
  intros (q & -> & Hq). rewrite rounded_or_number.
  now rewrite (round_half_up_eq _ _ Hq).
Qed.

(** A category found with a number for score is a member of a non-empty
    array and is no null entry. *)
Lemma found_with_score name v c n :
  find_category name (array_elems v) = Some c ->
  get_prop c "score" = JNum n ->
  nonempty_array v = true /\ optional_get c "score" = JNum n.
Proof.
  intros Hfind Hscore. split.
  - destruct v as [| | | | |[|x l] props|]; cbn in *; try reflexivity;
      injection Hfind as <-; discriminate.
  - destruct c; cbn in *; try discriminate; assumption.
Qed.

(** ** Empty interviews and failures of the collaborator *)

(** C4. For an existing session, when the normalized transcript (the
    message log if there is one, the raw transcript otherwise) is shorter
    than the threshold of ten characters, generateFeedbackFromTranscript
    returns the fixed document whose five category scores are 50 with the
    comment No transcript provided, and the session is stored COMPLETED
    with its four scores set to 50 and its feedback text set. *)
Theorem missing_transcript_feedback (w : World) (st : Store) (id : N) (s : Session)
    (transcript : string) (messages : list Message) :
  sessions st !! id = Some s ->
  (String.length (JsString.trim (formatTranscript transcript messages)) < 10)%nat ->
  exists st' s' cats,
    run (generateFeedbackFromTranscript w id transcript messages) st
    = (Returned fallbackFeedback, st')
    /\ get_prop fallbackFeedback "categoryScores" = JArray cats
    /\ length cats = 5%nat
    /\ Forall (fun c => get_prop c "score" = JInt 50
                        /\ get_prop c "comment" = JStr "No transcript provided") cats
    /\ sessions st' !! id = Some s'
    /\ status s' = COMPLETED
    /\ overallScore s' = JInt 50
    /\ technicalScore s' = JInt 50
    /\ communicationScore s' = JInt 50
    /\ confidenceScore s' = JInt 50
    /\ strengths s' = get_prop fallbackFeedback "strengths"
    /\ weaknesses s' = get_prop fallbackFeedback "areasForImprovement"
    /\ detailedFeedback s' = get_prop fallbackFeedback "finalAssessment"
    /\ detailedFeedback s' <> JNull.
Proof.
  intros Hs Hshort.
  destruct (run_no_transcript w st id s transcript messages Hs _
              (short_transcript_stops _ _ Hshort) eq_refl) as (st' & Hrun & Hst').
  eexists st', _, _. split; [exact Hrun|].
  split; [reflexivity|]. split; [reflexivity|].
  split; [repeat constructor|].
  split; [exact Hst'|].
  repeat split. discriminate.
Qed.

Lemma missing_transcript_feedback_witness :
  let w := Example.plain_world None (ModelThrows "unused") None in
  let st := Example.store_with Example.in_progress in
  sessions st !! 1%N = Some Example.in_progress
  /\ (String.length (JsString.trim (formatTranscript "hello" [])) < 10)%nat
  /\ exists st' s' cats,
      run (generateFeedbackFromTranscript w 1 "hello" []) st
      = (Returned fallbackFeedback, st')
      /\ get_prop fallbackFeedback "categoryScores" = JArray cats
      /\ length cats = 5%nat
      /\ Forall (fun c => get_prop c "score" = JInt 50
                          /\ get_prop c "comment" = JStr "No transcript provided") cats
      /\ sessions st' !! 1%N = Some s'
      /\ status s' = COMPLETED
      /\ overallScore s' = JInt 50
      /\ technicalScore s' = JInt 50
      /\ communicationScore s' = JInt 50
      /\ confidenceScore s' = JInt 50
      /\ strengths s' = get_prop fallbackFeedback "strengths"
      /\ weaknesses s' = get_prop fallbackFeedback "areasForImprovement"
      /\ detailedFeedback s' = get_prop fallbackFeedback "finalAssessment"
      /\ detailedFeedback s' <> JNull.
Proof.
  intros w st.
  assert (H1 : sessions st !! 1%N = Some Example.in_progress) by reflexivity.
  assert (H2 : (String.length (JsString.trim (formatTranscript "hello" [])) < 10)%nat)
    by (vm_compute; lia).
  split; [exact H1|]. split; [exact H2|].
  exact (missing_transcript_feedback w st 1 Example.in_progress "hello" [] H1 H2).
Defined.

(** C5. For an existing session with a transcript of at least the
    threshold, when the call to the text-generation collaborator throws,
    generateFeedbackFromTranscript does not throw: it returns the fixed
    document with totalScore 60 and five category scores of 60, and the
    session is stored COMPLETED with the scores of that document. *)
Theorem model_failure_feedback (w : World) (st : Store) (id : N) (s : Session)
    (transcript : string) (messages : list Message) (msg : string) :
  sessions st !! id = Some s ->
  real_transcript transcript messages ->
  generateContent w (feedback_prompt (formatTranscript transcript messages))
  = ModelThrows msg ->
  exists st' s' cats,
    run (generateFeedbackFromTranscript w id transcript messages) st
    = (Returned model_error_fallback, st')
    /\ get_prop model_error_fallback "totalScore" = JInt 60
    /\ get_prop model_error_fallback "categoryScores" = JArray cats
    /\ length cats = 5%nat
    /\ Forall (fun c => get_prop c "score" = JInt 60) cats
    /\ sessions st' !! id = Some s'
    /\ status s' = COMPLETED
    /\ overallScore s' = JInt 60
    /\ technicalScore s' = JInt 60
    /\ communicationScore s' = JInt 60
    /\ confidenceScore s' = JInt 60
    /\ detailedFeedback s' = get_prop model_error_fallback "finalAssessment".
Proof.
  intros Hs Hlong Hmodel.
  destruct (run_model_error w st id s transcript messages Hs msg _
              (real_transcript_proceeds _ _ Hlong) Hmodel eq_refl)
    as (st' & Hrun & Hst').
  eexists st', _, _. split; [exact Hrun|].
  split; [reflexivity|]. split; [reflexivity|]. split; [reflexivity|].
  split; [repeat constructor|].
  split; [exact Hst'|].
  repeat split.
Qed.

Lemma model_failure_feedback_witness :
  let w := Example.plain_world None (ModelThrows "quota exceeded") None in
  let st := Example.store_with Example.in_progress in
  sessions st !! 1%N = Some Example.in_progress
  /\ real_transcript Example.long_transcript []
  /\ generateContent w (feedback_prompt (formatTranscript Example.long_transcript []))
     = ModelThrows "quota exceeded"
  /\ exists st' s' cats,
      run (generateFeedbackFromTranscript w 1 Example.long_transcript []) st
      = (Returned model_error_fallback, st')
      /\ get_prop model_error_fallback "totalScore" = JInt 60
      /\ get_prop model_error_fallback "categoryScores" = JArray cats
      /\ length cats = 5%nat
      /\ Forall (fun c => get_prop c "score" = JInt 60) cats
      /\ sessions st' !! 1%N = Some s'
      /\ status s' = COMPLETED
      /\ overallScore s' = JInt 60
      /\ technicalScore s' = JInt 60
      /\ communicationScore s' = JInt 60
      /\ confidenceScore s' = JInt 60
      /\ detailedFeedback s' = get_prop model_error_fallback "finalAssessment".
Proof.
  intros w st.
  assert (H1 : sessions st !! 1%N = Some Example.in_progress) by reflexivity.
  assert (H2 : real_transcript Example.long_transcript [])
    by (unfold real_transcript; vm_compute; lia).
  assert (H3 : generateContent w
                 (feedback_prompt (formatTranscript Example.long_transcript []))
               = ModelThrows "quota exceeded") by reflexivity.
  split; [exact H1|]. split; [exact H2|]. split; [exact H3|].
  exact (model_failure_feedback w st 1 Example.in_progress
           Example.long_transcript [] "quota exceeded" H1 H2 H3).
Defined.

(** ** Scores of a parsed document *)

(** C7 as it is stated fails: a Technical Knowledge score of 84.5 in a
    document with totalScore 85 and the five named categories is stored as
    85, and a score of 0 is stored as 50. *)
Lemma fractional_score_not_stored :
  let run_with technical_text technical :=
    run (generateFeedbackFromTranscript
           (Example.scoring_world "85" technical_text (JInt 85) technical)
           1 Example.long_transcript [])
        (Example.store_with Example.in_progress) in
  (exists fb st' s',
      run_with "84.5" (JNum (Num (169 # 2))) = (Returned fb, st')
      /\ category_score fb "Technical Knowledge" = Some (JNum (Num (169 # 2)))
      /\ sessions st' !! 1%N = Some s'
      /\ overallScore s' = JInt 85
      /\ technicalScore s' = JInt 85
      /\ technicalScore s' <> JNum (Num (169 # 2)))
  /\ (exists fb st' s',
      run_with "0" (JInt 0) = (Returned fb, st')
      /\ category_score fb "Technical Knowledge" = Some (JInt 0)
      /\ sessions st' !! 1%N = Some s'
      /\ overallScore s' = JInt 85
      /\ technicalScore s' = JInt 50
      /\ technicalScore s' <> JInt 0).
Proof.
  split; eexists _, _, _.
  - split; [vm_compute; reflexivity|].
    split; [reflexivity|]. split; [reflexivity|].
    split; [reflexivity|]. split; [reflexivity|]. discriminate.
  - split; [vm_compute; reflexivity|].
    split; [reflexivity|]. split; [reflexivity|].
    split; [reflexivity|]. split; [reflexivity|]. discriminate.
Qed.

(** C7, amended. For an existing session whose transcript is scored to a
    document that parses to an object with totalScore 85 and category
    entries that are objects with scores that can be converted to numbers
    (no score is an object with an own property toString, or an array that
    holds one), the stored overallScore is 85 and the stored technicalScore
    is the score of the entry named Technical Knowledge rounded to the
    nearest integer, provided that this rounded score is not 0. *)
Theorem parsed_scores_persisted (w : World) (st : Store) (id : N) (s : Session)
    (transcript : string) (messages : list Message) (text : string)
    (ps : list (string * JsValue)) (total : Q) (cats : list JsValue)
    (c : JsValue) (q : Q) :
  sessions st !! id = Some s ->
  real_transcript transcript messages ->
  generateContent w (feedback_prompt (formatTranscript transcript messages))
  = ModelText text ->
  JSON_parse w (clean_response text) = Some (JObj ps) ->
  lookup_prop "totalScore" ps = JNum (Num total) ->
  (total == 85)%Q ->
  lookup_prop "categoryScores" ps = JArray cats ->
  Forall category_object cats ->
  Forall (fun c => coercion_throws (get_prop c "score") = false) cats ->
  find_category "Technical Knowledge" cats = Some c ->
  get_prop c "score" = JNum (Num q) ->
  round_half_up q <> 0%Z ->
  exists fb st' s',
    run (generateFeedbackFromTranscript w id transcript messages) st
    = (Returned fb, st')
    /\ sessions st' !! id = Some s'
    /\ status s' = COMPLETED
    /\ overallScore s' = JInt 85
    /\ technicalScore s' = JInt (round_half_up q).
Proof.
  intros Hs Hlong Hmodel Hparse Htotal H85 Hcats Hobj Hconv Hfind Hscore Hround.
  assert (Hpf : parse_feedback w (clean_response text) = JObj ps)
    by (unfold parse_feedback; now rewrite Hparse).
  assert (Hobj' : Forall category_object
                    (array_elems (lookup_prop "categoryScores" ps)))
    by (now rewrite Hcats).
  assert (Hconv' : convertible_scores ps)
    by (unfold convertible_scores; rewrite Htotal, Hcats; split;
        [reflexivity | exact Hconv]).
  destruct (run_object w st id s transcript messages text ps
              Hs Hlong Hmodel Hpf Hobj' Hconv')
    as (st' & ps' & t & c' & f & Hrun & Htot' & _ & _ & Ht & _ & _ & Hst').
  assert (Hne : nonempty_array (JArray cats) = true
                /\ optional_get c "score" = JNum (Num q))
    by (apply (found_with_score "Technical Knowledge"); assumption).
  destruct Hne as [Hne Hopt].
  unfold categories_after in Ht. rewrite Hcats, Hne in Ht. cbn in Ht.
  rewrite Hfind in Ht. injection Ht as <-.
  eexists (JObj ps'), st', _. split; [exact Hrun|]. split; [exact Hst'|].
  split; [reflexivity|]. cbn.
  rewrite Htot', Hopt. unfold total_after. rewrite Htotal.
  assert (Htruthy : truthy (JNum (Num total)) = true).
  { cbn. unfold Qeq in H85; cbn in H85. apply negb_true_iff, Z.eqb_neq.
    intros Hz. rewrite Hz in H85. lia. }
  rewrite Htruthy, !rounded_or_number.
  rewrite (round_half_up_eq _ _ H85).
  split; [reflexivity|].
  destruct (round_half_up q =? 0)%Z eqn:E; [|reflexivity].
  apply Z.eqb_eq in E. contradiction.
Qed.

Lemma parsed_scores_persisted_witness :
  let w := Example.scoring_world "85" "80" (JInt 85) (JInt 80) in
  let st := Example.store_with Example.in_progress in
  exists fb st' s',
    run (generateFeedbackFromTranscript w 1 Example.long_transcript []) st
    = (Returned fb, st')
    /\ sessions st' !! 1%N = Some s'
    /\ status s' = COMPLETED
    /\ overallScore s' = JInt 85
    /\ technicalScore s' = JInt (round_half_up (inject_Z 80)).
Proof.
  intros w st.
  apply (parsed_scores_persisted w st 1 Example.in_progress
           Example.long_transcript []
           (Example.document_json "85" "80")
           [ ("totalScore", JInt 85);
             ("categoryScores",
              JArray [ category_entry "Communication Skills" (JInt 90) "ok";
                       category_entry "Technical Knowledge" (JInt 80) "ok";
                       category_entry "Problem Solving" (JInt 70) "ok";
                       category_entry "Cultural Fit" (JInt 88) "ok";
                       category_entry "Confidence and Clarity" (JInt 92) "ok" ]);
             ("strengths", JArray [JStr "clear"]);
             ("areasForImprovement", JArray []);
             ("finalAssessment", JStr "Solid interview.") ]
           (inject_Z 85)
           [ category_entry "Communication Skills" (JInt 90) "ok";
             category_entry "Technical Knowledge" (JInt 80) "ok";
             category_entry "Problem Solving" (JInt 70) "ok";
             category_entry "Cultural Fit" (JInt 88) "ok";
             category_entry "Confidence and Clarity" (JInt 92) "ok" ]
           (category_entry "Technical Knowledge" (JInt 80) "ok")
           (inject_Z 80)).
  - reflexivity.
  - unfold real_transcript. vm_compute. lia.
  - reflexivity.
  - vm_compute. reflexivity.
  - reflexivity.
  - reflexivity.
  - reflexivity.
  - repeat constructor; eexists; reflexivity.
  - repeat constructor.
  - reflexivity.
  - reflexivity.
  - vm_compute. discriminate.
Defined.

(** An integer score other than 0 is stored as it is. *)
Lemma rounded_or_integer w z d : z <> 0%Z -> rounded_or w (JInt z) d = JInt z.
Proof.
  intros Hz. unfold JInt. rewrite rounded_or_number, round_half_up_int.
  destruct (z =? 0)%Z eqn:E; [apply Z.eqb_eq in E; contradiction | reflexivity].
Qed.

(** C10. For an existing session and a parsed document that is an object
    whose category entries are objects and whose total and category scores
    can be converted to numbers (none is an object with an own property
    toString, or an array that holds one): a totalScore of 0 is stored as
    overallScore 75, and a score of 0 in the entry named Technical
    Knowledge, Communication Skills or Confidence and Clarity is stored as
    50 in technicalScore, communicationScore or confidenceScore. *)
Theorem zero_scores_replaced (w : World) (st : Store) (id : N) (s : Session)
    (transcript : string) (messages : list Message) (text : string)
    (ps : list (string * JsValue)) :
  sessions st !! id = Some s ->
  real_transcript transcript messages ->
  generateContent w (feedback_prompt (formatTranscript transcript messages))
  = ModelText text ->
  JSON_parse w (clean_response text) = Some (JObj ps) ->
  Forall category_object (array_elems (lookup_prop "categoryScores" ps)) ->
  convertible_scores ps ->
  exists fb st' s',
    run (generateFeedbackFromTranscript w id transcript messages) st
    = (Returned fb, st')
    /\ sessions st' !! id = Some s'
    /\ (is_zero (lookup_prop "totalScore" ps) -> overallScore s' = JInt 75)
    /\ (forall c,
          find_category "Technical Knowledge"
            (array_elems (lookup_prop "categoryScores" ps)) = Some c ->
          is_zero (get_prop c "score") -> technicalScore s' = JInt 50)
    /\ (forall c,
          find_category "Communication Skills"
            (array_elems (lookup_prop "categoryScores" ps)) = Some c ->
          is_zero (get_prop c "score") -> communicationScore s' = JInt 50)
    /\ (forall c,
          find_category "Confidence and Clarity"
            (array_elems (lookup_prop "categoryScores" ps)) = Some c ->
          is_zero (get_prop c "score") -> confidenceScore s' = JInt 50).
Proof.
  intros Hs Hlong Hmodel Hparse Hobj Hconv.
  assert (Hpf : parse_feedback w (clean_response text) = JObj ps)
    by (unfold parse_feedback; now rewrite Hparse).
  destruct (run_object w st id s transcript messages text ps
              Hs Hlong Hmodel Hpf Hobj Hconv)
    as (st' & ps' & t & c' & f & Hrun & Htot' & _ & _ & Ht & Hc & Hf & Hst').
  eexists (JObj ps'), st', _. split; [exact Hrun|]. split; [exact Hst'|].
  assert (Hcat : forall name c x,
             find_category name (array_elems (lookup_prop "categoryScores" ps))
             = Some c ->
             is_zero (get_prop c "score") ->
             find_category name (array_elems (categories_after ps)) = Some x ->
             rounded_or w (optional_get x "score") 50 = JInt 50).
  { intros name c x Hfind Hzero Hx.
    destruct Hzero as (q & Hq & Hq0).
    destruct (found_with_score name _ c _ Hfind Hq) as [Hne Hopt].
    unfold categories_after in Hx. rewrite Hne, Hfind in Hx.
    injection Hx as <-. rewrite Hopt.
    apply rounded_or_zero. now exists q. }
  cbn. repeat split.
  - intros Hzero. rewrite Htot'. unfold total_after.
    now rewrite (is_zero_falsy _ Hzero).
  - intros c Hfind Hzero. exact (Hcat _ c t Hfind Hzero Ht).
  - intros c Hfind Hzero. exact (Hcat _ c c' Hfind Hzero Hc).
  - intros c Hfind Hzero. exact (Hcat _ c f Hfind Hzero Hf).
Qed.

Lemma zero_scores_replaced_witness :
  let w := Example.scoring_world "0" "0" (JInt 0) (JInt 0) in
  let st := Example.store_with Example.in_progress in
  exists fb st' s',
    run (generateFeedbackFromTranscript w 1 Example.long_transcript []) st
    = (Returned fb, st')
    /\ sessions st' !! 1%N = Some s'
    /\ overallScore s' = JInt 75
    /\ technicalScore s' = JInt 50.
Proof.
  intros w st.
  assert (H1 : sessions st !! 1%N = Some Example.in_progress) by reflexivity.
  assert (H2 : real_transcript Example.long_transcript [])
    by (unfold real_transcript; vm_compute; lia).
  assert (H3 : generateContent w
                 (feedback_prompt (formatTranscript Example.long_transcript []))
               = ModelText (Example.document_json "0" "0")) by reflexivity.
  assert (H4 : JSON_parse w (clean_response (Example.document_json "0" "0"))
               = Some (JObj
                   [ ("totalScore", JInt 0);
                     ("categoryScores",
                      JArray [ category_entry "Communication Skills" (JInt 90) "ok";
                               category_entry "Technical Knowledge" (JInt 0) "ok";
                               category_entry "Problem Solving" (JInt 70) "ok";
                               category_entry "Cultural Fit" (JInt 88) "ok";
                               category_entry "Confidence and Clarity" (JInt 92) "ok" ]);
                     ("strengths", JArray [JStr "clear"]);
                     ("areasForImprovement", JArray []);
                     ("finalAssessment", JStr "Solid interview.") ]))
    by (vm_compute; reflexivity).
  destruct (zero_scores_replaced w st 1 Example.in_progress
              Example.long_transcript [] _ _ H1 H2 H3 H4)
    as (fb & st' & s' & Hrun & Hst' & Htotal & Htech & _).
  { repeat constructor; eexists; reflexivity. }
  { split; [reflexivity | repeat constructor]. }
  exists fb, st', s'. split; [exact Hrun|]. split; [exact Hst'|]. split.
  - apply Htotal. exists 0%Q. split; reflexivity.
  - apply (Htech (category_entry "Technical Knowledge" (JInt 0) "ok")).
    + reflexivity.
    + exists 0%Q. split; reflexivity.
Defined.

(** ** A response that is not JSON *)

Lemma digits_then_no_digit rest c s :
  JsString.is_digit c = false -> JsString.digits_then rest (String c s) = None.
Proof. intros H. unfold JsString.digits_then; cbn. now rewrite H. Qed.

Lemma match_score_of_100_no_digit s :
  JsString.contains_digit s = false -> JsString.match_score_of_100 s = None.
Proof.
  induction s as [|c s IH]; [reflexivity|].
  cbn [JsString.contains_digit]. intros H. apply orb_false_iff in H as [Hc Hs].
  cbn [JsString.match_score_of_100]. rewrite (digits_then_no_digit _ _ _ Hc).
  now apply IH.
Qed.

Lemma match_bare_number_no_digit prev s :
  JsString.contains_digit s = false ->
  JsString.match_bare_number_from prev s = None.
Proof.
  revert prev. induction s as [|c s IH]; intros prev.
  - now destruct prev.
  - cbn [JsString.contains_digit]. intros H. apply orb_false_iff in H as [Hc Hs].
    cbn [JsString.match_bare_number_from].
    rewrite (digits_then_no_digit _ _ _ Hc).
    destruct prev; now apply IH.
Qed.

(** A text without a digit yields no total, hence the default of 75. *)
Lemma total_kept_no_digit cleanedText :
  JsString.contains_digit cleanedText = false -> total_kept cleanedText = 75%Z.
Proof.
  intros H. unfold total_kept, totalGuess, JsString.match_bare_number.
  now rewrite match_score_of_100_no_digit, match_bare_number_no_digit.
Qed.

(** The total that is returned is never 0. *)
Lemma total_kept_range cleanedText : (1 <= total_kept cleanedText <= 100)%Z.
Proof.
  unfold total_kept. destruct (totalGuess cleanedText) as [n|]; [|lia].
  destruct (Z.max 0 (Z.min 100 n) =? 0)%Z eqn:E; [lia|].
  apply Z.eqb_neq in E. lia.
Qed.

Lemma parse_fallback_checked cleanedText :
  ensure_structure (parse_fallback cleanedText)
  = Some (feedback_document (JInt (total_kept cleanedText))
            (five_categories (JInt 75) "Auto-generated fallback")
            ["Could not parse model JSON; using fallback values"]
            (JsString.js_substring 0 1000 cleanedText)).
Proof.
  unfold parse_fallback, total_kept.
  destruct (totalGuess cleanedText) as [n|]; [|reflexivity].
  unfold ensure_structure, ensure_prop, feedback_document.
  cbn [get_prop lookup_prop String.eqb Ascii.eqb Bool.eqb].
  rewrite truthy_JInt.
  destruct (Z.max 0 (Z.min 100 n) =? 0)%Z; reflexivity.
Qed.

(** Whenever JSON.parse throws on the cleaned response, the derivation
    returns the uniform document: five category scores of 75, the first
    thousand characters of the cleaned response as finalAssessment, and
    for total the recovered number cut to 0..100, or 75 when no number is
    found, and also when the number recovered is 0. *)
Lemma unparsed_response_document (w : World) (st : Store) (id : N) (s : Session)
    (transcript : string) (messages : list Message) (text : string) :
  sessions st !! id = Some s ->
  real_transcript transcript messages ->
  generateContent w (feedback_prompt (formatTranscript transcript messages))
  = ModelText text ->
  JSON_parse w (clean_response text) = None ->
  exists st' s',
    run (generateFeedbackFromTranscript w id transcript messages) st
    = (Returned
         (feedback_document (JInt (total_kept (clean_response text)))
            (five_categories (JInt 75) "Auto-generated fallback")
            ["Could not parse model JSON; using fallback values"]
            (JsString.js_substring 0 1000 (clean_response text))), st')
    /\ sessions st' !! id = Some s'
    /\ status s' = COMPLETED
    /\ overallScore s' = JInt (total_kept (clean_response text))
    /\ technicalScore s' = JInt 75
    /\ communicationScore s' = JInt 75
    /\ confidenceScore s' = JInt 75.
Proof.
  intros Hs Hlong Hmodel Hparse.
  assert (Hfb : ensure_structure (parse_feedback w (clean_response text)) = Some _)
    by (unfold parse_feedback; rewrite Hparse; apply parse_fallback_checked).
  destruct (run_model_text w st id s transcript messages Hs text _ _
              (real_transcript_proceeds _ _ Hlong) Hmodel Hfb eq_refl)
    as (st' & Hrun & Hst').
  eexists st', _. split; [exact Hrun|]. split; [exact Hst'|].
  split; [reflexivity|]. cbn.
  assert (Hkept : total_kept (clean_response text) <> 0%Z).
  { unfold total_kept. destruct (totalGuess _) as [n|]; [|discriminate].
    destruct (Z.max 0 (Z.min 100 n) =? 0)%Z eqn:E; [discriminate|].
    now apply Z.eqb_neq. }
  rewrite (rounded_or_integer w _ 75 Hkept).
  repeat split.
Qed.

(** C6 at the response Score: 0/100, on which JSON.parse throws: the
    pattern NN/100 recovers the number 0, yet the document returned has
    totalScore 75 and the session is stored with overallScore 75. *)
Theorem zero_total_not_recovered :
  let w := Example.plain_world None (ModelText "Score: 0/100") None in
  let st := Example.store_with Example.in_progress in
  JSON_parse w (clean_response "Score: 0/100") = None
  /\ JsString.match_score_of_100 (clean_response "Score: 0/100") = Some "0"
  /\ totalGuess (clean_response "Score: 0/100") = Some 0%Z
  /\ get_prop (parse_fallback (clean_response "Score: 0/100")) "totalScore" = JInt 0
  /\ exists fb st' s',
      run (generateFeedbackFromTranscript w 1 Example.long_transcript []) st
      = (Returned fb, st')
      /\ get_prop fb "totalScore" = JInt 75
      /\ sessions st' !! 1%N = Some s'
      /\ overallScore s' = JInt 75.
Proof.
  cbv zeta. repeat (split; [reflexivity|]).
  eexists _, _, _. split; [vm_compute; reflexivity|].
  repeat split.
Qed.

(** ** Completion when the derivation fails or times out *)

(** The catch block of the derivation on an existing session: either the
    timer fires while its update is awaited, or the session is completed
    with the neutral score and null is returned. *)
Lemma fatal_handler w id m s1 :
  sessions (store m) !! id = Some s1 ->
  let handler := (best_effort (Db.session_update id (fatal_data w)) ;;; ret JNull) in
  handler m = (Suspended, m)
  \/ exists t',
      handler m
      = (Returned JNull,
         {| store := with_sessions (store m)
                       (<[id := apply_data (fatal_data w) s1]> (sessions (store m)));
            timer := t' |}).
Proof.
  intros H handler. subst handler. destruct m as [st0 [[|n]|]]; cbn [store] in *.
  - left. reflexivity.
  - right. exists (Some n). async_eval. rewrite H. reflexivity.
  - right. exists None. async_eval. rewrite H. reflexivity.
Qed.

(** handleInterviewComplete on an existing session, by the way the
    derivation ends under the race. When the derivation returns, the
    handler returns its document and the session as the derivation stored
    it. When the timer fires first, the handler writes the degraded data
    over the session as the derivation has left it so far, and returns
    that session with a null feedback. *)
Lemma complete_by_outcome (w : World) (st : Store) (id : N) (s : Session)
    (transcript : string) (messages : list Message) :
  sessions st !! id = Some s ->
  match generateFeedbackFromTranscript w id transcript messages
          (racing w (store_at_race w id s transcript messages st)) with
  | (Returned fb, m2) =>
      exists s',
        sessions (store m2) !! id = Some s' /\ settled s'
        /\ run (handleInterviewComplete w id transcript messages) st
           = (Returned {| completed_session := Some s'; feedback := fb |}, store m2)
  | (Thrown _, _) => False
  | (Suspended, m2) =>
      exists s2,
        sessions (store m2) !! id = Some s2
        /\ run (handleInterviewComplete w id transcript messages) st
           = (Returned {| completed_session := Some (apply_data (degraded_data w) s2);
                          feedback := JNull |},
              with_sessions (store m2)
                (<[id := apply_data (degraded_data w) s2]> (sessions (store m2))))
  end.
Proof.
  intros Hs.
  unfold handleInterviewComplete, store_at_race, racing, complete_analytics.
  async_eval. rewrite Hs. async_eval.
  match goal with
  | |- context [generateFeedbackFromTranscript w id transcript messages ?M] =>
      set (m := M) in *
  end.
  assert (Hm : has_session id (store m))
    by (unfold has_session, m; cbn [store sessions with_analytics]; rewrite Hs; eauto).
  pose proof (derive_wp w id transcript messages m Hm) as Hwp.
  unfold wp in Hwp.
  destruct (generateFeedbackFromTranscript w id transcript messages m)
    as [[fb| e |] m2] eqn:E.
  - destruct Hwp as (s2 & Hs2 & Hdone). async_eval.
    exists s2. split; [exact Hs2|]. split; [exact Hdone|].
    rewrite Hs2. reflexivity.
  - contradiction.
  - destruct Hwp as [s2 Hs2]. async_eval. rewrite Hs2. async_eval.
    rewrite lookup_insert_eq. async_eval.
    exists s2. split; reflexivity.
Qed.

(** C1 as it is stated fails, in both of its cases. When the
    text-generation collaborator throws on the feedback prompt, the
    derivation catches it and stores the scores of its fixed document:
    the session ends COMPLETED with overallScore 60. When the timer fires,
    here before the first awaited call of the derivation has settled,
    handleInterviewComplete stores overallScore 50 and returns a null
    feedback; the derivation, which nothing cancels, then runs from the
    store that was left, and its update replaces the 50 by the 80 it reads
    off the response. *)
Lemma failed_derivation_other_scores :
  let st := Example.store_with Example.in_progress in
  (let w := Example.plain_world None (ModelThrows "quota exceeded") None in
   generateContent w (feedback_prompt (formatTranscript Example.long_transcript []))
   = ModelThrows "quota exceeded"
   /\ exists r st' s',
       run (handleInterviewComplete w 1 Example.long_transcript []) st
       = (Returned r, st')
       /\ sessions st' !! 1%N = Some s'
       /\ status s' = COMPLETED
       /\ overallScore s' = JInt 60
       /\ overallScore s' <> JInt 50)
  /\ (let w := Example.plain_world None (ModelText "Score: 80/100") (Some 0%nat) in
      let m := racing w (store_at_race w 1 Example.in_progress
                           Example.long_transcript [] st) in
      generateFeedbackFromTranscript w 1 Example.long_transcript [] m = (Suspended, m)
      /\ exists r st' s' fb st'' s'',
          run (handleInterviewComplete w 1 Example.long_transcript []) st
          = (Returned r, st')
          /\ feedback r = JNull
          /\ sessions st' !! 1%N = Some s'
          /\ overallScore s' = JInt 50
          /\ run (generateFeedbackFromTranscript w 1 Example.long_transcript []) st'
             = (Returned fb, st'')
          /\ sessions st'' !! 1%N = Some s''
          /\ status s'' = COMPLETED
          /\ overallScore s'' = JInt 80
          /\ overallScore s'' <> JInt 50).
Proof.
  split.
  - split; [reflexivity|]. eexists _, _, _.
    split; [vm_compute; reflexivity|].
    split; [reflexivity|]. split; [reflexivity|]. split; [reflexivity|].
    discriminate.
  - split; [vm_compute; reflexivity|]. eexists _, _, _, _, _, _.
    split; [vm_compute; reflexivity|].
    split; [reflexivity|]. split; [reflexivity|]. split; [reflexivity|].
    split; [vm_compute; reflexivity|].
    split; [reflexivity|]. split; [reflexivity|]. split; [reflexivity|].
    discriminate.
Qed.

(** C1, amended. For an existing session handleInterviewComplete returns,
    however the feedback derivation ends, and it leaves the session
    COMPLETED with a detailedFeedback and an overallScore that are not
    null. When the derivation raises inside its try block and its catch
    block settles before the timer fires, the feedback returned is null
    and the session is stored, and returned, with overallScore 50. When
    the text-generation collaborator throws on the feedback prompt of a
    transcript of at least the threshold and the derivation settles before
    the timer fires, the fixed document is returned and the session is
    stored, and returned, with overallScore 60. When the timer fires
    first, the feedback returned is null; the score that the session holds
    in the end is then left open, since the derivation goes on. *)
Theorem failed_derivation_completes (w : World) (st : Store) (id : N) (s : Session)
    (transcript : string) (messages : list Message) :
  sessions st !! id = Some s ->
  let m := racing w (store_at_race w id s transcript messages st) in
  exists r st' s',
    run (handleInterviewComplete w id transcript messages) st = (Returned r, st')
    /\ sessions st' !! id = Some s'
    /\ status s' = COMPLETED
    /\ detailedFeedback s' <> JNull
    /\ overallScore s' <> JNull
    /\ (forall e m1 fb m2,
          generateFeedback_try w id transcript messages m = (Thrown e, m1) ->
          generateFeedbackFromTranscript w id transcript messages m = (Returned fb, m2) ->
          r = {| completed_session := Some s'; feedback := JNull |}
          /\ overallScore s' = JInt 50)
    /\ (forall msg,
          real_transcript transcript messages ->
          generateContent w (feedback_prompt (formatTranscript transcript messages))
          = ModelThrows msg ->
          feedback_deadline w = None ->
          r = {| completed_session := Some s'; feedback := model_error_fallback |}
          /\ overallScore s' = JInt 60)
    /\ (forall m',
          generateFeedbackFromTranscript w id transcript messages m = (Suspended, m') ->
          feedback r = JNull).
Proof.
  intros Hs m.
  pose proof (complete_by_outcome w st id s transcript messages Hs) as Hrun.
  fold m in Hrun.
  assert (Hs0 : sessions (store m) !! id = Some s).
  { unfold m, racing, store_at_race, complete_analytics. async_eval.
    cbn [sessions with_analytics]. exact Hs. }
  assert (Hm : has_session id (store m)) by (unfold has_session; eauto).
  pose proof (derive_try_wp w id transcript messages m Hm) as Htry.
  unfold wp in Htry.
  assert (Hthrow : forall msg,
            real_transcript transcript messages ->
            generateContent w (feedback_prompt (formatTranscript transcript messages))
            = ModelThrows msg ->
            feedback_deadline w = None ->
            exists st1 s1,
              (let (r, m') := generateFeedbackFromTranscript w id transcript messages m in
               (r, store m')) = (Returned model_error_fallback, st1)
              /\ sessions st1 !! id = Some s1
              /\ overallScore s1 = JInt 60).
  { intros msg Hlong Hmodel Hdeadline.
    destruct (run_model_error w (store m) id s transcript messages Hs0 msg _
                (real_transcript_proceeds _ _ Hlong) Hmodel eq_refl)
      as (st1 & Hder & Hst1).
    unfold run in Hder.
    replace {| store := store m; timer := None |} with m in Hder
      by (unfold m, racing; rewrite Hdeadline; reflexivity).
    eexists _, _. split; [exact Hder|]. split; [exact Hst1|]. reflexivity. }
  destruct (generateFeedbackFromTranscript w id transcript messages m)
    as [[fb| e |] m2] eqn:E; [| contradiction |].
  - (* the derivation settles first *)
    destruct Hrun as (s' & Hs' & (Hstatus & Hscore & Htext) & Hrun).
    exists {| completed_session := Some s'; feedback := fb |}, (store m2), s'.
    split; [exact Hrun|]. split; [exact Hs'|]. split; [exact Hstatus|].
    split; [exact Htext|]. split; [exact Hscore|].
    split; [|split]; [| |discriminate].
    + (* its try block raised *)
      intros e m1 fb' m2' Hthrown [= <- <-].
      rewrite Hthrown in Htry. destruct Htry as [s1 Hs1].
      unfold generateFeedbackFromTranscript, try_catch in E.
      rewrite Hthrown in E.
      destruct (fatal_handler w id m1 s1 Hs1) as [Hh | (t' & Hh)];
        cbv zeta in Hh; rewrite Hh in E; [discriminate|].
      injection E as <- <-. cbn [store sessions with_sessions] in Hs'.
      rewrite lookup_insert_eq in Hs'. injection Hs' as <-.
      split; reflexivity.
    + (* the collaborator threw *)
      intros msg Hlong Hmodel Hdeadline.
      destruct (Hthrow msg Hlong Hmodel Hdeadline) as (st1 & s1 & [= -> <-] & Hs1 & H60).
      assert (s1 = s') by congruence. subst s1.
      split; [reflexivity | exact H60].
  - (* the timer fires first *)
    destruct Hrun as (s2 & Hs2 & Hrun).
    eexists _, _, _. split; [exact Hrun|].
    cbn [sessions with_sessions]. rewrite lookup_insert_eq.
    split; [reflexivity|].
    destruct (degraded_data_writes w s2) as (Hstatus & Hscore & Htext).
    split; [exact Hstatus|]. split; [exact Htext|]. split; [exact Hscore|].
    split; [|split]; [discriminate | | reflexivity].
    intros msg Hlong Hmodel Hdeadline.
    destruct (Hthrow msg Hlong Hmodel Hdeadline) as (st1 & s1 & Hder & _).
    discriminate Hder.
Qed.

(** C1 at three ends of the derivation: the collaborator answers null,
    which the structure checks cannot read; the collaborator throws; the
    timer fires while the collaborator is awaited. *)
Lemma failed_derivation_completes_witness :
  let st := Example.store_with Example.in_progress in
  (let w := Example.world None (ModelText "null") "null" JNull None in
   exists st' s',
     run (handleInterviewComplete w 1 Example.long_transcript []) st
     = (Returned {| completed_session := Some s'; feedback := JNull |}, st')
     /\ sessions st' !! 1%N = Some s'
     /\ status s' = COMPLETED
     /\ detailedFeedback s' <> JNull
     /\ overallScore s' = JInt 50)
  /\ (let w := Example.plain_world None (ModelThrows "quota exceeded") None in
      exists st' s',
        run (handleInterviewComplete w 1 Example.long_transcript []) st
        = (Returned {| completed_session := Some s';
                       feedback := model_error_fallback |}, st')
        /\ sessions st' !! 1%N = Some s'
        /\ status s' = COMPLETED
        /\ detailedFeedback s' <> JNull
        /\ overallScore s' = JInt 60)
  /\ (let w := Example.plain_world None (ModelText "Score: 80/100") (Some 2%nat) in
      exists r st' s',
        run (handleInterviewComplete w 1 Example.long_transcript []) st
        = (Returned r, st')
        /\ feedback r = JNull
        /\ sessions st' !! 1%N = Some s'
        /\ status s' = COMPLETED
        /\ detailedFeedback s' <> JNull
        /\ overallScore s' <> JNull).
Proof.
  intros st. split; [|split]; intros w.
  - destruct (failed_derivation_completes w st 1 Example.in_progress
                Example.long_transcript [] eq_refl)
      as (r & st' & s' & Hrun & Hs' & Hstatus & Htext & _ & Hraise & _).
    destruct (fun e m1 fb m2 => Hraise e m1 fb m2) with
      (e := TypeError)
      (m1 := snd (generateFeedback_try w 1 Example.long_transcript []
                    (racing w (store_at_race w 1 Example.in_progress
                                 Example.long_transcript [] st))))
      (fb := JNull)
      (m2 := snd (generateFeedbackFromTranscript w 1 Example.long_transcript []
                    (racing w (store_at_race w 1 Example.in_progress
                                 Example.long_transcript [] st))))
      as [Hr H50].
    + vm_compute. reflexivity.
    + vm_compute. reflexivity.
    + subst r. exists st', s'. repeat (split; [assumption|]). exact H50.
  - destruct (failed_derivation_completes w st 1 Example.in_progress
                Example.long_transcript [] eq_refl)
      as (r & st' & s' & Hrun & Hs' & Hstatus & Htext & _ & _ & Hthrow & _).
    destruct (Hthrow "quota exceeded") as [Hr H60].
    + unfold real_transcript. vm_compute. lia.
    + reflexivity.
    + reflexivity.
    + subst r. exists st', s'. repeat (split; [assumption|]). exact H60.
  - destruct (failed_derivation_completes w st 1 Example.in_progress
                Example.long_transcript [] eq_refl)
      as (r & st' & s' & Hrun & Hs' & Hstatus & Htext & Hscore & _ & _ & Htimer).
    exists r, st', s'. split; [exact Hrun|].
    split; [|repeat (split; [assumption|]); exact Hscore].
    eapply Htimer. vm_compute. reflexivity.
Defined.

(** ** Identity *)

(** The outcome of handleInterviewComplete does not depend on the caller. *)
Lemma complete_ignores_identity (w : World) (caller : option string)
    (id : N) (transcript : string) (messages : list Message) :
  handleInterviewComplete
    {| auth_userId := caller;
       generateContent := generateContent w;
       JSON_parse := JSON_parse w;
       ToNumber_object := ToNumber_object w;
       ToString_value := ToString_value w;
       Date_now := Date_now w;
       feedback_deadline := feedback_deadline w |} id transcript messages
  = handleInterviewComplete w id transcript messages.
Proof. destruct w. reflexivity. Qed.

(** C3 at a call without identity, and at a call by another user. The
    session of alice is completed and its scores are overwritten, where
    startInterviewWithQuestions and getInterviewSession on the same store
    throw and leave the sessions as they are. *)
Theorem complete_without_identity :
  let st := Example.shared_store Example.in_progress in
  (let w := Example.plain_world None (ModelThrows "unused") None in
   auth_userId w = None
   /\ (exists st', run (startInterviewWithQuestions w 1) st = (Thrown Unauthorized, st')
                   /\ sessions st' = sessions st)
   /\ (exists st', run (getInterviewSession w 1) st = (Thrown Unauthorized, st')
                   /\ sessions st' = sessions st)
   /\ exists r st' s',
       run (handleInterviewComplete w 1 "hello" []) st = (Returned r, st')
       /\ sessions st' !! 1%N = Some s'
       /\ status s' = COMPLETED
       /\ overallScore s' = JInt 50)
  /\ (let w := Example.plain_world (Some "clerk_bob") (ModelThrows "unused") None in
      signed_in w st Example.bob
      /\ userId Example.in_progress <> user_id Example.bob
      /\ (exists st', run (startInterviewWithQuestions w 1) st
                      = (Thrown InterviewSessionNotFound, st')
                      /\ sessions st' = sessions st)
      /\ exists r st' s',
          run (handleInterviewComplete w 1 "hello" []) st = (Returned r, st')
          /\ sessions st' !! 1%N = Some s'
          /\ userId s' = user_id Example.alice
          /\ status s' = COMPLETED
          /\ overallScore s' = JInt 50).
Proof.
  cbv zeta. split.
  - split; [reflexivity|].
    split; [eexists; split; reflexivity|].
    split; [eexists; split; reflexivity|].
    eexists _, _, _. split; [vm_compute; reflexivity|].
    repeat split.
  - split; [exists "clerk_bob"; repeat split|].
    split; [discriminate|].
    split; [eexists; split; reflexivity|].
    eexists _, _, _. split; [vm_compute; reflexivity|].
    repeat split.
Qed.

(** ** Creation *)

Lemma create_stores (w : World) (st : Store) (sd : SessionInput) (u : User) :
  signed_in w st u ->
  exists c st',
    run (createInterviewSession w sd) st = (Returned c, st')
    /\ sessions st !! created_id c = None
    /\ sessions st' !! created_id c = Some (created_session c)
    /\ created_session c = new_session u sd (stored_questions w sd u).
Proof.
  intros (clerk & Hauth & Hne & Hu).
  unfold createInterviewSession, generateInterviewQuestions, stored_questions.
  do 4 (async_eval; rewrite ?Hauth, ?Hne, ?Hu).
  assert (Hfresh : sessions st !! fresh (dom (sessions st)) = None)
    by (apply not_elem_of_dom, is_fresh).
  destruct (generateContent w (questions_prompt sd u)) as [msg|text]; async_eval.
  - eexists _, _. split; [reflexivity|]. cbn.
    split; [exact Hfresh|]. split; [apply lookup_insert_eq | reflexivity].
  - destruct (JSON_parse w _) as [v|]; async_eval.
    + eexists _, _. split; [reflexivity|]. cbn.
      split; [exact Hfresh|]. split; [apply lookup_insert_eq|].
      destruct (isArray v) eqn:E; cbn; rewrite ?E; reflexivity.
    + eexists _, _. split; [reflexivity|]. cbn.
      split; [exact Hfresh|]. split; [apply lookup_insert_eq | reflexivity].
Qed.

(** C8 as it is stated fails: an answer that is JSON but no array (here an
    empty object) is not replaced by the fallback list; the session is
    stored with an empty question list. *)
Lemma non_array_answer_stored_empty :
  let w := Example.world (Some "clerk_alice") (ModelText "{}") "{}" (JObj []) None in
  let st := Example.store_with Example.in_progress in
  JSON_parse w (JsString.trim (JsString.strip_fences "{}")) = Some (JObj [])
  /\ isArray (JObj []) = false
  /\ exists c st',
      run (createInterviewSession w Example.engineer) st = (Returned c, st')
      /\ sessions st' !! created_id c = Some (created_session c)
      /\ questions (created_session c) = JArray []
      /\ questions (created_session c)
         <> questions_value (fallback_questions (in_role Example.engineer)).
Proof.
  cbv zeta. split; [reflexivity|]. split; [reflexivity|].
  eexists _, _. split; [vm_compute; reflexivity|].
  split; [reflexivity|]. split; [reflexivity|]. discriminate.
Qed.

(** C8, amended. For a caller who is signed in, createInterviewSession
    stores the fixed list of 8 questions, the role interpolated into the
    second, whenever the collaborator throws or JSON.parse throws on its
    cleaned answer; when the answer is JSON that is not an array, the list
    stored is empty. *)
Theorem fallback_questions_stored (w : World) (st : Store) (sd : SessionInput)
    (u : User) :
  signed_in w st u ->
  exists c st',
    run (createInterviewSession w sd) st = (Returned c, st')
    /\ sessions st' !! created_id c = Some (created_session c)
    /\ (forall msg,
          generateContent w (questions_prompt sd u) = ModelThrows msg ->
          questions (created_session c)
          = questions_value (fallback_questions (in_role sd)))
    /\ (forall text,
          generateContent w (questions_prompt sd u) = ModelText text ->
          JSON_parse w (JsString.trim (JsString.strip_fences text)) = None ->
          questions (created_session c)
          = questions_value (fallback_questions (in_role sd)))
    /\ (forall text v,
          generateContent w (questions_prompt sd u) = ModelText text ->
          JSON_parse w (JsString.trim (JsString.strip_fences text)) = Some v ->
          isArray v = false ->
          questions (created_session c) = JArray [])
    /\ length (fallback_questions (in_role sd)) = 8%nat
    /\ nth_error (fallback_questions (in_role sd)) 1
       = Some ("What interests you most about working as a " ++ in_role sd ++ "?").
Proof.
  intros Hin.
  destruct (create_stores w st sd u Hin) as (c & st' & Hrun & _ & Hst' & Hc).
  exists c, st'. split; [exact Hrun|]. split; [exact Hst'|].
  rewrite Hc. unfold stored_questions. cbn [questions new_session].
  repeat split.
  - intros msg ->. reflexivity.
  - intros text -> ->. reflexivity.
  - intros text v -> -> ->. reflexivity.
Qed.

Lemma fallback_questions_stored_witness :
  let w := Example.plain_world (Some "clerk_alice") (ModelThrows "quota exceeded") None in
  let st := Example.store_with Example.in_progress in
  signed_in w st Example.alice
  /\ exists c st',
      run (createInterviewSession w Example.engineer) st = (Returned c, st')
      /\ sessions st' !! created_id c = Some (created_session c)
      /\ questions (created_session c)
         = questions_value (fallback_questions "Backend Engineer").
Proof.
  intros w st.
  assert (Hin : signed_in w st Example.alice)
    by (exists "clerk_alice"; repeat split).
  split; [exact Hin|].
  destruct (fallback_questions_stored w st Example.engineer Example.alice Hin)
    as (c & st' & Hrun & Hst' & Hthrows & _).
  exists c, st'. split; [exact Hrun|]. split; [exact Hst'|].
  apply (Hthrows "quota exceeded"). reflexivity.
Defined.

(** C9 as it is stated fails: with the role UI/UX Designer and a failing
    collaborator the second stored question contains a slash, and an
    answer that is the empty array is stored as an empty list. *)
Lemma stored_questions_not_speakable :
  (let w := Example.plain_world (Some "clerk_alice") (ModelThrows "quota exceeded") None in
   JsString.is_empty (in_role Example.designer) = false
   /\ exists c st' q,
       run (createInterviewSession w Example.designer)
           (Example.store_with Example.in_progress) = (Returned c, st')
       /\ sessions st' !! created_id c = Some (created_session c)
       /\ nth_error (array_elems (questions (created_session c))) 1 = Some (JStr q)
       /\ JsString.contains_char "/" q = true)
  /\ (let w := Example.world (Some "clerk_alice") (ModelText "[]") "[]" (JArray []) None in
      JsString.is_empty (in_role Example.engineer) = false
      /\ exists c st',
          run (createInterviewSession w Example.engineer)
              (Example.store_with Example.in_progress) = (Returned c, st')
          /\ sessions st' !! created_id c = Some (created_session c)
          /\ array_elems (questions (created_session c)) = []).
Proof.
  split; cbv zeta; (split; [reflexivity|]).
  - eexists _, _, _. split; [vm_compute; reflexivity|].
    split; [reflexivity|]. split; reflexivity.
  - eexists _, _. split; [vm_compute; reflexivity|].
    split; reflexivity.
Qed.

Lemma fallback_speakable role_name :
  JsString.contains_char "/" role_name = false ->
  JsString.contains_char "*" role_name = false ->
  speakable (questions_value (fallback_questions role_name)).
Proof.
  intros Hslash Hstar. exists (fallback_questions role_name).
  split; [reflexivity|]. split; [discriminate|].
  unfold fallback_questions.
  repeat (apply Forall_cons; split;
          [ first [ split; reflexivity
                  | split; rewrite !contains_char_app;
                    rewrite ?Hslash, ?Hstar; reflexivity ] | ]).
  apply Forall_nil. exact I.
Qed.

(** C9, amended. For a caller who is signed in and a role that contains
    neither a slash nor an asterisk, when the collaborator throws or
    JSON.parse throws on its cleaned answer the list stored on the created
    session has 8 questions and none of them contains a slash or an
    asterisk. An array that the collaborator returns is stored as it
    is. *)
Theorem fallback_questions_speakable (w : World) (st : Store) (sd : SessionInput)
    (u : User) :
  signed_in w st u ->
  JsString.contains_char "/" (in_role sd) = false ->
  JsString.contains_char "*" (in_role sd) = false ->
  exists c st',
    run (createInterviewSession w sd) st = (Returned c, st')
    /\ sessions st' !! created_id c = Some (created_session c)
    /\ (((exists msg, generateContent w (questions_prompt sd u) = ModelThrows msg)
         \/ (exists text,
               generateContent w (questions_prompt sd u) = ModelText text
               /\ JSON_parse w (JsString.trim (JsString.strip_fences text)) = None)) ->
        speakable (questions (created_session c))
        /\ length (array_elems (questions (created_session c))) = 8%nat)
    /\ (forall text v,
          generateContent w (questions_prompt sd u) = ModelText text ->
          JSON_parse w (JsString.trim (JsString.strip_fences text)) = Some v ->
          isArray v = true ->
          questions (created_session c) = v).
Proof.
  intros Hin Hslash Hstar.
  destruct (create_stores w st sd u Hin) as (c & st' & Hrun & _ & Hst' & Hc).
  exists c, st'. split; [exact Hrun|]. split; [exact Hst'|].
  rewrite Hc. unfold stored_questions. cbn [questions new_session]. split.
  - intros Hfail.
    assert (Hq : match generateContent w (questions_prompt sd u) with
                 | ModelThrows _ => questions_value (fallback_questions (in_role sd))
                 | ModelText text =>
                     match JSON_parse w (JsString.trim (JsString.strip_fences text)) with
                     | Some v => if isArray v then v else JArray []
                     | None => questions_value (fallback_questions (in_role sd))
                     end
                 end = questions_value (fallback_questions (in_role sd)))
      by (destruct Hfail as [(msg & ->) | (text & -> & ->)]; reflexivity).
    rewrite Hq. split; [now apply fallback_speakable | reflexivity].
  - intros text v -> -> ->. reflexivity.
Qed.

Lemma fallback_questions_speakable_witness :
  let w := Example.plain_world (Some "clerk_alice") (ModelText "Sorry, no.") None in
  let st := Example.store_with Example.in_progress in
  exists c st',
    run (createInterviewSession w Example.engineer) st = (Returned c, st')
    /\ sessions st' !! created_id c = Some (created_session c)
    /\ speakable (questions (created_session c))
    /\ length (array_elems (questions (created_session c))) = 8%nat.
Proof.
  intros w st.
  destruct (fallback_questions_speakable w st Example.engineer Example.alice)
    as (c & st' & Hrun & Hst' & Hfallback & _).
  - exists "clerk_alice". repeat split.
  - reflexivity.
  - reflexivity.
  - exists c, st'. split; [exact Hrun|]. split; [exact Hst'|].
    apply Hfallback. right. exists "Sorry, no.". split; reflexivity.
Defined.

(** ** The status written by each operation *)

(** C2 as it is stated fails: startInterviewWithQuestions moves a
    COMPLETED session back to IN_PROGRESS, and handleInterviewComplete
    moves a FAILED session to COMPLETED. *)
Lemma terminal_status_overwritten :
  let w := Example.plain_world (Some "clerk_alice") (ModelThrows "unused") None in
  (let st := Example.store_with (Example.with_status COMPLETED Example.scheduled) in
   session_status 1 COMPLETED st
   /\ exists r st',
       run (startInterviewWithQuestions w 1) st = (Returned r, st')
       /\ session_status 1 IN_PROGRESS st')
  /\ (let st := Example.store_with (Example.with_status FAILED Example.scheduled) in
      session_status 1 FAILED st
      /\ exists r st',
          run (handleInterviewComplete w 1 "hello" []) st = (Returned r, st')
          /\ session_status 1 COMPLETED st').
Proof.
  cbv zeta. split.
  - split; [eexists; split; reflexivity|].
    eexists _, _. split; [vm_compute; reflexivity|].
    eexists; split; reflexivity.
  - split; [eexists; split; reflexivity|].
    eexists _, _. split; [vm_compute; reflexivity|].
    eexists; split; reflexivity.
Qed.

(** startInterviewWithQuestions on a session of the caller, run to its
    end: it returns with the session started, or it throws a TypeError
    with the session marked FAILED, when a question is null or cannot be
    printed. *)
Lemma start_run (w : World) (st : Store) (id : N) (s : Session) (u : User) :
  signed_in w st u ->
  sessions st !! id = Some s ->
  userId s = user_id u ->
  run (startInterviewWithQuestions w id) st
  = match session_questions s with
    | Some qs =>
        if existsb coercion_throws qs
        then (Thrown TypeError,
              with_sessions st
                (<[id := apply_data start_failed_data s]> (sessions st)))
        else (Returned {| started_session := apply_data (started_data w) s;
                          assistantConfig := build_assistantConfig w s qs;
                          started_questions := qs |},
              with_sessions st
                (<[id := apply_data (started_data w) s]> (sessions st)))
    | None =>
        (Thrown TypeError,
         with_sessions st
           (<[id := apply_data start_failed_data s]> (sessions st)))
    end.
Proof.
  intros (clerk & Hauth & Hne & Hu) Hs Hown.
  unfold startInterviewWithQuestions, session_questions, printable_questions.
  do 2 (async_eval; rewrite ?Hauth, ?Hne, ?Hu).
  async_eval. rewrite Hs, Hown, N.eqb_refl. async_eval.
  destruct (questions s) as [| | | | |elems props|]; async_eval;
    try (cbn [existsb]; async_eval; rewrite Hs; reflexivity).
  destruct (map_questions elems) as [qs|]; async_eval;
    [destruct (existsb coercion_throws qs); async_eval|];
    rewrite Hs; reflexivity.
Qed.

Lemma start_status (w : World) (st : Store) (id : N) (s : Session) (u : User) :
  signed_in w st u ->
  sessions st !! id = Some s ->
  userId s = user_id u ->
  exists st',
    (exists r, run (startInterviewWithQuestions w id) st = (Returned r, st')
               /\ session_status id IN_PROGRESS st')
    \/ (run (startInterviewWithQuestions w id) st = (Thrown TypeError, st')
        /\ session_status id FAILED st').
Proof.
  intros Hin Hs Hown. rewrite (start_run w st id s u Hin Hs Hown).
  destruct (session_questions s) as [qs|];
    [destruct (existsb coercion_throws qs)|].
  - eexists; right; split; [reflexivity|].
    eexists; cbn; rewrite lookup_insert_eq; split; reflexivity.
  - eexists; left; eexists; split; [reflexivity|].
    eexists; cbn; rewrite lookup_insert_eq; split; reflexivity.
  - eexists; right; split; [reflexivity|].
    eexists; cbn; rewrite lookup_insert_eq; split; reflexivity.
Qed.

(** On an existing session handleInterviewComplete always returns, and
    the session is settled: COMPLETED, with a score and a feedback text.
    This covers every way the derivation can end, the collaborator that
    throws included. *)
Lemma complete_settles (w : World) (st : Store) (id : N) (s : Session)
    (transcript : string) (messages : list Message) :
  sessions st !! id = Some s ->
  exists r st',
    run (handleInterviewComplete w id transcript messages) st = (Returned r, st')
    /\ session_satisfies id settled st'.
Proof.
  intros Hs.
  unfold handleInterviewComplete, complete_analytics.
  async_eval. rewrite Hs. async_eval.
  match goal with
  | |- context [generateFeedbackFromTranscript w id transcript messages ?M] =>
      set (m := M) in *
  end.
  assert (Hm : has_session id (store m))
    by (unfold has_session, m; cbn [store sessions with_analytics]; rewrite Hs; eauto).
  pose proof (derive_wp w id transcript messages m Hm) as Hwp.
  unfold wp in Hwp.
  destruct (generateFeedbackFromTranscript w id transcript messages m)
    as [[fb| e |] m2] eqn:E.
  - destruct Hwp as (s2 & Hs2 & Hdone). async_eval.
    eexists _, _. split; [reflexivity|]. now exists s2.
  - contradiction.
  - destruct Hwp as [s2 Hs2]. async_eval. rewrite Hs2. async_eval.
    eexists _, _. split; [reflexivity|].
    eexists. cbn. rewrite lookup_insert_eq.
    split; [reflexivity | apply degraded_data_writes].
Qed.

(** C2, amended. createInterviewSession stores the new session as
    SCHEDULED. On a session of the caller, whatever its status,
    startInterviewWithQuestions returns and leaves it IN_PROGRESS, or
    throws and leaves it FAILED. On an existing session, whatever its
    status, handleInterviewComplete returns and leaves it COMPLETED. No
    operation reads the status it replaces. *)
Theorem status_written_unguarded (w : World) (st : Store) :
  (forall sd u,
      signed_in w st u ->
      exists c st',
        run (createInterviewSession w sd) st = (Returned c, st')
        /\ sessions st !! created_id c = None
        /\ session_status (created_id c) SCHEDULED st')
  /\ (forall id s u,
        signed_in w st u ->
        sessions st !! id = Some s ->
        userId s = user_id u ->
        exists st',
          (exists r, run (startInterviewWithQuestions w id) st = (Returned r, st')
                     /\ session_status id IN_PROGRESS st')
          \/ (run (startInterviewWithQuestions w id) st = (Thrown TypeError, st')
              /\ session_status id FAILED st'))
  /\ (forall id s transcript messages,
        sessions st !! id = Some s ->
        exists r st',
          run (handleInterviewComplete w id transcript messages) st = (Returned r, st')
          /\ session_status id COMPLETED st').
Proof.
  split; [|split].
  - intros sd u Hin.
    destruct (create_stores w st sd u Hin) as (c & st' & Hrun & Hnew & Hst' & Hc).
    exists c, st'. split; [exact Hrun|]. split; [exact Hnew|].
    exists (created_session c). split; [exact Hst'|]. now rewrite Hc.
  - intros id s u. apply start_status.
  - intros id s transcript messages Hs.
    destruct (complete_settles w st id s transcript messages Hs)
      as (r & st' & Hrun & Hset).
    exists r, st'. split; [exact Hrun|].
    revert Hset. apply session_satisfies_impl. now intros s' [H _].
Qed.

Lemma status_written_unguarded_witness :
  let w := Example.plain_world (Some "clerk_alice") (ModelThrows "unused") None in
  let st := Example.store_with (Example.with_status COMPLETED Example.scheduled) in
  signed_in w st Example.alice
  /\ sessions st !! 1%N = Some (Example.with_status COMPLETED Example.scheduled)
  /\ (exists c st',
         run (createInterviewSession w Example.engineer) st = (Returned c, st')
         /\ sessions st !! created_id c = None
         /\ session_status (created_id c) SCHEDULED st')
  /\ (exists st',
         (exists r, run (startInterviewWithQuestions w 1) st = (Returned r, st')
                    /\ session_status 1 IN_PROGRESS st')
         \/ (run (startInterviewWithQuestions w 1) st = (Thrown TypeError, st')
             /\ session_status 1 FAILED st'))
  /\ (exists r st',
         run (handleInterviewComplete w 1 "hello" []) st = (Returned r, st')
         /\ session_status 1 COMPLETED st').
Proof.
  intros w st.
  assert (Hin : signed_in w st Example.alice)
    by (exists "clerk_alice"; repeat split).
  assert (Hs : sessions st !! 1%N
               = Some (Example.with_status COMPLETED Example.scheduled))
    by reflexivity.
  destruct (status_written_unguarded w st) as (Hcreate & Hstart & Hcomplete).
  split; [exact Hin|]. split; [exact Hs|].
  split; [exact (Hcreate Example.engineer Example.alice Hin)|].
  split; [exact (Hstart 1%N _ Example.alice Hin Hs eq_refl)|].
  exact (Hcomplete 1%N _ "hello" [] Hs).
Defined.

(** ** The identity check *)

(** X1. createInterviewSession, generateInterviewQuestions,
    startInterviewWithQuestions and getInterviewSession start with the same
    check: without an identity each throws Unauthorized, with an identity
    that has no user record each throws User not found, and in both cases
    the store is left as it was. *)
Theorem identity_required (w : World) (st : Store) (sd : SessionInput) (id : N)
    (e : Error) :
  rejected w st e ->
  run (createInterviewSession w sd) st = (Thrown e, st)
  /\ run (generateInterviewQuestions w sd) st = (Thrown e, st)
  /\ run (startInterviewWithQuestions w id) st = (Thrown e, st)
  /\ run (getInterviewSession w id) st = (Thrown e, st).
Proof.
  unfold createInterviewSession, generateInterviewQuestions,
    startInterviewWithQuestions, getInterviewSession.
  intros [Hauth | Hauth | clerk Hauth Hne Hu];
    async_eval; rewrite Hauth; async_eval; rewrite ?Hne; async_eval;
    rewrite ?Hu; async_eval; repeat split; destruct st; reflexivity.
Qed.

Lemma identity_required_witness :
  let w := Example.plain_world (Some "clerk_carol") (ModelText "[]") None in
  let st := Example.store_with Example.scheduled in
  rejected w st UserNotFound
  /\ run (createInterviewSession w Example.engineer) st = (Thrown UserNotFound, st)
  /\ run (startInterviewWithQuestions w 1) st = (Thrown UserNotFound, st).
Proof.
  intros w st.
  assert (H : rejected w st UserNotFound)
    by (apply (no_user_record w st "clerk_carol"); reflexivity).
  split; [exact H|].
  destruct (identity_required w st Example.engineer 1%N UserNotFound H)
    as (Hc & _ & Hstart & _).
  split; [exact Hc | exact Hstart].
Defined.

(** ** Creation *)

(** X2. For a caller who is signed in, createInterviewSession returns and
    adds exactly one session, under an identifier that was free: every
    other session, the user records and the call analytics are as they
    were. The new session belongs to the caller, carries the requested
    role, and has no score, no feedback text and no start or end time. *)
Theorem create_adds_one_session (w : World) (st : Store) (sd : SessionInput)
    (u : User) :
  signed_in w st u ->
  exists c st',
    run (createInterviewSession w sd) st = (Returned c, st')
    /\ sessions st !! created_id c = None
    /\ sessions st' = <[created_id c := created_session c]> (sessions st)
    /\ users st' = users st
    /\ analytics st' = analytics st
    /\ userId (created_session c) = user_id u
    /\ role (created_session c) = in_role sd
    /\ isArray (questions (created_session c)) = true
    /\ overallScore (created_session c) = JNull
    /\ detailedFeedback (created_session c) = JNull
    /\ startedAt (created_session c) = None
    /\ endedAt (created_session c) = None.
Proof.
  intros (clerk & Hauth & Hne & Hu).
  unfold createInterviewSession, generateInterviewQuestions.
  do 4 (async_eval; rewrite ?Hauth, ?Hne, ?Hu).
  assert (Hfresh : sessions st !! fresh (dom (sessions st)) = None)
    by (apply not_elem_of_dom, is_fresh).
  destruct (generateContent w (questions_prompt sd u)) as [msg|text]; async_eval.
  - eexists _, _. split; [reflexivity|]. cbn. repeat split. exact Hfresh.
  - destruct (JSON_parse w _) as [v|]; async_eval.
    + eexists _, _. split; [reflexivity|]. cbn.
      repeat split; [exact Hfresh|].
      destruct (isArray v) eqn:E; cbn; rewrite ?E; reflexivity.
    + eexists _, _. split; [reflexivity|]. cbn. repeat split. exact Hfresh.
Qed.

Lemma create_adds_one_session_witness :
  let w := Example.plain_world (Some "clerk_alice") (ModelThrows "quota exceeded") None in
  let st := Example.store_with Example.in_progress in
  exists c st',
    run (createInterviewSession w Example.engineer) st = (Returned c, st')
    /\ sessions st !! created_id c = None
    /\ sessions st' = <[created_id c := created_session c]> (sessions st)
    /\ userId (created_session c) = 7%N.
Proof.
  intros w st.
  destruct (create_adds_one_session w st Example.engineer Example.alice)
    as (c & st' & Hrun & Hnew & Hst' & _ & _ & Hu & _).
  - exists "clerk_alice". repeat split.
  - exists c, st'. repeat split; assumption.
Defined.

(** X3. For a caller who is signed in, generateInterviewQuestions always
    returns and never writes to the store. It returns the fixed list of 8
    questions when the collaborator throws or JSON.parse throws on the
    cleaned answer; any value that parses is returned as it is, array or
    not. *)
Theorem question_generation_returns (w : World) (st : Store) (sd : SessionInput)
    (u : User) :
  signed_in w st u ->
  exists v,
    run (generateInterviewQuestions w sd) st = (Returned v, st)
    /\ (forall msg,
          generateContent w (questions_prompt sd u) = ModelThrows msg ->
          v = questions_value (fallback_questions (in_role sd)))
    /\ (forall text,
          generateContent w (questions_prompt sd u) = ModelText text ->
          JSON_parse w (JsString.trim (JsString.strip_fences text)) = None ->
          v = questions_value (fallback_questions (in_role sd)))
    /\ (forall text x,
          generateContent w (questions_prompt sd u) = ModelText text ->
          JSON_parse w (JsString.trim (JsString.strip_fences text)) = Some x ->
          v = x).
Proof.
  intros (clerk & Hauth & Hne & Hu).
  unfold generateInterviewQuestions.
  do 2 (async_eval; rewrite ?Hauth, ?Hne, ?Hu). async_eval.
  destruct (generateContent w (questions_prompt sd u)) as [msg|text]; async_eval.
  - eexists. split; [destruct st; reflexivity|].
    repeat split; intros; congruence.
  - destruct (JSON_parse w _) as [x|] eqn:E; async_eval;
      (eexists; split; [destruct st; reflexivity|]);
      repeat split; intros; congruence.
Qed.

Lemma question_generation_returns_witness :
  let w := Example.world (Some "clerk_alice") (ModelText "{}") "{}" (JObj []) None in
  let st := Example.store_with Example.in_progress in
  run (generateInterviewQuestions w Example.engineer) st = (Returned (JObj []), st).
Proof.
  intros w st.
  destruct (question_generation_returns w st Example.engineer Example.alice)
    as (v & Hrun & _ & _ & Hparsed).
  - exists "clerk_alice". repeat split.
  - rewrite Hrun. now rewrite (Hparsed "{}" (JObj []) eq_refl eq_refl).
Defined.

(** ** Sessions of other users *)

(** X4. For a caller who is signed in, a session identifier that does not
    exist or that belongs to another user is rejected alike:
    startInterviewWithQuestions and getInterviewSession throw Interview
    session not found and leave the store as it was. *)
Theorem foreign_session_hidden (w : World) (st : Store) (id : N) (u : User) :
  signed_in w st u ->
  (forall s, sessions st !! id = Some s -> userId s <> user_id u) ->
  run (startInterviewWithQuestions w id) st = (Thrown InterviewSessionNotFound, st)
  /\ run (getInterviewSession w id) st = (Thrown InterviewSessionNotFound, st).
Proof.
  intros (clerk & Hauth & Hne & Hu) Hforeign.
  unfold startInterviewWithQuestions, getInterviewSession.
  do 2 (async_eval; rewrite ?Hauth, ?Hne, ?Hu). async_eval.
  assert (Hfind : match sessions st !! id with
                  | Some s => if (userId s =? user_id u)%N then Some s else None
                  | None => None
                  end = None).
  { destruct (sessions st !! id) as [s|] eqn:E; [|reflexivity].
    destruct (N.eqb_spec (userId s) (user_id u)) as [Heq|]; [|reflexivity].
    now destruct (Hforeign s eq_refl). }
  rewrite Hfind. async_eval. split; destruct st; reflexivity.
Qed.

Lemma foreign_session_hidden_witness :
  let w := Example.plain_world (Some "clerk_bob") (ModelText "[]") None in
  let st := Example.shared_store Example.in_progress in
  sessions st !! 1%N = Some Example.in_progress
  /\ run (startInterviewWithQuestions w 1) st = (Thrown InterviewSessionNotFound, st)
  /\ run (getInterviewSession w 1) st = (Thrown InterviewSessionNotFound, st).
Proof.
  intros w st. split; [reflexivity|].
  apply (foreign_session_hidden w st 1%N Example.bob).
  - exists "clerk_bob". repeat split.
  - intros s Hs. vm_compute in Hs. injection Hs as <-. discriminate.
Defined.

(** ** Starting an interview *)

Lemma map_questions_strings l : map_questions (map JStr l) = Some (map JStr l).
Proof. induction l as [|q l IH]; cbn; [reflexivity | now rewrite IH]. Qed.

Lemma map_questions_null elems : In JNull elems -> map_questions elems = None.
Proof.
  induction elems as [|q elems IH]; cbn; [intros []|].
  intros [-> | Hin]; [reflexivity|].
  destruct (question_text q); [|reflexivity]. now rewrite IH.
Qed.

Lemma append_empty_r (s : string) : s ++ EmptyString = s.
Proof.
  induction s as [|c s IH]; [reflexivity|].
  change (String c (s ++ EmptyString) = String c s). now rewrite IH.
Qed.

Lemma append_assoc (a b c : string) : (a ++ b) ++ c = a ++ b ++ c.
Proof.
  induction a as [|x a IH]; [reflexivity|].
  change (String x ((a ++ b) ++ c) = String x (a ++ b ++ c)). now rewrite IH.
Qed.

Lemma occurs_in_refl q : occurs_in q q.
Proof. exists EmptyString, EmptyString. now rewrite append_empty_r. Qed.

Lemma occurs_in_after a q s : occurs_in q s -> occurs_in q (a ++ s).
Proof.
  intros (pre & post & ->). exists (a ++ pre), post. now rewrite append_assoc.
Qed.

Lemma occurs_in_before b q s : occurs_in q s -> occurs_in q (s ++ b).
Proof.
  intros (pre & post & ->). exists pre, (post ++ b). now rewrite !append_assoc.
Qed.

Lemma join_member sep (f : string -> string) l x :
  In x l -> occurs_in (f x) (JsString.join sep (map f l)).
Proof.
  induction l as [|y l IH]; [intros []|].
  intros [-> | Hin].
  - destruct l as [|z l]; [apply occurs_in_refl|].
    change (JsString.join sep (map f (x :: z :: l)))
      with (f x ++ sep ++ JsString.join sep (map f (z :: l))).
    apply occurs_in_before, occurs_in_refl.
  - destruct l as [|z l]; [destruct Hin|].
    change (JsString.join sep (map f (y :: z :: l)))
      with (f y ++ sep ++ JsString.join sep (map f (z :: l))).
    do 2 apply occurs_in_after. exact (IH Hin).
Qed.

Lemma printable_all qs :
  Forall (fun q => coercion_throws q = false) qs ->
  existsb coercion_throws qs = false.
Proof.
  induction 1 as [|q qs Hq _ IH]; [reflexivity|].
  cbn [existsb]. now rewrite Hq, IH.
Qed.

Lemma printable_strings l : existsb coercion_throws (map JStr l) = false.
Proof. induction l as [|q l IH]; [reflexivity | exact IH]. Qed.

(** X5. On a session of the caller whose question list has no null entry
    and whose question texts can all be printed (none is an object with an
    own property toString, or an array that holds one),
    startInterviewWithQuestions returns the stored session, which differs
    from the session found only in its status, IN_PROGRESS, and its start
    time, the current time: the fields set at creation and any scores,
    feedback and end time of an earlier run are kept. Every other session,
    the user records and the call analytics are left as they were. *)
Theorem start_stamps_session (w : World) (st : Store) (id : N) (s : Session)
    (u : User) (qs : list JsValue) :
  signed_in w st u ->
  sessions st !! id = Some s ->
  userId s = user_id u ->
  session_questions s = Some qs ->
  Forall (fun q => coercion_throws q = false) qs ->
  exists r st',
    run (startInterviewWithQuestions w id) st = (Returned r, st')
    /\ sessions st' = <[id := started_session r]> (sessions st)
    /\ users st' = users st
    /\ analytics st' = analytics st
    /\ status (started_session r) = IN_PROGRESS
    /\ startedAt (started_session r) = Some (Date_now w)
    /\ same_interview s (started_session r)
    /\ same_results s (started_session r)
    /\ started_questions r = qs
    /\ assistantConfig r = build_assistantConfig w s qs.
Proof.
  intros Hin Hs Hown Hqs Hprint.
  rewrite (start_run w st id s u Hin Hs Hown), Hqs, (printable_all qs Hprint).
  eexists _, _. split; [reflexivity|]. cbn. repeat split.
Qed.

Lemma start_stamps_session_witness :
  let w := Example.plain_world (Some "clerk_alice") (ModelText "[]") None in
  let st := Example.store_with (Example.with_status COMPLETED Example.scheduled) in
  exists r st',
    run (startInterviewWithQuestions w 1) st = (Returned r, st')
    /\ status (started_session r) = IN_PROGRESS
    /\ length (started_questions r) = 8%nat.
Proof.
  intros w st.
  destruct (start_stamps_session w st 1%N
              (Example.with_status COMPLETED Example.scheduled) Example.alice
              (map JStr (fallback_questions "Backend Engineer")))
    as (r & st' & Hrun & _ & _ & _ & Hstatus & _ & _ & _ & Hq & _).
  - exists "clerk_alice". repeat split.
  - reflexivity.
  - reflexivity.
  - reflexivity.
  - repeat constructor.
  - exists r, st'. split; [exact Hrun|]. split; [exact Hstatus|].
    rewrite Hq. reflexivity.
Defined.

(** X6. When the stored question list is a list of strings,
    startInterviewWithQuestions hands the same strings back in order, and
    every one of them appears in the system instruction of the assistant
    as a line item, a dash and a space followed by the question. *)
Theorem start_lists_questions (w : World) (st : Store) (id : N) (s : Session)
    (u : User) (l : list string) :
  signed_in w st u ->
  sessions st !! id = Some s ->
  userId s = user_id u ->
  questions s = questions_value l ->
  exists r st',
    run (startInterviewWithQuestions w id) st = (Returned r, st')
    /\ started_questions r = map JStr l
    /\ forall q, In q l ->
         occurs_in ("- " ++ q) (ac_model_system (assistantConfig r)).
Proof.
  intros Hin Hs Hown Hq.
  rewrite (start_run w st id s u Hin Hs Hown).
  unfold session_questions. rewrite Hq. unfold questions_value, JArray.
  rewrite map_questions_strings, printable_strings.
  eexists _, _. split; [reflexivity|]. cbn [started_questions assistantConfig].
  split; [reflexivity|].
  intros q Hq_in. unfold build_assistantConfig. cbn [ac_model_system].
  rewrite map_map. cbn [template].
  do 15 apply occurs_in_after. apply occurs_in_before.
  exact (join_member JsString.newline (fun x => "- " ++ x) l q Hq_in).
Qed.

Lemma start_lists_questions_witness :
  let w := Example.plain_world (Some "clerk_alice") (ModelText "[]") None in
  let st := Example.store_with Example.scheduled in
  exists r st',
    run (startInterviewWithQuestions w 1) st = (Returned r, st')
    /\ occurs_in "- What are your greatest strengths?"
         (ac_model_system (assistantConfig r)).
Proof.
  intros w st.
  destruct (start_lists_questions w st 1%N Example.scheduled Example.alice
              (fallback_questions "Backend Engineer"))
    as (r & st' & Hrun & _ & Hin).
  - exists "clerk_alice". repeat split.
  - reflexivity.
  - reflexivity.
  - reflexivity.
  - exists r, st'. split; [exact Hrun|].
    apply (Hin "What are your greatest strengths?"). cbn. tauto.
Defined.

(** X7. On a session of the caller whose question list holds a null entry,
    reading the question text throws: startInterviewWithQuestions throws a
    TypeError and the session is stored FAILED, with its start time and
    every other field as they were. *)
Theorem start_null_question_fails (w : World) (st : Store) (id : N) (s : Session)
    (u : User) :
  signed_in w st u ->
  sessions st !! id = Some s ->
  userId s = user_id u ->
  In JNull (array_elems (questions s)) ->
  exists st' s',
    run (startInterviewWithQuestions w id) st = (Thrown TypeError, st')
    /\ sessions st' = <[id := s']> (sessions st)
    /\ status s' = FAILED
    /\ startedAt s' = startedAt s
    /\ same_interview s s'
    /\ same_results s s'.
Proof.
  intros Hin Hs Hown Hnull.
  rewrite (start_run w st id s u Hin Hs Hown). unfold session_questions.
  destruct (questions s) as [| | | | |elems props|]; try now destruct Hnull.
  cbn [array_elems] in Hnull. rewrite (map_questions_null _ Hnull).
  eexists _, _. split; [reflexivity|]. cbn. repeat split.
Qed.

Lemma start_null_question_fails_witness :
  let w := Example.plain_world (Some "clerk_alice") (ModelText "[]") None in
  let st := Example.store_with Cases.broken_questions in
  exists st' s',
    run (startInterviewWithQuestions w 1) st = (Thrown TypeError, st')
    /\ sessions st' !! 1%N = Some s'
    /\ status s' = FAILED.
Proof.
  intros w st.
  destruct (start_null_question_fails w st 1%N Cases.broken_questions Example.alice)
    as (st' & s' & Hrun & Hst' & Hstatus & _).
  - exists "clerk_alice". repeat split.
  - reflexivity.
  - reflexivity.
  - cbn. tauto.
  - exists st', s'. split; [exact Hrun|]. split; [|exact Hstatus].
    rewrite Hst'. apply lookup_insert_eq.
Defined.

(** ** What completion leaves alone *)

Lemma str_or_nonempty a b :
  JsString.is_empty b = false -> JsString.is_empty (str_or a b) = false.
Proof. intros Hb. unfold str_or. now destruct (JsString.is_empty a) eqn:E. Qed.

Lemma fixed_document_data_startedAt w doc missing d :
  fixed_document_data w doc missing = Some d -> d_startedAt d = None.
Proof.
  unfold fixed_document_data.
  destruct (category_score doc "Technical Knowledge"); [|discriminate].
  destruct (category_score doc "Communication Skills"); [|discriminate].
  destruct (category_score doc "Confidence and Clarity"); [|discriminate].
  now intros [= <-].
Qed.

Lemma updateData_startedAt w fb text d :
  updateData w fb text = Some d -> d_startedAt d = None.
Proof.
  unfold updateData.
  destruct (category_score fb "Technical Knowledge"); [|discriminate].
  destruct (category_score fb "Communication Skills"); [|discriminate].
  destruct (category_score fb "Confidence and Clarity"); [|discriminate].
  destruct (_ || _); [discriminate|].
  now intros [= <-].
Qed.

Section Keeps.

Variables (w : World) (id : N) (transcript : string) (messages : list Message).
Variable I : Store -> Prop.
Hypothesis HI : stable id I.

Lemma kept_session_update d Qs' m :
  kept w id I (store m) ->
  (forall st, kept w id I st -> Qs' st) ->
  d_startedAt d = None ->
  wp (Db.session_update id d) (fun _ => kept w id I) (fun _ => kept w id I) Qs' m.
Proof.
  intros Hk HQ Hd. apply wp_await; [now apply HQ|].
  destruct (sessions (store m) !! id) as [s|] eqn:E; [|exact Hk].
  destruct Hk as [Hi Hr]. split; [now apply HI|exact Hr].
Qed.

Lemma kept_upsert_metadata md cre m :
  kept w id I (store m) ->
  wp (Db.analytics_upsert id (set_metadata md) cre) (fun _ => kept w id I) (fun _ => kept w id I) (kept w id I) m.
Proof.
  intros Hk. apply wp_await; [exact Hk|].
  destruct Hk as [Hi (a & Ha & Hne & Hend)]. rewrite Ha. split.
  - now apply HI.
  - exists (set_metadata md a). cbn. rewrite lookup_insert_eq. repeat split; assumption.
Qed.

Lemma kept_upsert_transcript t cre m :
  JsString.is_empty t = false ->
  kept w id I (store m) ->
  wp (Db.analytics_upsert id (set_transcript t (Date_now w)) cre)
     (fun _ => kept w id I) (fun _ => kept w id I) (kept w id I) m.
Proof.
  intros Ht Hk. apply wp_await; [exact Hk|].
  destruct Hk as [Hi (a & Ha & Hne & Hend)]. rewrite Ha. split.
  - now apply HI.
  - exists (set_transcript t (Date_now w) a). cbn. rewrite lookup_insert_eq.
    repeat split; assumption.
Qed.

Lemma kept_updateMany md m :
  kept w id I (store m) ->
  wp (Db.analytics_updateMany id (set_metadata md)) (fun _ => kept w id I) (fun _ => kept w id I) (kept w id I) m.
Proof.
  intros Hk. apply wp_await; [exact Hk|].
  destruct Hk as [Hi (a & Ha & Hne & Hend)]. rewrite Ha. split.
  - now apply HI.
  - exists (set_metadata md a). cbn. rewrite lookup_insert_eq. repeat split; assumption.
Qed.

Lemma kept_persist {A} (data : option SessionData) (r : A)
    (Qr : A -> Store -> Prop) m :
  kept w id I (store m) ->
  (forall d, data = Some d -> d_startedAt d = None) ->
  (forall st, kept w id I st -> Qr r st) ->
  wp (d <- or_TypeError data ;; Db.session_update id d ;;; ret r)
     Qr (fun _ => kept w id I) (kept w id I) m.
Proof.
  intros Hk Hd HQ. apply wp_bind, wp_or_TypeError.
  destruct data as [d|]; [|exact Hk].
  intros t.
  eapply wp_seq; [apply kept_session_update; [exact Hk | auto | now apply Hd] |].
  intros a st t' H. apply wp_ret, HQ. exact H.
Qed.

Lemma derive_try_keeps m :
  kept w id I (store m) ->
  wp (generateFeedback_try w id transcript messages)
     (fun _ => kept w id I) (fun _ => kept w id I) (kept w id I) m.
Proof.
  intros Hk. unfold generateFeedback_try.
  apply wp_bind. apply wp_await; [exact Hk|].
  destruct (sessions (store m) !! id) as [s|] eqn:E;
    [| intros t; apply wp_ret; exact Hk].
  intros t.
  eapply wp_seq with (R := fun _ => (kept w id I)).
  { apply wp_best_effort, kept_upsert_transcript; [|exact Hk].
    apply str_or_nonempty. reflexivity. }
  clear Hk. intros _u st1 t1 Hk.
  destruct (no_transcript _).
  { apply kept_persist; [exact Hk | apply fixed_document_data_startedAt | auto]. }
  apply wp_bind, wp_try_catch, wp_bind, wp_await; [exact Hk|].
  cbn [store].
  destruct (generateContent w _) as [msg|text].
  - intros t2.
    eapply wp_seq with (R := fun _ => (kept w id I)).
    + apply wp_best_effort, kept_updateMany. exact Hk.
    + intros a0 st t3 H.
      apply kept_persist; [exact H | apply fixed_document_data_startedAt |].
      intros st' H' t4. apply wp_ret. exact H'.
  - intros t2. apply wp_ret. intros t3. cbn [store].
    apply wp_bind, wp_or_TypeError.
    destruct (ensure_structure _) as [fb|]; [|exact Hk].
    intros t4. apply wp_bind, wp_or_TypeError.
    destruct (updateData w fb _) as [d|] eqn:Ed; [|exact Hk].
    intros t5.
    eapply wp_seq;
      [apply kept_session_update;
       [exact Hk | auto | exact (updateData_startedAt _ _ _ _ Ed)] |].
    intros a0 st t6 H.
    eapply wp_seq with (R := fun _ => (kept w id I)).
    + apply wp_best_effort, kept_upsert_metadata. exact H.
    + intros a1 st' t7 H'. apply wp_ret. exact H'.
Qed.

(** The derivation never rejects, and what it leaves satisfies the
    assertion, also when the timer fires while it waits. *)
Lemma derive_keeps m :
  kept w id I (store m) ->
  wp (generateFeedbackFromTranscript w id transcript messages)
     (fun _ => kept w id I) (fun _ _ => False) (kept w id I) m.
Proof.
  intros Hk. unfold generateFeedbackFromTranscript.
  apply wp_try_catch.
  eapply wp_weaken; [apply derive_try_keeps; exact Hk | auto | | auto].
  intros e st H t. cbv beta.
  eapply wp_seq with (R := fun _ => (kept w id I)).
  - apply wp_best_effort.
    eapply wp_weaken;
      [apply kept_session_update with (Qs' := (kept w id I)); [exact H | auto | reflexivity]
      | auto | auto | auto].
  - intros a st0 t0 H0. apply wp_ret. exact H0.
Qed.

End Keeps.

Lemma stable_True id : stable id (fun _ => True).
Proof. split; auto. Qed.

(** handleInterviewComplete on an existing session, run to its end: it
    returns the session as the store holds it when it returns, the call
    analytics are recorded, and every stable assertion that held before
    holds after. *)
Lemma complete_run (w : World) (st : Store) (id : N) (s : Session)
    (transcript : string) (messages : list Message) :
  sessions st !! id = Some s ->
  exists r st',
    run (handleInterviewComplete w id transcript messages) st = (Returned r, st')
    /\ completed_session r = sessions st' !! id
    /\ recorded w id st'
    /\ forall I, stable id I -> I st -> I st'.
Proof.
  intros Hs.
  unfold handleInterviewComplete, complete_analytics.
  async_eval. rewrite Hs. async_eval.
  match goal with
  | |- context [generateFeedbackFromTranscript w id transcript messages ?M] =>
      set (m := M) in *
  end.
  assert (Hm : forall I, stable id I -> I st -> kept w id I (store m)).
  { intros I HI Hi. unfold m. cbn [store]. split; [now apply HI|].
    eexists. cbn. rewrite lookup_insert_eq. split; [reflexivity|].
    destruct (analytics st !! id); cbn;
      (split; [apply str_or_nonempty|]; reflexivity). }
  assert (Hwp : forall I, stable id I -> I st ->
                wp (generateFeedbackFromTranscript w id transcript messages)
                   (fun _ => kept w id I) (fun _ _ => False) (kept w id I) m)
    by (intros I HI Hi; apply derive_keeps; auto).
  unfold wp in Hwp.
  destruct (generateFeedbackFromTranscript w id transcript messages m)
    as [[fb| e |] m2] eqn:E.
  - async_eval. eexists _, _. split; [reflexivity|]. cbn.
    split; [reflexivity|].
    split; [apply (Hwp _ (stable_True id) Logic.I)|].
    intros I HI Hi. apply (Hwp I HI Hi).
  - destruct (Hwp _ (stable_True id) Logic.I).
  - async_eval.
    destruct (sessions (store m2) !! id) as [s2|] eqn:E2; async_eval.
    + eexists _, _. split; [reflexivity|]. cbn.
      split; [reflexivity|].
      split; [apply (Hwp _ (stable_True id) Logic.I)|].
      intros I HI Hi. apply HI; [apply (Hwp I HI Hi) | exact E2 | reflexivity].
    + eexists _, _. split; [reflexivity|]. cbn.
      split; [reflexivity|].
      split; [apply (Hwp _ (stable_True id) Logic.I)|].
      intros I HI Hi. apply (Hwp I HI Hi).
Qed.

Lemma stable_others_untouched id st : stable id (others_untouched id st).
Proof.
  split.
  - intros st' a H. exact H.
  - intros st' s d [Hu Ho] _ _. split; [exact Hu|].
    intros id' Hne. cbn. rewrite lookup_insert_ne by congruence. now apply Ho.
Qed.

Lemma stable_same_session id s : stable id (same_session id s).
Proof.
  split.
  - intros st' a H. exact H.
  - intros st' s' d (s0 & Hs0 & Hsame & Hstart) Hs' Hd.
    exists (apply_data d s'). cbn. rewrite lookup_insert_eq.
    split; [reflexivity|].
    assert (s0 = s') by congruence. subst s0.
    split; [exact Hsame|]. cbn. now rewrite Hd.
Qed.

Lemma same_interview_refl s : same_interview s s.
Proof. repeat split. Qed.

Lemma same_interview_trans s1 s2 s3 :
  same_interview s1 s2 -> same_interview s2 s3 -> same_interview s1 s3.
Proof.
  unfold same_interview. intros (A1 & A2 & A3 & A4 & A5 & A6 & A7)
    (B1 & B2 & B3 & B4 & B5 & B6 & B7).
  repeat split; congruence.
Qed.

Lemma wp_any {A} (c : Async A) m :
  wp c (fun _ _ => True) (fun _ _ => True) (fun _ => True) m.
Proof. unfold wp. now destruct (c m) as [[a|e|] m']. Qed.

(** ** Sessions that do not exist *)

(** X8. For a session identifier that does not exist,
    generateFeedbackFromTranscript returns null and handleInterviewComplete
    throws Session not found; neither writes anything: no call analytics
    are recorded and the last resort that marks the session FAILED has no
    record to update. *)
Theorem absent_session_untouched (w : World) (st : Store) (id : N)
    (transcript : string) (messages : list Message) :
  sessions st !! id = None ->
  run (generateFeedbackFromTranscript w id transcript messages) st
  = (Returned JNull, st)
  /\ run (handleInterviewComplete w id transcript messages) st
     = (Thrown SessionNotFound, st).
Proof.
  intros Hs.
  unfold generateFeedbackFromTranscript, generateFeedback_try,
    handleInterviewComplete.
  async_eval. rewrite Hs. async_eval. rewrite Hs.
  split; destruct st; reflexivity.
Qed.

Lemma absent_session_untouched_witness :
  let w := Example.plain_world None (ModelText "{}") None in
  let st := Example.store_with Example.in_progress in
  run (generateFeedbackFromTranscript w 2 Example.long_transcript []) st
  = (Returned JNull, st)
  /\ run (handleInterviewComplete w 2 Example.long_transcript []) st
     = (Thrown SessionNotFound, st).
Proof.
  intros w st.
  apply (absent_session_untouched w st 2%N Example.long_transcript []).
  reflexivity.
Defined.

(** ** The derivation never rejects *)

(** X9. generateFeedbackFromTranscript never throws: from any store, with
    or without a timer running, whatever the collaborator and the parser
    do, it returns or is still waiting when the timer fires. *)
Theorem derivation_never_throws (w : World) (id : N) (transcript : string)
    (messages : list Message) (m : Machine) (e : Error) :
  fst (generateFeedbackFromTranscript w id transcript messages m) <> Thrown e.
Proof.
  assert (H : wp (generateFeedbackFromTranscript w id transcript messages)
                 (fun _ _ => True) (fun _ _ => False) (fun _ => True) m).
  { unfold generateFeedbackFromTranscript. apply wp_try_catch.
    eapply wp_weaken; [apply wp_any | auto | | auto].
    intros e' st _ t. cbv beta.
    eapply wp_seq with (R := fun _ _ => True).
    - apply wp_best_effort, wp_any.
    - intros a st0 t0 _. apply wp_ret. exact Logic.I. }
  unfold wp in H.
  destruct (generateFeedbackFromTranscript w id transcript messages m)
    as [[a|e'|] m']; cbn; [discriminate | destruct H | discriminate].
Qed.

(** ** What completion writes and what it keeps *)

(** X10. On an existing session handleInterviewComplete returns a
    session that has the owner, type, industry, role, difficulty,
    duration, questions and start time that the session had before; the
    session in the store has them too, and every other session and the
    user records are left as they were. This holds on every path, a timer
    that fires during the derivation included. When the derivation settles
    before the timer fires, the session returned is the session as it is
    stored. *)
Theorem complete_touches_one_session (w : World) (st : Store) (id : N)
    (s : Session) (transcript : string) (messages : list Message) :
  sessions st !! id = Some s ->
  exists r st' s',
    run (handleInterviewComplete w id transcript messages) st = (Returned r, st')
    /\ completed_session r = Some s'
    /\ same_interview s s'
    /\ startedAt s' = startedAt s
    /\ same_session id s st'
    /\ others_untouched id st st'
    /\ (feedback_deadline w = None -> sessions st' !! id = Some s').
Proof.
  intros Hs.
  destruct (complete_run w st id s transcript messages Hs)
    as (r & st' & Hrun & Hr & _ & Hkeep).
  assert (Hkept : same_session id s st').
  { apply (Hkeep _ (stable_same_session id s)).
    exists s. split; [exact Hs|]. split; [apply same_interview_refl | reflexivity]. }
  destruct Hkept as (s' & Hs' & Hsame & Hstart).
  exists r, st', s'. split; [exact Hrun|].
  split; [congruence|].
  split; [exact Hsame|]. split; [exact Hstart|].
  split; [now exists s'|].
  split; [|intros _; exact Hs'].
  apply (Hkeep _ (stable_others_untouched id st)). now split.
Qed.

Lemma complete_touches_one_session_witness :
  let w := Example.plain_world None (ModelText "Score: 80/100") (Some 1%nat) in
  let st := Example.shared_store Example.in_progress in
  exists r st' s',
    run (handleInterviewComplete w 1 Example.long_transcript []) st = (Returned r, st')
    /\ completed_session r = Some s'
    /\ questions s' = questions Example.in_progress
    /\ users st' = users st.
Proof.
  intros w st.
  destruct (complete_touches_one_session w st 1%N Example.in_progress
              Example.long_transcript [] eq_refl)
    as (r & st' & s' & Hrun & Hr & Hsame & _ & _ & (Hu & _) & _).
  exists r, st', s'. split; [exact Hrun|]. split; [exact Hr|].
  split; [apply Hsame | exact Hu].
Defined.

(** X11. On an existing session handleInterviewComplete leaves call
    analytics for the session, on every path: a record whose transcript is
    not empty and whose end time is the current time. *)
Theorem complete_records_call (w : World) (st : Store) (id : N)
    (s : Session) (transcript : string) (messages : list Message) :
  sessions st !! id = Some s ->
  exists r st' a,
    run (handleInterviewComplete w id transcript messages) st = (Returned r, st')
    /\ analytics st' !! id = Some a
    /\ JsString.is_empty (ca_transcript a) = false
    /\ ca_endedAt a = Some (Date_now w).
Proof.
  intros Hs.
  destruct (complete_run w st id s transcript messages Hs)
    as (r & st' & Hrun & _ & (a & Ha & Hne & Hend) & _).
  now exists r, st', a.
Qed.

Lemma complete_records_call_witness :
  let w := Example.plain_world None (ModelThrows "quota exceeded") None in
  let st := Example.store_with Example.in_progress in
  exists r st' a,
    run (handleInterviewComplete w 1 EmptyString []) st = (Returned r, st')
    /\ analytics st' !! 1%N = Some a
    /\ JsString.is_empty (ca_transcript a) = false.
Proof.
  intros w st.
  destruct (complete_records_call w st 1%N Example.in_progress EmptyString [] eq_refl)
    as (r & st' & a & Hrun & Ha & Hne & _).
  now exists r, st', a.
Defined.

(** ** Operations in sequence *)

Lemma start_outcome (w : World) (st : Store) (id : N) (s : Session) (u : User) :
  signed_in w st u ->
  sessions st !! id = Some s ->
  userId s = user_id u ->
  exists st' s',
    sessions st' !! id = Some s'
    /\ users st' = users st
    /\ same_interview s s'
    /\ ((exists r, run (startInterviewWithQuestions w id) st = (Returned r, st')
                   /\ status s' = IN_PROGRESS)
        \/ (run (startInterviewWithQuestions w id) st = (Thrown TypeError, st')
            /\ status s' = FAILED)).
Proof.
  intros Hin Hs Hown. rewrite (start_run w st id s u Hin Hs Hown).
  assert (Hdone : forall d,
            let s' := apply_data d s in
            sessions (with_sessions st (<[id := s']> (sessions st))) !! id = Some s'
            /\ users (with_sessions st (<[id := s']> (sessions st))) = users st
            /\ same_interview s s').
  { intros d s'. cbn. rewrite lookup_insert_eq. repeat split. }
  destruct (session_questions s) as [qs|];
    [destruct (existsb coercion_throws qs)|].
  - destruct (Hdone start_failed_data) as (K1 & K2 & K3).
    eexists _, _. split; [exact K1|]. split; [exact K2|]. split; [exact K3|].
    right. split; reflexivity.
  - destruct (Hdone (started_data w)) as (K1 & K2 & K3).
    eexists _, _. split; [exact K1|]. split; [exact K2|]. split; [exact K3|].
    left. eexists. split; reflexivity.
  - destruct (Hdone start_failed_data) as (K1 & K2 & K3).
    eexists _, _. split; [exact K1|]. split; [exact K2|]. split; [exact K3|].
    right. split; reflexivity.
Qed.

(** X12. Completing a session twice: on an existing session a second call
    of handleInterviewComplete, with any transcript, returns as the first
    did. After each call the session is COMPLETED with a score and a
    feedback text, and it still has the owner, role and questions it had
    before the first call. *)
Theorem complete_twice (w : World) (st : Store) (id : N) (s : Session)
    (t1 t2 : string) (ms1 ms2 : list Message) :
  sessions st !! id = Some s ->
  exists r1 st1 s1 r2 st2 s2,
    run (handleInterviewComplete w id t1 ms1) st = (Returned r1, st1)
    /\ completed_session r1 = Some s1 /\ settled s1 /\ same_interview s s1
    /\ run (handleInterviewComplete w id t2 ms2) st1 = (Returned r2, st2)
    /\ completed_session r2 = Some s2 /\ settled s2 /\ same_interview s s2.
Proof.
  intros Hs.
  destruct (complete_run w st id s t1 ms1 Hs) as (r1 & st1 & Hrun1 & Hr1 & _ & Hk1).
  destruct (complete_settles w st id s t1 ms1 Hs)
    as (r1' & st1' & Hrun1' & (s1 & Hs1 & Hset1)).
  rewrite Hrun1 in Hrun1'. injection Hrun1' as <- <-.
  destruct (Hk1 _ (stable_same_session id s)) as (s1' & Hs1' & Hsame1 & _).
  { exists s. split; [exact Hs|]. split; [apply same_interview_refl | reflexivity]. }
  assert (s1' = s1) by congruence. subst s1'.
  destruct (complete_run w st1 id s1 t2 ms2 Hs1) as (r2 & st2 & Hrun2 & Hr2 & _ & Hk2).
  destruct (complete_settles w st1 id s1 t2 ms2 Hs1)
    as (r2' & st2' & Hrun2' & (s2 & Hs2 & Hset2)).
  rewrite Hrun2 in Hrun2'. injection Hrun2' as <- <-.
  destruct (Hk2 _ (stable_same_session id s1)) as (s2' & Hs2' & Hsame2 & _).
  { exists s1. split; [exact Hs1|]. split; [apply same_interview_refl | reflexivity]. }
  assert (s2' = s2) by congruence. subst s2'.
  exists r1, st1, s1, r2, st2, s2.
  split; [exact Hrun1|]. split; [congruence|]. split; [exact Hset1|].
  split; [exact Hsame1|]. split; [exact Hrun2|]. split; [congruence|].
  split; [exact Hset2|]. exact (same_interview_trans _ _ _ Hsame1 Hsame2).
Qed.

Lemma complete_twice_witness :
  let w := Example.plain_world None (ModelText "Score: 80/100") None in
  let st := Example.store_with Example.in_progress in
  exists r1 st1 r2 st2 s2,
    run (handleInterviewComplete w 1 Example.long_transcript []) st = (Returned r1, st1)
    /\ run (handleInterviewComplete w 1 EmptyString []) st1 = (Returned r2, st2)
    /\ completed_session r2 = Some s2 /\ settled s2.
Proof.
  intros w st.
  destruct (complete_twice w st 1%N Example.in_progress
              Example.long_transcript EmptyString [] [] eq_refl)
    as (r1 & st1 & s1 & r2 & st2 & s2 & H1 & _ & _ & _ & H2 & Hr2 & Hset & _).
  now exists r1, st1, r2, st2, s2.
Defined.

(** X13. The life of a session. For a caller who is signed in,
    createInterviewSession returns a new session; starting it as the same
    caller then returns, or throws a TypeError; and completing it after
    that returns a session that is COMPLETED with a score and a feedback
    text, that still belongs to the caller and that carries the role and
    the questions stored at creation. *)
Theorem session_lifecycle (w : World) (st : Store) (sd : SessionInput) (u : User)
    (transcript : string) (messages : list Message) :
  signed_in w st u ->
  exists c st1 st2 r st3 s3,
    run (createInterviewSession w sd) st = (Returned c, st1)
    /\ ((exists started,
           run (startInterviewWithQuestions w (created_id c)) st1
           = (Returned started, st2))
        \/ run (startInterviewWithQuestions w (created_id c)) st1
           = (Thrown TypeError, st2))
    /\ run (handleInterviewComplete w (created_id c) transcript messages) st2
       = (Returned r, st3)
    /\ completed_session r = Some s3
    /\ settled s3
    /\ userId s3 = user_id u
    /\ role s3 = in_role sd
    /\ questions s3 = questions (created_session c).
Proof.
  intros Hin.
  destruct (create_stores w st sd u Hin) as (c & st1 & Hcreate & _ & Hs1 & Hc).
  assert (Hin1 : signed_in w st1 u).
  { destruct Hin as (clerk & Hauth & Hne & Hu).
    exists clerk. repeat split; try assumption.
    assert (Husers : users st1 = users st); [|now rewrite Husers].
    revert Hcreate. unfold createInterviewSession, generateInterviewQuestions.
    do 4 (async_eval; rewrite ?Hauth, ?Hne, ?Hu).
    destruct (generateContent w (questions_prompt sd u)) as [msg|text]; async_eval;
      [| destruct (JSON_parse w _); async_eval];
      intros [= _ <-]; reflexivity. }
  assert (Hown : userId (created_session c) = user_id u) by now rewrite Hc.
  destruct (start_outcome w st1 (created_id c) _ u Hin1 Hs1 Hown)
    as (st2 & s2 & Hs2 & _ & Hsame2 & Hstart).
  destruct (complete_run w st2 (created_id c) s2 transcript messages Hs2)
    as (r & st3 & Hrun & Hr & _ & Hkeep).
  destruct (complete_settles w st2 (created_id c) s2 transcript messages Hs2)
    as (r' & st3' & Hrun' & (s3 & Hs3 & Hset)).
  rewrite Hrun in Hrun'. injection Hrun' as <- <-.
  destruct (Hkeep _ (stable_same_session (created_id c) s2))
    as (s3' & Hs3' & Hsame3 & _).
  { exists s2. split; [exact Hs2|]. split; [apply same_interview_refl | reflexivity]. }
  assert (s3' = s3) by congruence. subst s3'.
  pose proof (same_interview_trans _ _ _ Hsame2 Hsame3)
    as (K1 & _ & _ & K4 & _ & _ & K7).
  exists c, st1, st2, r, st3, s3.
  split; [exact Hcreate|].
  split; [destruct Hstart as [(started & H & _) | (H & _)]; eauto|].
  split; [exact Hrun|]. split; [congruence|]. split; [exact Hset|].
  split; [congruence|]. split; [rewrite K4, Hc; reflexivity | exact K7].
Qed.

Lemma session_lifecycle_witness :
  let w := Example.plain_world (Some "clerk_alice") (ModelThrows "quota exceeded") None in
  let st := Example.store_with Example.in_progress in
  exists c st1 st2 r st3 s3,
    run (createInterviewSession w Example.engineer) st = (Returned c, st1)
    /\ run (handleInterviewComplete w (created_id c) Example.long_transcript []) st2
       = (Returned r, st3)
    /\ completed_session r = Some s3
    /\ settled s3
    /\ role s3 = "Backend Engineer".
Proof.
  intros w st.
  destruct (session_lifecycle w st Example.engineer Example.alice
              Example.long_transcript [])
    as (c & st1 & st2 & r & st3 & s3 & Hc & _ & Hrun & Hr & Hset & _ & Hrole & _).
  - exists "clerk_alice". repeat split.
  - now exists c, st1, st2, r, st3, s3.
Defined.

(** X14. Reading a completed session back. When the feedback derivation
    has settled before the timer of handleInterviewComplete fires, and the
    owner of the session, signed in, calls getInterviewSession after
    handleInterviewComplete has returned, it returns the very session that
    handleInterviewComplete returned, together with the call analytics
    recorded for it, and it writes nothing. *)
Theorem completed_session_read_back (w : World) (st : Store) (id : N)
    (s : Session) (u : User) (transcript : string) (messages : list Message) :
  signed_in w st u ->
  sessions st !! id = Some s ->
  userId s = user_id u ->
  feedback_deadline w = None ->
  exists r st' s' a,
    run (handleInterviewComplete w id transcript messages) st = (Returned r, st')
    /\ completed_session r = Some s'
    /\ run (getInterviewSession w id) st' = (Returned (s', Some a), st')
    /\ JsString.is_empty (ca_transcript a) = false.
Proof.
  intros (clerk & Hauth & Hne & Hu) Hs Hown _.
  destruct (complete_run w st id s transcript messages Hs)
    as (r & st' & Hrun & Hr & (a & Ha & Hta & _) & Hkeep).
  destruct (Hkeep _ (stable_same_session id s)) as (s' & Hs' & Hsame & _).
  { exists s. split; [exact Hs|]. split; [apply same_interview_refl | reflexivity]. }
  destruct (Hkeep _ (stable_others_untouched id st)) as [Husers _]; [now split|].
  exists r, st', s', a. split; [exact Hrun|]. split; [congruence|].
  split; [|exact Hta].
  unfold getInterviewSession.
  do 2 (async_eval; rewrite ?Hauth, ?Hne, ?Husers, ?Hu).
  async_eval. rewrite Hs'. destruct Hsame as (Ho & _). rewrite Ho, Hown, N.eqb_refl.
  async_eval. rewrite Ha. destruct st'; reflexivity.
Qed.

Lemma completed_session_read_back_witness :
  let w := Example.plain_world (Some "clerk_alice") (ModelText "Score: 80/100") None in
  let st := Example.store_with Example.in_progress in
  exists r st' s' a,
    run (handleInterviewComplete w 1 Example.long_transcript []) st = (Returned r, st')
    /\ completed_session r = Some s'
    /\ run (getInterviewSession w 1) st' = (Returned (s', Some a), st').
Proof.
  intros w st.
  destruct (completed_session_read_back w st 1%N Example.in_progress Example.alice
              Example.long_transcript [])
    as (r & st' & s' & a & Hrun & Hr & Hget & _).
  - exists "clerk_alice". repeat split.
  - reflexivity.
  - reflexivity.
  - reflexivity.
  - now exists r, st', s', a.
Defined.

(** ** Transcripts that are not usable *)

Lemma filter_none (l : list Message) :
  Forall (fun m => keep_message m = false) l -> filter keep_message l = [].
Proof.
  induction 1 as [|x l Hx _ IH]; [reflexivity|].
  rewrite filter_cons_False; [exact IH|]. now rewrite Hx.
Qed.

(** X15. The message log is preferred over the raw transcript even when
    nothing in it can be used: when the log is not empty but every entry
    is falsy or has no content, text or transcript, the raw transcript is
    ignored whatever it holds. generateFeedbackFromTranscript records the
    text No transcript in the call analytics, returns the fixed document
    with scores of 50 and stores the session COMPLETED with overallScore
    50. *)
Theorem unusable_messages_hide_transcript (w : World) (st : Store) (id : N)
    (s : Session) (transcript : string) (messages : list Message) :
  sessions st !! id = Some s ->
  messages <> [] ->
  Forall (fun m => keep_message m = false) messages ->
  exists st' s' a,
    run (generateFeedbackFromTranscript w id transcript messages) st
    = (Returned fallbackFeedback, st')
    /\ sessions st' !! id = Some s'
    /\ status s' = COMPLETED
    /\ overallScore s' = JInt 50
    /\ weaknesses s' = JArray [JStr "Transcript not available"]
    /\ analytics st' !! id = Some a
    /\ ca_transcript a = "No transcript".
Proof.
  intros Hs Hne Hnone.
  assert (Hft : formatTranscript transcript messages = EmptyString).
  { destruct messages as [|m0 ms]; [congruence|].
    unfold formatTranscript. now rewrite (filter_none _ Hnone). }
  unfold generateFeedbackFromTranscript, generateFeedback_try.
  async_eval. rewrite Hs. async_eval. rewrite Hft.
  change (no_transcript EmptyString) with true. cbv iota.
  change (fixed_document_data w fallbackFeedback 50) with
    (Some {| d_status := Some COMPLETED; d_startedAt := None;
             d_endedAt := Some (Date_now w);
             d_overallScore := Some (JInt 50);
             d_technicalScore := Some (JInt 50);
             d_communicationScore := Some (JInt 50);
             d_confidenceScore := Some (JInt 50);
             d_strengths := Some (JArray []);
             d_weaknesses := Some (JArray [JStr "Transcript not available"]);
             d_detailedFeedback :=
               Some (get_prop fallbackFeedback "finalAssessment") |}).
  async_eval. rewrite Hs. async_eval.
  eexists _, _, _. split; [reflexivity|]. cbn.
  rewrite !lookup_insert_eq. repeat split.
  destruct (analytics st !! id); reflexivity.
Qed.

Lemma unusable_messages_hide_transcript_witness :
  let w := Example.plain_world None (ModelText "{}") None in
  let st := Example.store_with Example.in_progress in
  exists st' s',
    run (generateFeedbackFromTranscript w 1 Example.long_transcript
           [MsgObject EmptyString EmptyString EmptyString "assistant" "status-update";
            MsgFalsy]) st
    = (Returned fallbackFeedback, st')
    /\ sessions st' !! 1%N = Some s'
    /\ overallScore s' = JInt 50.
Proof.
  intros w st.
  destruct (unusable_messages_hide_transcript w st 1%N Example.in_progress
              Example.long_transcript
              [MsgObject EmptyString EmptyString EmptyString "assistant" "status-update";
               MsgFalsy])
    as (st' & s' & a & Hrun & Hs' & _ & Hscore & _).
  - reflexivity.
  - discriminate.
  - repeat constructor.
  - now exists st', s'.
Defined.

(** ** Answers that are JSON but no document *)

Lemma ensure_structure_primitive v : primitive v = true -> ensure_structure v = None.
Proof. destruct v; cbn; intros H; try reflexivity; discriminate H. Qed.

(** X16. When the cleaned answer of the collaborator parses to a value
    that is neither an object nor an array (null, a boolean, a number or a
    string), the structure checks throw a TypeError and the catch block of
    generateFeedbackFromTranscript takes over: the derivation returns
    null, and the session is stored COMPLETED with overallScore 50, the
    weakness Feedback generation failed and the fixed text of the catch
    block; its three category scores are left as they were. *)
Theorem primitive_answer_is_fatal (w : World) (st : Store) (id : N) (s : Session)
    (transcript : string) (messages : list Message) (text : string) (v : JsValue) :
  sessions st !! id = Some s ->
  real_transcript transcript messages ->
  generateContent w (feedback_prompt (formatTranscript transcript messages))
  = ModelText text ->
  JSON_parse w (clean_response text) = Some v ->
  primitive v = true ->
  exists st' s',
    run (generateFeedbackFromTranscript w id transcript messages) st
    = (Returned JNull, st')
    /\ sessions st' !! id = Some s'
    /\ status s' = COMPLETED
    /\ overallScore s' = JInt 50
    /\ weaknesses s' = JArray [JStr "Feedback generation failed"]
    /\ detailedFeedback s'
       = JStr "Interview completed. Feedback generation encountered an issue."
    /\ technicalScore s' = technicalScore s
    /\ communicationScore s' = communicationScore s
    /\ confidenceScore s' = confidenceScore s.
Proof.
  intros Hs Hlong Hmodel Hparse Hprim.
  destruct (run_fatal w st id s transcript messages Hs text
              (real_transcript_proceeds _ _ Hlong) Hmodel) as (st' & Hrun & Hst').
  { unfold parse_feedback. rewrite Hparse.
    now rewrite (ensure_structure_primitive v Hprim). }
  eexists st', _. split; [exact Hrun|]. split; [exact Hst'|]. repeat split.
Qed.

Lemma primitive_answer_is_fatal_witness :
  let w := Example.world None (ModelText "null") "null" JNull None in
  let st := Example.store_with Example.in_progress in
  exists st' s',
    run (generateFeedbackFromTranscript w 1 Example.long_transcript []) st
    = (Returned JNull, st')
    /\ sessions st' !! 1%N = Some s'
    /\ overallScore s' = JInt 50.
Proof.
  intros w st.
  destruct (primitive_answer_is_fatal w st 1%N Example.in_progress
              Example.long_transcript [] "null" JNull)
    as (st' & s' & Hrun & Hs' & _ & Hscore & _).
  - reflexivity.
  - vm_compute. lia.
  - reflexivity.
  - reflexivity.
  - reflexivity.
  - now exists st', s'.
Defined.

(** ** The structure checks *)

Lemma set_prop_lookup o k x o' :
  set_prop o k x = Some o' ->
  get_prop o' k = x
  /\ nullish o' = false
  /\ forall k', k' <> k -> get_prop o' k' = get_prop o k'.
Proof.
  destruct o; cbn; try discriminate; intros [= <-]; cbn;
    (split; [apply lookup_assign_eq|]); (split; [reflexivity|]);
    intros k' Hk'; now apply lookup_assign_ne.
Qed.

Lemma ensure_prop_some ok k x o o' :
  ensure_prop ok k x o = Some o' ->
  ok (x o) = true ->
  ok (get_prop o' k) = true
  /\ nullish o' = false
  /\ forall k', k' <> k -> get_prop o' k' = get_prop o k'.
Proof.
  intros H Hx.
  assert (Hn : nullish o = false) by (destruct o; try reflexivity; discriminate H).
  assert (H' : (if ok (get_prop o k) then Some o else set_prop o k (x o)) = Some o')
    by (destruct o; try discriminate Hn; exact H).
  destruct (ok (get_prop o k)) eqn:E.
  - injection H' as <-. auto.
  - destruct (set_prop_lookup _ _ _ _ H') as (K1 & K2 & K3).
    rewrite K1. auto.
Qed.

Lemma ensure_prop_fixed ok k x o :
  nullish o = false -> ok (get_prop o k) = true -> ensure_prop ok k x o = Some o.
Proof.
  intros Hn Hok. destruct o; try discriminate Hn; cbn in *; now rewrite Hok.
Qed.

(** X17. Whenever the structure checks go through, the document they
    yield has a truthy totalScore, a categoryScores array that is not empty
    and arrays for strengths and areasForImprovement; its finalAssessment is
    the one it came with, and running the checks on it again changes
    nothing. *)
Theorem ensure_structure_settles (v fb : JsValue) :
  ensure_structure v = Some fb ->
  well_formed_feedback fb
  /\ get_prop fb "finalAssessment" = get_prop v "finalAssessment"
  /\ ensure_structure fb = Some fb.
Proof.
  unfold ensure_structure. intros H.
  destruct (ensure_prop truthy "totalScore" (fun _ => JInt 75) v) as [f1|] eqn:E1;
    [|discriminate H].
  cbn [mbind option_bind] in H.
  destruct (ensure_prop nonempty_array "categoryScores"
              (fun f => five_categories (get_prop f "totalScore") "Auto") f1)
    as [f2|] eqn:E2; [|discriminate H].
  cbn [mbind option_bind] in H.
  destruct (ensure_prop isArray "strengths" (fun _ => JArray []) f2)
    as [f3|] eqn:E3; [|discriminate H].
  cbn [mbind option_bind] in H.
  destruct (ensure_prop_some _ _ _ _ _ E1 eq_refl) as (A1 & _ & F1).
  destruct (ensure_prop_some _ _ _ _ _ E2 eq_refl) as (A2 & _ & F2).
  destruct (ensure_prop_some _ _ _ _ _ E3 eq_refl) as (A3 & _ & F3).
  destruct (ensure_prop_some _ _ _ _ _ H eq_refl) as (A4 & N4 & F4).
  assert (W : well_formed_feedback fb).
  { unfold well_formed_feedback.
    rewrite (F4 "totalScore"), (F3 "totalScore"), (F2 "totalScore")
      by (intro HH; discriminate HH).
    rewrite (F4 "categoryScores"), (F3 "categoryScores")
      by (intro HH; discriminate HH).
    rewrite (F4 "strengths") by (intro HH; discriminate HH).
    auto. }
  split; [exact W|]. split.
  - rewrite (F4 "finalAssessment"), (F3 "finalAssessment"),
      (F2 "finalAssessment"), (F1 "finalAssessment")
      by (intro HH; discriminate HH).
    reflexivity.
  - destruct W as (W1 & W2 & W3 & W4).
    rewrite (ensure_prop_fixed _ _ _ _ N4 W1). cbn [mbind option_bind].
    rewrite (ensure_prop_fixed _ _ _ _ N4 W2). cbn [mbind option_bind].
    rewrite (ensure_prop_fixed _ _ _ _ N4 W3). cbn [mbind option_bind].
    exact (ensure_prop_fixed _ _ _ _ N4 W4).
Qed.

Lemma ensure_structure_settles_witness :
  exists fb,
    ensure_structure (JObj [("finalAssessment", JStr "Good.")]) = Some fb
    /\ well_formed_feedback fb
    /\ get_prop fb "totalScore" = JInt 75
    /\ ensure_structure fb = Some fb.
Proof.
  eexists. split; [reflexivity|].
  destruct (ensure_structure_settles (JObj [("finalAssessment", JStr "Good.")]) _ eq_refl)
    as (W & _ & Hfix).
  split; [exact W|]. split; [reflexivity | exact Hfix].
Defined.

(** ** Documents with missing parts *)

Lemma round_nonzero_truthy q : round_half_up q <> 0%Z -> truthy (JNum (Num q)) = true.
Proof.
  intros H. cbn. apply negb_true_iff, Z.eqb_neq. intros H0. apply H.
  assert (Hq : (q == 0)%Q) by (unfold Qeq; cbn; lia).
  now rewrite (round_half_up_eq _ _ Hq).
Qed.

Lemma no_categories_objects v :
  nonempty_array v = false -> Forall category_object (array_elems v).
Proof.
  destruct v as [| | | | |[|x l] props|]; cbn; intros H;
    try apply Forall_nil; try exact Logic.I; discriminate H.
Qed.

Lemma no_categories_elems v : nonempty_array v = false -> array_elems v = [].
Proof.
  destruct v as [| | | | |[|x l] props|]; cbn; intros H;
    try reflexivity; discriminate H.
Qed.

Lemma falsy_converts v : truthy v = false -> coercion_throws v = false.
Proof. destruct v; cbn; intros H; try reflexivity; discriminate H. Qed.

(** X18. When the parsed document is an object without a categoryScores
    array, or with an empty one, the five categories are made up from the
    total: each gets the total as score and the comment Auto. With a total
    that is a number and does not round to 0 (75 stands in for a missing
    total), the session is stored with overallScore, technicalScore,
    communicationScore and confidenceScore all equal to the rounded
    total. *)
Theorem missing_categories_follow_total (w : World) (st : Store) (id : N)
    (s : Session) (transcript : string) (messages : list Message) (text : string)
    (ps : list (string * JsValue)) (q : Q) :
  sessions st !! id = Some s ->
  real_transcript transcript messages ->
  generateContent w (feedback_prompt (formatTranscript transcript messages))
  = ModelText text ->
  JSON_parse w (clean_response text) = Some (JObj ps) ->
  nonempty_array (lookup_prop "categoryScores" ps) = false ->
  (if truthy (lookup_prop "totalScore" ps)
   then lookup_prop "totalScore" ps else JInt 75) = JNum (Num q) ->
  round_half_up q <> 0%Z ->
  exists st' fb s',
    run (generateFeedbackFromTranscript w id transcript messages) st
    = (Returned fb, st')
    /\ get_prop fb "categoryScores" = five_categories (JNum (Num q)) "Auto"
    /\ sessions st' !! id = Some s'
    /\ overallScore s' = JInt (round_half_up q)
    /\ technicalScore s' = JInt (round_half_up q)
    /\ communicationScore s' = JInt (round_half_up q)
    /\ confidenceScore s' = JInt (round_half_up q).
Proof.
  intros Hs Hlong Hmodel Hparse Hcats Htotal Hround.
  assert (Hdoc : parse_feedback w (clean_response text) = JObj ps)
    by (unfold parse_feedback; now rewrite Hparse).
  assert (Hconv : convertible_scores ps).
  { split; [|rewrite (no_categories_elems _ Hcats); constructor].
    destruct (truthy (lookup_prop "totalScore" ps)) eqn:E;
      [now rewrite Htotal | now apply falsy_converts]. }
  destruct (run_object w st id s transcript messages text ps Hs Hlong Hmodel Hdoc
              (no_categories_objects _ Hcats) Hconv)
    as (st' & ps' & t & c & f & Hrun & Htot & Hcat & _ & Ht & Hc & Hf & Hst').
  assert (Hafter : categories_after ps = five_categories (JNum (Num q)) "Auto").
  { unfold categories_after, total_after. now rewrite Hcats, Htotal. }
  rewrite Hafter in Ht, Hc, Hf, Hcat.
  injection Ht as <-. injection Hc as <-. injection Hf as <-.
  assert (Hr : forall d, rounded_or w (JNum (Num q)) d = JInt (round_half_up q)).
  { intros d. rewrite rounded_or_number.
    destruct (round_half_up q =? 0)%Z eqn:E; [|reflexivity].
    apply Z.eqb_eq in E. contradiction. }
  eexists st', (JObj ps'), _. split; [exact Hrun|].
  split; [exact Hcat|]. split; [exact Hst'|].
  cbn [apply_data flattened overallScore technicalScore communicationScore
       confidenceScore d_overallScore d_technicalScore d_communicationScore
       d_confidenceScore default from_option].
  rewrite Htot. unfold total_after. rewrite Htotal.
  cbn [optional_get category_entry get_prop lookup_prop String.eqb Ascii.eqb Bool.eqb].
  rewrite !Hr. repeat split.
Qed.

Lemma missing_categories_follow_total_witness :
  let w := Example.world None (ModelText "{}") "{}" (JObj []) None in
  let st := Example.store_with Example.in_progress in
  exists st' fb s',
    run (generateFeedbackFromTranscript w 1 Example.long_transcript []) st
    = (Returned fb, st')
    /\ sessions st' !! 1%N = Some s'
    /\ overallScore s' = JInt 75
    /\ technicalScore s' = JInt 75.
Proof.
  intros w st.
  destruct (missing_categories_follow_total w st 1%N Example.in_progress
              Example.long_transcript [] "{}" [] (inject_Z 75))
    as (st' & fb & s' & Hrun & _ & Hs' & Ho & Ht & _).
  - reflexivity.
  - vm_compute. lia.
  - reflexivity.
  - reflexivity.
  - reflexivity.
  - reflexivity.
  - discriminate.
  - now exists st', fb, s'.
Defined.

Lemma find_category_unnamed name cats :
  Forall category_object cats ->
  Forall (fun c => is_string (get_prop c "name") name = false) cats ->
  find_category name cats = Some JUndefined.
Proof.
  induction 1 as [|c cats [ps ->] _ IH]; [reflexivity|].
  intros Hno. inversion Hno as [|? ? Hc Hrest]; subst.
  cbn [find_category]. rewrite Hc. now apply IH.
Qed.

Lemma rounded_or_undefined w d : rounded_or w JUndefined d = JInt d.
Proof. reflexivity. Qed.

(** X19. Categories are found by their exact name. When the parsed
    document is an object whose categoryScores entries are objects, and
    whose total and category scores can be converted to numbers (none is
    an object with an own property toString, or an array that holds one),
    a category that no entry is named after leaves its field at 50:
    technicalScore for Technical Knowledge, communicationScore for
    Communication Skills and confidenceScore for Confidence and Clarity. *)
Theorem unnamed_category_defaults (w : World) (st : Store) (id : N)
    (s : Session) (transcript : string) (messages : list Message) (text : string)
    (ps : list (string * JsValue)) :
  sessions st !! id = Some s ->
  real_transcript transcript messages ->
  generateContent w (feedback_prompt (formatTranscript transcript messages))
  = ModelText text ->
  JSON_parse w (clean_response text) = Some (JObj ps) ->
  nonempty_array (lookup_prop "categoryScores" ps) = true ->
  Forall category_object (array_elems (lookup_prop "categoryScores" ps)) ->
  convertible_scores ps ->
  let unnamed name :=
    Forall (fun c => is_string (get_prop c "name") name = false)
      (array_elems (lookup_prop "categoryScores" ps)) in
  exists st' fb s',
    run (generateFeedbackFromTranscript w id transcript messages) st
    = (Returned fb, st')
    /\ sessions st' !! id = Some s'
    /\ (unnamed "Technical Knowledge" -> technicalScore s' = JInt 50)
    /\ (unnamed "Communication Skills" -> communicationScore s' = JInt 50)
    /\ (unnamed "Confidence and Clarity" -> confidenceScore s' = JInt 50).
Proof.
  intros Hs Hlong Hmodel Hparse Hne Hobjs Hconv unnamed.
  assert (Hdoc : parse_feedback w (clean_response text) = JObj ps)
    by (unfold parse_feedback; now rewrite Hparse).
  destruct (run_object w st id s transcript messages text ps Hs Hlong Hmodel Hdoc
              Hobjs Hconv)
    as (st' & ps' & t & c & f & Hrun & _ & _ & _ & Ht & Hc & Hf & Hst').
  assert (Hafter : categories_after ps = lookup_prop "categoryScores" ps)
    by (unfold categories_after; now rewrite Hne).
  rewrite Hafter in Ht, Hc, Hf.
  eexists st', (JObj ps'), _. split; [exact Hrun|]. split; [exact Hst'|].
  cbn [apply_data flattened technicalScore communicationScore
       confidenceScore d_technicalScore d_communicationScore
       d_confidenceScore default from_option].
  repeat split; intros Hun;
    rewrite (find_category_unnamed _ _ Hobjs Hun) in *.
  - injection Ht as <-. reflexivity.
  - injection Hc as <-. reflexivity.
  - injection Hf as <-. reflexivity.
Qed.

Lemma unnamed_category_defaults_witness :
  let w := Example.world None (ModelText Cases.lowercase_json)
             Cases.lowercase_json Cases.lowercase_document None in
  let st := Example.store_with Example.in_progress in
  exists st' fb s',
    run (generateFeedbackFromTranscript w 1 Example.long_transcript []) st
    = (Returned fb, st')
    /\ sessions st' !! 1%N = Some s'
    /\ technicalScore s' = JInt 50.
Proof.
  intros w st.
  destruct (unnamed_category_defaults w st 1%N Example.in_progress
              Example.long_transcript [] Cases.lowercase_json
              [ ("totalScore", JInt 80);
                ("categoryScores",
                 JArray [category_entry "technical knowledge" (JInt 90) "ok"]) ])
    as (st' & fb & s' & Hrun & Hs' & Ht & _).
  - reflexivity.
  - vm_compute. lia.
  - reflexivity.
  - reflexivity.
  - reflexivity.
  - repeat constructor. eexists. reflexivity.
  - split; [reflexivity | repeat constructor].
  - exists st', fb, s'. split; [exact Hrun|]. split; [exact Hs'|].
    apply Ht. repeat constructor.
Defined.

(** ** Answers that are not JSON *)

Lemma substring_length_le n s : (String.length (substring 0 n s) <= n)%nat.
Proof.
  revert s. induction n as [|n IH]; intros [|c s]; cbn; try lia.
  specialize (IH s). lia.
Qed.

(** X20. Whenever JSON.parse throws on the cleaned answer, the document
    returned has an integer totalScore between 1 and 100, which is also the
    overallScore stored, and 75 when the answer holds no digit; its
    finalAssessment is a prefix of the cleaned answer of at most 1000
    characters. The stored feedback text is that prefix when the cleaned
    answer is not empty; when it is empty the text stored is Feedback
    generated, while the document returned carries the empty text. *)
Theorem unparsed_answer_bounds (w : World) (st : Store) (id : N) (s : Session)
    (transcript : string) (messages : list Message) (text : string) :
  sessions st !! id = Some s ->
  real_transcript transcript messages ->
  generateContent w (feedback_prompt (formatTranscript transcript messages))
  = ModelText text ->
  JSON_parse w (clean_response text) = None ->
  exists st' fb s' n,
    run (generateFeedbackFromTranscript w id transcript messages) st
    = (Returned fb, st')
    /\ sessions st' !! id = Some s'
    /\ get_prop fb "totalScore" = JInt n
    /\ overallScore s' = JInt n
    /\ (1 <= n <= 100)%Z
    /\ (JsString.contains_digit (clean_response text) = false -> n = 75%Z)
    /\ get_prop fb "finalAssessment"
       = JStr (JsString.js_substring 0 1000 (clean_response text))
    /\ (String.length (JsString.js_substring 0 1000 (clean_response text)) <= 1000)%nat
    /\ detailedFeedback s'
       = (if JsString.is_empty (clean_response text)
          then JStr "Feedback generated"
          else JStr (JsString.js_substring 0 1000 (clean_response text))).
Proof.
  intros Hs Hlong Hmodel Hparse.
  assert (Hfb : ensure_structure (parse_feedback w (clean_response text)) = Some _)
    by (unfold parse_feedback; rewrite Hparse; apply parse_fallback_checked).
  destruct (run_model_text w st id s transcript messages Hs text _ _
              (real_transcript_proceeds _ _ Hlong) Hmodel Hfb eq_refl)
    as (st' & Hrun & Hst').
  assert (Hkept : total_kept (clean_response text) <> 0%Z)
    by (pose proof (total_kept_range (clean_response text)); lia).
  eexists st', _, _, (total_kept (clean_response text)).
  split; [exact Hrun|]. split; [exact Hst'|].
  split; [reflexivity|].
  split; [cbn; apply (rounded_or_integer w _ 75 Hkept)|].
  split; [apply total_kept_range|].
  split; [apply total_kept_no_digit|].
  split; [reflexivity|].
  split; [apply substring_length_le|].
  cbn [apply_data detailedFeedback default from_option updateData
       category_score d_detailedFeedback].
  destruct (clean_response text) as [|c rest]; reflexivity.
Qed.

Lemma unparsed_answer_bounds_witness :
  let w := Example.plain_world None (ModelText "I would rate this 140 out of 100.") None in
  let st := Example.store_with Example.in_progress in
  exists st' fb s',
    run (generateFeedbackFromTranscript w 1 Example.long_transcript []) st
    = (Returned fb, st')
    /\ sessions st' !! 1%N = Some s'
    /\ (exists n, overallScore s' = JInt n /\ (1 <= n <= 100)%Z)
    /\ detailedFeedback s' = JStr "I would rate this 140 out of 100.".
Proof.
  intros w st.
  destruct (unparsed_answer_bounds w st 1%N Example.in_progress
              Example.long_transcript [] "I would rate this 140 out of 100.")
    as (st' & fb & s' & n & Hrun & Hs' & _ & Ho & Hn & _ & _ & _ & Hd).
  - reflexivity.
  - vm_compute. lia.
  - reflexivity.
  - reflexivity.
  - exists st', fb, s'. split; [exact Hrun|]. split; [exact Hs'|].
    split; [now exists n | exact Hd].
Defined.

(** ** Cleaning the answer of the collaborator *)

Lemma strip_fences_from_drop k s :
  JsString.strip_fences_from k s
  = JsString.strip_fences_from 0 (JsString.drop k s).
Proof.
  revert k. induction s as [|c s IH]; intros [|k]; try reflexivity.
  cbn [JsString.strip_fences_from JsString.drop]. apply IH.
Qed.

Lemma drop_length k s : (String.length (JsString.drop k s) <= String.length s)%nat.
Proof.
  revert s. induction k as [|k IH]; intros [|c s]; cbn; try lia.
  specialize (IH s). lia.
Qed.

Lemma fence_length_some s n :
  JsString.fence_length s = Some n -> JsString.starts_with "```" s = true.
Proof.
  unfold JsString.fence_length.
  destruct (JsString.starts_with "```" s); [reflexivity | discriminate].
Qed.

Lemma fence_length_none s :
  JsString.fence_length s = None -> JsString.starts_with "```" s = false.
Proof.
  unfold JsString.fence_length.
  destruct (JsString.starts_with "```" s); [discriminate | reflexivity].
Qed.

Lemma starts_with_cons a p b s :
  JsString.starts_with (String a p) (String b s)
  = Ascii.eqb a b && JsString.starts_with p s.
Proof. reflexivity. Qed.

Lemma stripped_one_backtick s :
  JsString.starts_with "`" (JsString.strip_fences_from 0 s) = true ->
  JsString.starts_with "`" s = true.
Proof.
  destruct s as [|c s]; [intros H; discriminate H|].
  cbn [JsString.strip_fences_from].
  destruct (JsString.fence_length (String c s)) as [n|] eqn:E.
  - intros _. apply fence_length_some in E.
    rewrite starts_with_cons in E |- *.
    apply andb_true_iff in E as [-> _]. reflexivity.
  - rewrite !starts_with_cons. intros H.
    apply andb_true_iff in H as [-> _]. reflexivity.
Qed.

Lemma stripped_two_backticks s :
  JsString.starts_with "``" (JsString.strip_fences_from 0 s) = true ->
  JsString.starts_with "``" s = true.
Proof.
  destruct s as [|c s]; [intros H; discriminate H|].
  cbn [JsString.strip_fences_from].
  destruct (JsString.fence_length (String c s)) as [n|] eqn:E.
  - intros _. apply fence_length_some in E.
    rewrite starts_with_cons in E |- *.
    apply andb_true_iff in E as [-> E]. cbn [andb].
    destruct s as [|c1 s]; [discriminate E|].
    rewrite starts_with_cons in E |- *.
    apply andb_true_iff in E as [-> _]. reflexivity.
  - rewrite !starts_with_cons. intros H.
    apply andb_true_iff in H as [-> H]. cbn [andb].
    exact (stripped_one_backtick s H).
Qed.

Lemma strip_fences_from_clean n s :
  (String.length s <= n)%nat ->
  has_fence (JsString.strip_fences_from 0 s) = false.
Proof.
  revert s. induction n as [|n IH]; intros [|c s] Hlen; try reflexivity;
    cbn [String.length] in Hlen; [lia|].
  cbn [JsString.strip_fences_from].
  destruct (JsString.fence_length (String c s)) as [k|] eqn:E.
  - rewrite strip_fences_from_drop. apply IH.
    pose proof (drop_length (Nat.pred k) s). lia.
  - cbn [has_fence]. rewrite (IH s) by lia. rewrite orb_false_r.
    apply fence_length_none in E.
    destruct (JsString.starts_with "```"
                (String c (JsString.strip_fences_from 0 s))) eqn:F; [|reflexivity].
    rewrite starts_with_cons in E, F.
    apply andb_true_iff in F as [Hc F].
    rewrite Hc in E. cbn [andb] in E.
    rewrite (stripped_two_backticks s F) in E. discriminate E.
Qed.

Lemma starts_with_trimEnd p s :
  JsString.starts_with p (JsString.trimEnd s) = true ->
  JsString.starts_with p s = true.
Proof.
  revert p. induction s as [|c s IH]; intros p; [auto|].
  cbn [JsString.trimEnd].
  destruct (JsString.is_space c && JsString.is_empty (JsString.trimEnd s)).
  - destruct p; [reflexivity | intros H; discriminate H].
  - destruct p as [|a p]; [reflexivity|].
    rewrite !starts_with_cons. intros H.
    apply andb_true_iff in H as [-> H]. now apply IH.
Qed.

Lemma trimEnd_clean s : has_fence s = false -> has_fence (JsString.trimEnd s) = false.
Proof.
  induction s as [|c s IH]; [auto|].
  cbn [has_fence JsString.trimEnd]. intros H.
  apply orb_false_iff in H as [H1 H2].
  destruct (JsString.is_space c && JsString.is_empty (JsString.trimEnd s)) eqn:E;
    [reflexivity|].
  cbn [has_fence]. rewrite (IH H2), orb_false_r.
  destruct (JsString.starts_with "```" (String c (JsString.trimEnd s))) eqn:F;
    [|reflexivity].
  assert (K : JsString.starts_with "```" (JsString.trimEnd (String c s)) = true)
    by (cbn [JsString.trimEnd]; rewrite E; exact F).
  apply starts_with_trimEnd in K. congruence.
Qed.

Lemma trimStart_clean s : has_fence s = false -> has_fence (JsString.trimStart s) = false.
Proof.
  induction s as [|c s IH]; [auto|].
  intros H. cbn [JsString.trimStart].
  destruct (JsString.is_space c); [|exact H].
  apply IH. cbn [has_fence] in H. now apply orb_false_iff in H as [_ H].
Qed.

Lemma trim_clean s : has_fence s = false -> has_fence (JsString.trim s) = false.
Proof. intros H. unfold JsString.trim. now apply trimEnd_clean, trimStart_clean. Qed.

Lemma starts_with_substring p n s :
  JsString.starts_with p (substring 0 n s) = true -> JsString.starts_with p s = true.
Proof.
  revert p s. induction n as [|n IH]; intros [|a p] [|c s]; cbn [substring];
    try reflexivity; try (intros H; discriminate H).
  rewrite !starts_with_cons. intros H.
  apply andb_true_iff in H as [-> H]. now apply IH.
Qed.

Lemma substring_0_clean n s :
  has_fence s = false -> has_fence (substring 0 n s) = false.
Proof.
  revert s. induction n as [|n IH]; intros [|c s]; cbn [substring]; try reflexivity.
  cbn [has_fence]. intros H. apply orb_false_iff in H as [H1 H2].
  rewrite (IH s H2), orb_false_r.
  destruct (JsString.starts_with "```" (String c (substring 0 n s))) eqn:F;
    [|reflexivity].
  assert (K : JsString.starts_with "```" (substring 0 (S n) (String c s)) = true)
    by exact F.
  apply starts_with_substring in K. congruence.
Qed.

Lemma substring_clean a n s :
  has_fence s = false -> has_fence (substring a n s) = false.
Proof.
  revert s. induction a as [|a IH]; intros s H; [now apply substring_0_clean|].
  destruct s as [|c s]; [reflexivity|].
  cbn [substring]. apply IH. cbn [has_fence] in H.
  now apply orb_false_iff in H as [_ H].
Qed.

Lemma strip_fences_from_fixed s :
  has_fence s = false -> JsString.strip_fences_from 0 s = s.
Proof.
  induction s as [|c s IH]; [reflexivity|].
  cbn [has_fence]. intros H. apply orb_false_iff in H as [H1 H2].
  cbn [JsString.strip_fences_from]. unfold JsString.fence_length.
  rewrite H1. now rewrite (IH H2).
Qed.

(** X21. The replacement of code fences is complete: whatever the
    collaborator answers, the text left once the fences are removed holds
    no three backticks in a row, so removing fences a second time changes
    nothing; and neither of the two texts handed to JSON.parse, the one of
    generateInterviewQuestions and the one of
    generateFeedbackFromTranscript, holds three backticks in a row. *)
Theorem fences_all_removed (text : string) :
  has_fence (JsString.strip_fences text) = false
  /\ JsString.strip_fences (JsString.strip_fences text) = JsString.strip_fences text
  /\ has_fence (JsString.trim (JsString.strip_fences text)) = false
  /\ has_fence (clean_response text) = false.
Proof.
  assert (H : forall s, has_fence (JsString.strip_fences s) = false)
    by (intros s; exact (strip_fences_from_clean _ s (Nat.le_refl _))).
  split; [apply H|].
  split; [apply strip_fences_from_fixed, H|].
  split; [apply trim_clean, H|].
  unfold clean_response.
  pose proof (trim_clean _ (H (JsString.trim text))) as Hc.
  destruct (JsString.indexOf "{" _) as [i|]; [|exact Hc].
  destruct (JsString.lastIndexOf "}" _) as [j|]; [|exact Hc].
  destruct (i <? j)%nat; [|exact Hc].
  unfold JsString.js_substring.
  destruct (i <=? j + 1)%nat; now apply substring_clean.
Qed.

Lemma indexOf_app c pre rest :
  JsString.contains_char c pre = false ->
  JsString.indexOf c (pre ++ String c rest) = Some (String.length pre).
Proof.
  induction pre as [|a pre IH]; intros H.
  - change (EmptyString ++ String c rest) with (String c rest).
    cbn [JsString.indexOf String.length]. now rewrite Ascii.eqb_refl.
  - cbn [JsString.contains_char] in H. apply orb_false_iff in H as [H1 H2].
    change (String a pre ++ String c rest) with (String a (pre ++ String c rest)).
    cbn [JsString.indexOf String.length]. now rewrite H1, (IH H2).
Qed.

Lemma lastIndexOf_none c s :
  JsString.contains_char c s = false -> JsString.lastIndexOf c s = None.
Proof.
  induction s as [|a s IH]; [reflexivity|].
  cbn [JsString.contains_char JsString.lastIndexOf]. intros H.
  apply orb_false_iff in H as [H1 H2]. now rewrite (IH H2), H1.
Qed.

Lemma lastIndexOf_app c a post :
  JsString.contains_char c post = false ->
  JsString.lastIndexOf c (a ++ String c post) = Some (String.length a).
Proof.
  intros H. induction a as [|x a IH].
  - change (EmptyString ++ String c post) with (String c post).
    cbn [JsString.lastIndexOf String.length].
    now rewrite (lastIndexOf_none _ _ H), Ascii.eqb_refl.
  - change (String x a ++ String c post) with (String x (a ++ String c post)).
    cbn [JsString.lastIndexOf String.length]. now rewrite IH.
Qed.

Lemma substring_skip pre n s :
  substring (String.length pre) n (pre ++ s) = substring 0 n s.
Proof.
  induction pre as [|a pre IH]; [reflexivity|].
  change (String a pre ++ s) with (String a (pre ++ s)).
  cbn [String.length substring]. exact IH.
Qed.

Lemma substring_prefix a b : substring 0 (String.length a) (a ++ b) = a.
Proof.
  induction a as [|x a IH]; [destruct b; reflexivity|].
  change (String x a ++ b) with (String x (a ++ b)).
  cbn [String.length substring]. now rewrite IH.
Qed.

Lemma length_append a b :
  String.length (a ++ b) = (String.length a + String.length b)%nat.
Proof.
  induction a as [|x a IH]; [reflexivity|].
  change (String x a ++ b) with (String x (a ++ b)).
  cbn [String.length]. now rewrite IH.
Qed.

(** X22. Text around the outermost braces is dropped. When the answer,
    trimmed and with its fences removed, reads as some text without an
    opening brace, then an opening brace, a body and a closing brace, then
    some text without a closing brace, the text handed to JSON.parse by
    generateFeedbackFromTranscript is the braces with the body between
    them. *)
Theorem outer_braces_extracted (text pre body post : string) :
  JsString.trim (JsString.strip_fences (JsString.trim text))
  = pre ++ "{" ++ body ++ "}" ++ post ->
  JsString.contains_char "{" pre = false ->
  JsString.contains_char "}" post = false ->
  clean_response text = "{" ++ body ++ "}".
Proof.
  intros Hshape Hpre Hpost. unfold clean_response. rewrite Hshape.
  set (S := pre ++ "{" ++ body ++ "}" ++ post).
  assert (Hi : JsString.indexOf "{" S = Some (String.length pre))
    by exact (indexOf_app "{" pre (body ++ "}" ++ post) Hpre).
  assert (Hj : JsString.lastIndexOf "}" S
               = Some (String.length pre + 1 + String.length body)%nat).
  { replace S with ((pre ++ "{" ++ body) ++ String "}" post)
      by (unfold S; rewrite !append_assoc; reflexivity).
    rewrite (lastIndexOf_app _ _ _ Hpost), !length_append.
    cbn [String.length]. f_equal. lia. }
  rewrite Hi, Hj.
  destruct (Nat.ltb_spec (String.length pre)
              (String.length pre + 1 + String.length body)); [|lia].
  unfold JsString.js_substring.
  destruct (Nat.leb_spec (String.length pre)
              (String.length pre + 1 + String.length body + 1)); [|lia].
  replace (String.length pre + 1 + String.length body + 1 - String.length pre)%nat
    with (String.length ("{" ++ body ++ "}"))
    by (rewrite !length_append; cbn [String.length]; lia).
  unfold S. rewrite substring_skip.
  replace ("{" ++ body ++ "}" ++ post) with (("{" ++ body ++ "}") ++ post)
    by (rewrite !append_assoc; reflexivity).
  apply substring_prefix.
Qed.

Lemma outer_braces_extracted_witness :
  clean_response
    ("Here is the evaluation:" ++ JsString.newline ++ "```json" ++ JsString.newline
     ++ "{" ++ JsString.dquote ++ "totalScore" ++ JsString.dquote ++ ":80}"
     ++ JsString.newline ++ "```" ++ JsString.newline ++ "Hope this helps!")
  = "{" ++ JsString.dquote ++ "totalScore" ++ JsString.dquote ++ ":80}".
Proof.
  apply (outer_braces_extracted _
           ("Here is the evaluation:" ++ JsString.newline)
           (JsString.dquote ++ "totalScore" ++ JsString.dquote ++ ":80")
           (JsString.newline ++ "Hope this helps!")); reflexivity.
Defined.

(** ** Completion without a deadline *)

(** X23. When the timer of handleInterviewComplete does not fire,
    completing an existing session is recording the call analytics,
    deriving the feedback and reading the session back: the feedback
    returned is the document that generateFeedbackFromTranscript returns,
    and the session returned is the one that the derivation stored. *)
Theorem complete_returns_derived_feedback (w : World) (st : Store) (id : N)
    (s : Session) (transcript : string) (messages : list Message)
    (fb : JsValue) (st2 : Store) :
  feedback_deadline w = None ->
  sessions st !! id = Some s ->
  run (generateFeedbackFromTranscript w id transcript messages)
      (store_at_race w id s transcript messages st) = (Returned fb, st2) ->
  run (handleInterviewComplete w id transcript messages) st
  = (Returned {| completed_session := sessions st2 !! id; feedback := fb |}, st2)
  /\ sessions (store_at_race w id s transcript messages st) = sessions st.
Proof.
  intros Hdeadline Hs Hrun. split.
  - revert Hrun.
    unfold handleInterviewComplete, store_at_race, complete_analytics.
    async_eval. rewrite Hs, Hdeadline. async_eval.
    destruct (generateFeedbackFromTranscript w id transcript messages _)
      as [[fb'|e|] m2]; intros [= <- <-]. reflexivity.
  - unfold store_at_race, complete_analytics. async_eval. reflexivity.
Qed.

Lemma complete_returns_derived_feedback_witness :
  let w := Example.plain_world None (ModelThrows "quota exceeded") None in
  let st := Example.store_with Example.in_progress in
  exists st2,
    run (handleInterviewComplete w 1 Example.long_transcript []) st
    = (Returned {| completed_session := sessions st2 !! 1%N;
                   feedback := model_error_fallback |}, st2).
Proof.
  intros w st. eexists.
  apply (complete_returns_derived_feedback w st 1%N Example.in_progress
           Example.long_transcript [] model_error_fallback);
    [reflexivity | reflexivity |].
  vm_compute. reflexivity.
Defined.

(** ** What the call analytics keep of the collaborator *)



(** ** The client *)

(** X25. handleSessionComplete replaces list entries by identifier and
    does nothing else to the list: the identifiers stay the same, in the
    same order; every entry of the new list is the updated session or an
    entry of the old list with another identifier; when no entry has the
    identifier of the updated session the list is unchanged, so a result
    for a session that the list does not hold is dropped; and applying the
    same update twice is applying it once. *)
Theorem session_list_update (updated : ClientSession) (c : ClientState) :
  let c' := handleSessionComplete updated c in
  map cs_id (client_sessions c') = map cs_id (client_sessions c)
  /\ (forall s, In s (client_sessions c') ->
        s = updated \/ (In s (client_sessions c) /\ cs_id s <> cs_id updated))
  /\ ((exists s, In s (client_sessions c) /\ cs_id s = cs_id updated) ->
      In updated (client_sessions c'))
  /\ ((forall s, In s (client_sessions c) -> cs_id s <> cs_id updated) ->
      client_sessions c' = client_sessions c)
  /\ handleSessionComplete updated c' = c'.
Proof.
  cbv zeta. unfold handleSessionComplete. cbn [client_sessions view].
  set (f := fun session : ClientSession =>
              if (cs_id session =? cs_id updated)%N then updated else session).
  split; [|split; [|split; [|split]]].
  - rewrite map_map. apply map_ext. intros s. unfold f.
    destruct (N.eqb_spec (cs_id s) (cs_id updated)) as [E|E]; congruence.
  - intros s Hin. apply in_map_iff in Hin as (s0 & Hs0 & Hin). unfold f in Hs0.
    destruct (N.eqb_spec (cs_id s0) (cs_id updated)) as [E|E];
      [left; congruence | right; subst s0; auto].
  - intros (s & Hin & Hid). apply in_map_iff. exists s. split; [|exact Hin].
    unfold f. now rewrite Hid, N.eqb_refl.
  - intros Hnone. rewrite <- (map_id (client_sessions c)) at 2.
    apply map_ext_in. intros s Hin. unfold f.
    destruct (N.eqb_spec (cs_id s) (cs_id updated)) as [E|E];
      [now destruct (Hnone s Hin) | reflexivity].
  - f_equal. rewrite map_map. apply map_ext. intros s. unfold f.
    destruct (N.eqb_spec (cs_id s) (cs_id updated)) as [E|E].
    + now rewrite N.eqb_refl.
    + apply N.eqb_neq in E. now rewrite E.
Qed.

Lemma preview_texts_strings l :
  preview_texts (map JStr l) = Some (map (fun _ => JUndefined) l).
Proof. induction l as [|q l IH]; cbn; [reflexivity | now rewrite IH]. Qed.

(** X26. The preview of the setup screen reads the property question of
    each stored question, but the questions that createInterviewSession
    stores from its fixed list are strings, which have no such property.
    For a caller who is signed in, when the collaborator throws or
    JSON.parse throws on its cleaned answer, the session returned has 8
    questions and the preview shows three numbered lines, none of them
    with a question text. *)
Theorem preview_shows_no_text (w : World) (st : Store) (sd : SessionInput)
    (u : User) :
  signed_in w st u ->
  ((exists msg, generateContent w (questions_prompt sd u) = ModelThrows msg)
   \/ (exists text,
         generateContent w (questions_prompt sd u) = ModelText text
         /\ JSON_parse w (JsString.trim (JsString.strip_fences text)) = None)) ->
  exists c st',
    run (createInterviewSession w sd) st = (Returned c, st')
    /\ length (array_elems (questions (created_session c))) = 8%nat
    /\ questions_preview (array_elems (questions (created_session c)))
       = Some [JUndefined; JUndefined; JUndefined].
Proof.
  intros Hin Hfail.
  destruct (create_stores w st sd u Hin) as (c & st' & Hrun & _ & _ & Hc).
  exists c, st'. split; [exact Hrun|].
  assert (Hq : questions (created_session c)
               = questions_value (fallback_questions (in_role sd))).
  { rewrite Hc. unfold stored_questions. cbn [questions new_session].
    destruct Hfail as [(msg & ->) | (text & -> & ->)]; reflexivity. }
  rewrite Hq. unfold questions_value, JArray. cbn [array_elems].
  split; [reflexivity|].
  unfold questions_preview. rewrite firstn_map. apply preview_texts_strings.
Qed.

Lemma preview_shows_no_text_witness :
  let w := Example.plain_world (Some "clerk_alice") (ModelThrows "quota exceeded") None in
  let st := Example.store_with Example.in_progress in
  exists c st',
    run (createInterviewSession w Example.engineer) st = (Returned c, st')
    /\ questions_preview (array_elems (questions (created_session c)))
       = Some [JUndefined; JUndefined; JUndefined].
Proof.
  intros w st.
  destruct (preview_shows_no_text w st Example.engineer Example.alice)
    as (c & st' & Hrun & _ & Hp).
  - exists "clerk_alice". repeat split.
  - left. exists "quota exceeded". reflexivity.
  - now exists c, st'.
Defined.

Lemma join_snoc sep l x :
  JsString.join sep (l ++ [x])
  = if JsString.is_empty (JsString.join sep l) && match l with [] => true | _ => false end
    then x
    else JsString.join sep l ++ sep ++ x.
Proof.
  induction l as [|y l IH]; [reflexivity|].
  destruct l as [|z l].
  - cbn [app JsString.join]. rewrite andb_false_r. reflexivity.
  - change ((y :: z :: l) ++ [x])%list with (y :: ((z :: l) ++ [x]))%list.
    change (JsString.join sep (y :: ((z :: l) ++ [x])%list))
      with (y ++ sep ++ JsString.join sep ((z :: l) ++ [x])%list).
    rewrite IH. rewrite !andb_false_r.
    change (JsString.join sep (y :: z :: l))
      with (y ++ sep ++ JsString.join sep (z :: l)).
    now rewrite !append_assoc.
Qed.

Lemma join_nonempty sep l :
  Forall (fun s => nonempty s = true) l -> l <> [] ->
  JsString.is_empty (JsString.join sep l) = false.
Proof.
  intros Hall Hne. destruct l as [|x l]; [congruence|].
  inversion Hall as [|? ? Hx _]; subst.
  destruct x as [|c x]; [discriminate Hx|].
  destruct l; reflexivity.
Qed.

(** X27. Collecting the transcript on the client. When the text of every
    message is a string, the state after a run of message events holds all
    the messages in the order they came, and for transcript the texts that
    are not empty, in that order, joined by newlines; a message without
    text adds nothing to the transcript and no empty line. *)
Theorem transcript_collected (w : World) (events : list JsValue) :
  Forall (fun msg => exists s, maybeText msg = JStr s) events ->
  let final :=
    fold_left (on_message w) events
      {| collected_messages := []; collected_transcript := EmptyString |} in
  collected_messages final = events
  /\ collected_transcript final
     = JsString.join JsString.newline
         (List.filter nonempty (map message_text events)).
Proof.
  intros Hall. cbv zeta.
  assert (Hgen : forall done c,
            collected_messages c = done ->
            collected_transcript c
            = JsString.join JsString.newline
                (List.filter nonempty (map message_text done)) ->
            collected_messages (fold_left (on_message w) events c) = (done ++ events)%list
            /\ collected_transcript (fold_left (on_message w) events c)
               = JsString.join JsString.newline
                   (List.filter nonempty (map message_text (done ++ events)%list))).
  { induction Hall as [|msg events [s Hs] _ IH]; intros done c Hm Ht.
    - rewrite app_nil_r. cbn. auto.
    - cbn [fold_left].
      replace (done ++ msg :: events)%list with ((done ++ [msg]) ++ events)%list
        by (rewrite <- app_assoc; reflexivity).
      apply IH.
      + cbn. now rewrite Hm.
      + cbn [on_message collected_transcript].
        assert (Hmt : message_text msg = s)
          by (unfold message_text; now rewrite Hs).
        rewrite map_app, List.filter_app. cbn [map List.filter].
        rewrite Hmt, Hs. cbn [truthy template].
        change (nonempty s) with (negb (JsString.is_empty s)).
        destruct (JsString.is_empty s) eqn:Es; cbn [negb].
        * rewrite app_nil_r. exact Ht.
        * rewrite join_snoc.
          destruct (List.filter nonempty (map message_text done)) as [|t ts] eqn:Ef.
          { rewrite Ht. reflexivity. }
          rewrite andb_false_r.
          assert (Hne : JsString.is_empty (collected_transcript c) = false).
          { rewrite Ht. apply join_nonempty; [|discriminate].
            rewrite <- Ef. apply List.Forall_forall. intros x Hx.
            now apply List.filter_In in Hx as [_ Hx]. }
          now rewrite Hne, Ht. }
  destruct (Hgen [] {| collected_messages := []; collected_transcript := EmptyString |}
              eq_refl eq_refl) as [H1 H2].
  split; [exact H1 | exact H2].
Qed.

Lemma transcript_collected_witness :
  let w := Example.plain_world None (ModelText "{}") None in
  let events :=
    [ JObj [("type", JStr "transcript"); ("text", JStr "Hello.")];
      JObj [("type", JStr "status-update")];
      JObj [("message", JObj [("text", JStr "Tell me about yourself.")])] ] in
  collected_transcript
    (fold_left (on_message w) events
       {| collected_messages := []; collected_transcript := EmptyString |})
  = "Hello." ++ JsString.newline ++ "Tell me about yourself.".
Proof.
  intros w events.
  destruct (transcript_collected w events) as [_ H].
  - repeat constructor; eexists; reflexivity.
  - rewrite H. reflexivity.
Defined.

(** ** The clock *)

Lemma repeat_char_length n c : String.length (repeat_char n c) = n.
Proof. induction n as [|n IH]; cbn; [reflexivity | now rewrite IH]. Qed.

Lemma padStart_length n c s :
  String.length (padStart n c s) = Nat.max n (String.length s).
Proof. unfold padStart. rewrite length_append, repeat_char_length. lia. Qed.

Lemma two_digits (k : Z) :
  (0 <= k < 100)%Z ->
  String.length (padStart 2 "0" (JsString.decimal_of_Z k)) = 2%nat
  /\ JsString.number_of_digits (padStart 2 "0" (JsString.decimal_of_Z k)) = k.
Proof.
  intros Hk.
  assert (Hall : forallb two_digits_ok (seq 0 100) = true) by (vm_compute; reflexivity).
  rewrite forallb_forall in Hall.
  specialize (Hall (Z.to_nat k)).
  unfold two_digits_ok in Hall. rewrite Z2Nat.id in Hall by lia.
  apply andb_true_iff in Hall as [H1 H2]; [|apply in_seq; lia].
  split; [now apply Nat.eqb_eq | now apply Z.eqb_eq].
Qed.

(** X28. The clock of a call. For a whole number of seconds that is not
    negative, formatTime prints a minutes field, a colon and a seconds
    field; the seconds field has exactly two digits and reads as the
    seconds modulo 60, and the minutes field has at least two characters.
    Below 100 minutes the minutes field has exactly two digits and reads
    as the whole minutes, so the clock has five characters and the time
    can be read back from it. *)
Theorem clock_shape (s : Z) :
  (0 <= s)%Z ->
  exists mm ss,
    formatTime s = mm ++ ":" ++ ss
    /\ String.length ss = 2%nat
    /\ JsString.number_of_digits ss = (s mod 60)%Z
    /\ (2 <= String.length mm)%nat
    /\ ((s < 6000)%Z ->
        String.length mm = 2%nat
        /\ (60 * JsString.number_of_digits mm + JsString.number_of_digits ss)%Z = s).
Proof.
  intros Hs. unfold formatTime.
  rewrite Z.rem_mod_nonneg by lia.
  pose proof (Z.mod_pos_bound s 60 ltac:(lia)) as Hmod.
  destruct (two_digits (s mod 60)) as [L1 V1]; [lia|].
  eexists _, _. split; [reflexivity|].
  split; [exact L1|]. split; [exact V1|].
  split; [rewrite padStart_length; lia|].
  intros Hlt.
  assert (0 <= s / 60 < 100)%Z as Hdiv
    by (split; [apply Z.div_pos; lia | apply Z.div_lt_upper_bound; lia]).
  destruct (two_digits (s / 60) Hdiv) as [L2 V2].
  split; [exact L2|]. rewrite V1, V2.
  pose proof (Z.div_mod s 60 ltac:(lia)). lia.
Qed.

Lemma clock_shape_witness :
  exists mm ss,
    formatTime 754 = mm ++ ":" ++ ss
    /\ String.length ss = 2%nat
    /\ JsString.number_of_digits ss = 34%Z
    /\ String.length mm = 2%nat.
Proof.
  destruct (clock_shape 754 ltac:(lia)) as (mm & ss & H & L & V & _ & Hshort).
  exists mm, ss. split; [exact H|]. split; [exact L|]. split; [exact V|].
  apply Hshort. lia.
Defined.

(** ** The figures of the dashboard *)

Lemma number_fold w (f : Session -> JsValue) l :
  Forall (fun s => exists z, f s = JInt z /\ (0 <= z <= 100)%Z) l ->
  forall acc,
  exists total,
    fold_left (fun sum s => js_plus w sum (f s)) l (JNum (Num acc)) = JNum (Num total)
    /\ (acc <= total)%Q
    /\ (total <= acc + inject_Z (100 * Z.of_nat (length l)))%Q.
Proof.
  induction 1 as [|s l (z & Hz & Hrange) _ IH]; intros acc.
  - exists acc. cbn. split; [reflexivity|]. split; [apply Qle_refl|].
    rewrite Qplus_0_r. apply Qle_refl.
  - destruct (IH (acc + inject_Z z)%Q) as (total & Hfold & Hlo & Hhi).
    exists total. cbn [fold_left]. rewrite Hz.
    change (js_plus w (JNum (Num acc)) (JInt z)) with (JNum (Num (acc + inject_Z z))).
    split; [exact Hfold|].
    assert (H0 : (0 <= inject_Z z)%Q)
      by (change 0%Q with (inject_Z 0); rewrite <- Zle_Qle; lia).
    assert (H100 : (inject_Z z <= 100)%Q)
      by (change 100%Q with (inject_Z 100); rewrite <- Zle_Qle; lia).
    split.
    + apply Qle_trans with (acc + inject_Z z)%Q; [|exact Hlo].
      rewrite <- (Qplus_0_r acc) at 1. apply Qplus_le_r. exact H0.
    + eapply Qle_trans; [exact Hhi|].
      cbn [length]. rewrite Nat2Z.inj_succ.
      replace (100 * Z.succ (Z.of_nat (length l)))%Z
        with (100 + 100 * Z.of_nat (length l))%Z by lia.
      rewrite inject_Z_plus. rewrite <- Qplus_assoc. apply Qplus_le_r.
      apply Qplus_le_l. exact H100.
Qed.

Lemma score_or_zero v :
  score_value v -> exists z, js_or v (JInt 0) = JInt z /\ (0 <= z <= 100)%Z.
Proof.
  intros [-> | (z & -> & Hrange)].
  - exists 0%Z. split; [reflexivity | lia].
  - unfold js_or. rewrite truthy_JInt.
    destruct (z =? 0)%Z; cbn [negb]; [exists 0%Z | exists z]; split;
      try reflexivity; lia.
Qed.

Lemma score_fold w l :
  Forall scored l ->
  exists total,
    score_total w l = JNum (Num total)
    /\ (0 <= total)%Q
    /\ (total <= inject_Z (100 * Z.of_nat (length l)))%Q.
Proof.
  intros Hall.
  destruct (number_fold w (fun s => js_or (overallScore s) (JInt 0)) l) with (acc := 0%Q)
    as (total & Hfold & Hlo & Hhi).
  - eapply Forall_impl; [exact Hall|]. intros s Hs. now apply score_or_zero.
  - exists total. split; [exact Hfold|]. split; [exact Hlo|].
    now rewrite Qplus_0_l in Hhi.
Qed.

Lemma quotient_within total n :
  (0 < n)%Z ->
  (0 <= total)%Q ->
  (total <= inject_Z (100 * n))%Q ->
  Qeq_bool (inject_Z n) 0 = false
  /\ (0 <= total / inject_Z n)%Q
  /\ (total / inject_Z n <= 100)%Q.
Proof.
  intros Hn Hlo Hhi.
  assert (Hpos : (0 < inject_Z n)%Q)
    by (change 0%Q with (inject_Z 0); rewrite <- Zlt_Qlt; exact Hn).
  split; [|split].
  - destruct (Qeq_bool (inject_Z n) 0) eqn:E; [|reflexivity].
    apply Qeq_bool_eq in E. rewrite E in Hpos. discriminate Hpos.
  - apply Qle_shift_div_l; [exact Hpos|]. rewrite Qmult_0_l. exact Hlo.
  - apply Qle_shift_div_r; [exact Hpos|].
    eapply Qle_trans; [exact Hhi|]. rewrite inject_Z_mult. apply Qle_refl.
Qed.

Lemma round_within (x : Q) :
  (0 <= x)%Q -> (x <= 100)%Q -> (0 <= round_half_up x <= 100)%Z.
Proof.
  intros H0 H100. unfold round_half_up. split.
  - change 0%Z with (Qfloor 0). apply Qfloor_resp_le.
    apply Qle_trans with x; [exact H0|].
    rewrite <- (Qplus_0_r x) at 1. apply Qplus_le_r. discriminate.
  - change 100%Z with (Qfloor (100 + (1 # 2))). apply Qfloor_resp_le.
    apply Qplus_le_l. exact H100.
Qed.

Lemma score_average_bounded w l :
  Forall scored l ->
  exists q, score_average w l = Some (Num q) /\ (0 <= q)%Q /\ (q <= 100)%Q.
Proof.
  intros Hall. unfold score_average.
  destruct l as [|s l].
  - exists 0%Q. cbn. repeat split; discriminate.
  - set (n := length (s :: l)).
    assert (Hn : (0 < Z.of_nat n)%Z) by (unfold n; cbn [length]; lia).
    replace (0 <? n)%nat with true by (symmetry; apply Nat.ltb_lt; lia).
    destruct (score_fold w (s :: l) Hall) as (total & Hfold & Hlo & Hhi).
    rewrite Hfold. cbn [ToNumber num_div].
    destruct (quotient_within total (Z.of_nat n) Hn Hlo Hhi) as (Hne & Q0 & Q100).
    rewrite Hne. eexists. split; [reflexivity|]. split; assumption.
Qed.

Lemma scored_firstn n l : Forall scored l -> Forall scored (firstn n l).
Proof. apply Forall_take. Qed.

Lemma scored_skipn n l : Forall scored l -> Forall scored (skipn n l).
Proof. apply Forall_drop. Qed.

Lemma completed_scored all :
  Forall (fun s => status s = COMPLETED -> scored s) all ->
  Forall scored (List.filter is_completed all).
Proof.
  intros H. apply List.Forall_forall. intros s Hs.
  apply List.filter_In in Hs as [Hin Hc].
  rewrite List.Forall_forall in H. apply (H s Hin).
  unfold is_completed in Hc. now destruct (status s).
Qed.

(** X29. The figures of the dashboard. When every COMPLETED session has
    for overallScore null or a whole number from 0 to 100, calculateStats
    yields figures (no division by zero arises): the number of sessions,
    the number of completed ones, which is at most the former, an average
    score that is a whole number from 0 to 100, and an improvement rate
    that is a whole number. The average is 0 when no session is completed,
    and the rate is 0 as long as at most three sessions are completed. *)
Theorem dashboard_figures (w : World) (all : list Session) :
  Forall (fun s => status s = COMPLETED -> scored s) all ->
  exists stats a r,
    calculateStats w all = Some stats
    /\ totalSessions stats = length all
    /\ completedSessions stats = length (List.filter is_completed all)
    /\ (completedSessions stats <= totalSessions stats)%nat
    /\ averageScore stats = Num (inject_Z a)
    /\ (0 <= a <= 100)%Z
    /\ improvementRate stats = Num (inject_Z r)
    /\ (completedSessions stats = 0%nat -> a = 0%Z)
    /\ ((completedSessions stats <= 3)%nat -> r = 0%Z).
Proof.
  intros Hall. unfold calculateStats.
  set (completed := List.filter is_completed all).
  pose proof (completed_scored all Hall) as Hc. fold completed in Hc.
  destruct (score_average_bounded w completed Hc) as (avg & Havg & A0 & A100).
  destruct (score_average_bounded w (firstn 3 completed) (scored_firstn _ _ Hc))
    as (rec & Hrec & _ & _).
  destruct (score_average_bounded w (firstn 3 (skipn 3 completed))
              (scored_firstn _ _ (scored_skipn _ _ Hc)))
    as (prev & Hprev & P0 & _).
  rewrite Havg, Hrec, Hprev. cbn [mbind option_bind num_gt].
  assert (Hlen : (length completed <= length all)%nat)
    by apply List.filter_length_le.
  destruct (Qle_bool prev 0) eqn:Eprev; cbn [negb].
  - (* no earlier sessions to compare with, or their average is 0 *)
    eexists _, (round_half_up avg), 0%Z. split; [reflexivity|].
    cbn [totalSessions completedSessions averageScore improvementRate round_num].
    repeat split; try (apply round_within; assumption); try exact Hlen.
    intros H0. apply length_zero_iff_nil in H0.
    revert Havg. rewrite H0. cbn. intros [= <-]. reflexivity.
  - (* the earlier sessions have a positive average *)
    assert (Hne : Qeq_bool prev 0 = false).
    { destruct (Qeq_bool prev 0) eqn:E; [|reflexivity].
      apply Qeq_bool_eq in E.
      assert (Hle : Qle_bool prev 0 = true)
        by (apply Qle_bool_iff; rewrite E; apply Qle_refl).
      congruence. }
    cbn [num_sub num_div]. rewrite Hne. cbn [mbind option_bind num_mul].
    eexists _, (round_half_up avg), _. split; [reflexivity|].
    cbn [totalSessions completedSessions averageScore improvementRate round_num].
    repeat split; try (apply round_within; assumption); try exact Hlen.
    + intros H0. apply length_zero_iff_nil in H0.
      revert Havg. rewrite H0. cbn. intros [= <-]. reflexivity.
    + intros H3. exfalso.
      assert (Hskip : skipn 3 completed = []) by (apply skipn_all2; exact H3).
      revert Hprev. rewrite Hskip. cbn. intros [= <-]. discriminate Eprev.
Qed.

Lemma dashboard_figures_witness :
  let w := Example.plain_world None (ModelText "{}") None in
  exists stats,
    calculateStats w [Example.scheduled; Cases.completed_with 80; Cases.completed_with 71]
    = Some stats
    /\ totalSessions stats = 3%nat
    /\ completedSessions stats = 2%nat
    /\ averageScore stats = Num (inject_Z 76).
Proof.
  intros w.
  destruct (dashboard_figures w
              [Example.scheduled; Cases.completed_with 80; Cases.completed_with 71])
    as (stats & a & r & Hstats & Ht & Hc & _ & Ha & _).
  - constructor; [intros H; discriminate H|].
    constructor; [intros _; right; exists 80%Z; split; [reflexivity | lia]|].
    constructor; [intros _; right; exists 71%Z; split; [reflexivity | lia]|].
    constructor.
  - exists stats. split; [exact Hstats|]. split; [exact Ht|]. split; [exact Hc|].
    revert Hstats. vm_compute. intros [= <-]. reflexivity.
Defined.

Lemma rated_values (f : Session -> JsValue) all :
  Forall (fun s => score_value (f s)) all ->
  Forall (fun s => exists z, f s = JInt z /\ (0 <= z <= 100)%Z)
    (List.filter (fun s => truthy (f s)) all).
Proof.
  intros H. apply List.Forall_forall. intros s Hs.
  apply List.filter_In in Hs as [Hin Ht].
  rewrite List.Forall_forall in H.
  destruct (H s Hin) as [Hnull | Hz]; [|exact Hz].
  rewrite Hnull in Ht. discriminate Ht.
Qed.

(** X30. The category averages of the dashboard. When the field averaged
    (technicalScore, communicationScore or confidenceScore) is, in every
    session, null or a whole number from 0 to 100, the figure printed is a
    whole number from 0 to 100. Sessions in which the field is null or 0
    are left out of the average, and when that leaves no session the
    quotient 0/0 is replaced by 0: the figure is 0, never NaN. *)
Theorem category_average_figure (w : World) (field : Session -> JsValue)
    (all : list Session) :
  Forall (fun s => score_value (field s)) all ->
  exists a,
    category_average w field all = Some (JInt a)
    /\ (0 <= a <= 100)%Z
    /\ (Forall (fun s => truthy (field s) = false) all -> a = 0%Z).
Proof.
  intros Hall. unfold category_average.
  set (rated := List.filter (fun s => truthy (field s)) all).
  pose proof (rated_values field all Hall) as Hr. fold rated in Hr.
  destruct (number_fold w field rated Hr 0%Q) as (total & Hfold & Hlo & Hhi).
  change (JNum (Num 0)) with (JInt 0) in Hfold. rewrite Hfold.
  rewrite Qplus_0_l in Hhi. cbn [ToNumber].
  destruct rated as [|s0 rest] eqn:Er.
  - (* no session is rated: 0/0 *)
    cbn in Hfold. injection Hfold as <-.
    exists 0%Z. split; [reflexivity|]. split; [lia | reflexivity].
  - assert (Hn : (0 < Z.of_nat (length (s0 :: rest)))%Z) by (cbn [length]; lia).
    destruct (quotient_within total _ Hn Hlo Hhi) as (Hne & Q0 & Q100).
    unfold num_div. rewrite Hne. cbn [mbind option_bind].
    unfold js_or, Math_round.
    destruct (truthy (JNum (Num (total / inject_Z (Z.of_nat (length (s0 :: rest)))))));
      cbn [ToNumber round_num].
    + eexists. split; [reflexivity|].
      split; [apply round_within; assumption|].
      intros Hnone. exfalso.
      assert (Hin : In s0 (List.filter (fun s => truthy (field s)) all))
        by (fold rated; rewrite Er; left; reflexivity).
      apply List.filter_In in Hin as [Hin Ht].
      rewrite List.Forall_forall in Hnone. rewrite (Hnone s0 Hin) in Ht.
      discriminate Ht.
    + exists 0%Z. split; [reflexivity|]. split; [lia | reflexivity].
Qed.

Lemma category_average_figure_witness :
  let w := Example.plain_world None (ModelText "{}") None in
  category_average w technicalScore [Example.scheduled; Example.in_progress]
  = Some (JInt 0).
Proof.
  intros w.
  destruct (category_average_figure w technicalScore
              [Example.scheduled; Example.in_progress])
    as (a & Ha & _ & Hzero).
  - constructor; [left; reflexivity|]. constructor; [left; reflexivity|]. constructor.
  - rewrite Ha, Hzero; [reflexivity|]. repeat constructor.
Defined.
